(** * Moving-average strategy analyzer: backtest engine and optimizer

    A shallow embedding of [CryptoStrategyAnalyzer] (data_processor.py):
    the metrics calculator, the signal generator, the backtest of one
    (strategy, window) trial, the sweep over candidate windows and the
    assembly of the exported result mapping.

    Numbers.  Prices, moving averages, signals and period returns only use
    field operations and comparisons, so they are embedded as exact
    rationals [Q] and stay executable.  The annualised metrics need a square
    root and a real power; they live in [R].  A float that may be NaN is an
    [option]: [None] is NaN (pandas' missing-value marker).  Rounding and
    infinities are not modelled: the embedding idealises binary floats as
    exact numbers, and the only divisions whose divisor is not guarded by
    the source are by a price, which is strictly positive for a quoted
    asset.

    Effects.  An exception inside a trial is an [option]; the [try] block
    turns it into the empty dict.  The thread pool is its observable
    state: the result each finished future holds, given the trials that
    finish in time in the order the workers complete them.  The clock and
    the download are inputs of the run.

    Around the analyzer.  The class methods of [Config] (config.py), the
    counters and the return flag of the scheduler's [run_analysis]
    (scheduler.py) and the conditions by which the dashboard chooses what
    to show (enhanced_app.py) are embedded in modules of their own; what
    they log, send or draw is not modelled. *)

From Stdlib Require Import ZArith QArith Qminmax Qreals Reals Lqa Lra Lia.
From stdpp Require Import gmap strings list fin_maps.

Open Scope Q_scope.

(** ** Series *)

Module Series.

(** A pandas float [Series]; [None] is NaN. *)
Abbreviation series := (list (option Q)).

Definition Qsum (l : list Q) : Q := foldr Qplus 0 l.
Definition Qprod (l : list Q) : Q := foldr Qmult 1 l.
Definition Qlen (l : list Q) : Q := inject_Z (Z.of_nat (length l)).

(** [x > y] and [x <= y] on floats that are numbers. *)
Definition Qgtb (x y : Q) : bool :=
  match x ?= y with Gt => true | _ => false end.
Definition Qleb (x y : Q) : bool :=
  match x ?= y with Gt => false | _ => true end.
Definition Qltb (x y : Q) : bool :=
  match x ?= y with Lt => true | _ => false end.

(** [s.rolling(window=W, min_periods=W).mean()]: the mean of the last [W]
    observations, NaN while fewer than [W] exist. *)
Definition rolling_mean (W : nat) (p : list Q) : series :=
  map (fun i =>
         if bool_decide (1 <= W <= S i)%nat
         then Some (Qsum (take W (drop (S i - W) p)) / inject_Z (Z.of_nat W))
         else None)
      (seq 0 (length p)).

(** Boolean masks [price > ma] and [price <= ma]; a comparison with NaN is
    false. *)
Definition gt_mask (p : list Q) (ma : series) : list bool :=
  zip_with (fun x m => match m with Some v => Qgtb x v | None => false end) p ma.
Definition le_mask (p : list Q) (ma : series) : list bool :=
  zip_with (fun x m => match m with Some v => Qleb x v | None => false end) p ma.

(** [s[mask] = v]. *)
Definition assign (mask : list bool) (v : Q) (s : series) : series :=
  zip_with (fun (b : bool) x => if b then Some v else x) mask s.

(** [fillna(method='ffill')]: carry the last defined value forward. *)
Fixpoint ffill_from (last : option Q) (s : series) : series :=
  match s with
  | [] => []
  | Some v :: r => Some v :: ffill_from (Some v) r
  | None :: r => last :: ffill_from last r
  end.
Definition ffill (s : series) : series := ffill_from None s.

(** [fillna(d)] *)
Definition fillna (d : Q) (s : series) : list Q := map (default d) s.

(** [dropna()] *)
Definition dropna (s : series) : list Q := omap (fun x => x) s.

(** [shift(1)] *)
Definition shift1 (s : series) : series :=
  match s with
  | [] => []
  | _ => None :: take (length s - 1) s
  end.

(** [pct_change()]: first entry NaN, then [p[t] / p[t-1] - 1]. *)
Definition pct_change (p : list Q) : series :=
  match p with
  | [] => []
  | _ :: r => None :: zip_with (fun prev cur => Some (cur / prev - 1)) p r
  end.

(** [diff()]: first entry NaN, then [s[t] - s[t-1]]. *)
Definition diff (s : list Q) : series :=
  match s with
  | [] => []
  | _ :: r => None :: zip_with (fun prev cur => Some (cur - prev)) s r
  end.

(** Elementwise product and sum of two aligned series; NaN propagates. *)
Definition opt2 (f : Q -> Q -> Q) (a b : option Q) : option Q :=
  match a, b with
  | Some x, Some y => Some (f x y)
  | _, _ => None
  end.
Definition smul (a b : series) : series := zip_with (opt2 Qmult) a b.
Definition sadd (a b : series) : series := zip_with (opt2 Qplus) a b.
Definition sscale (c : Q) (a : series) : series := map (fmap (Qmult c)) a.

(** [cumprod()] *)
Fixpoint cumprod_from (acc : Q) (l : list Q) : list Q :=
  match l with
  | [] => []
  | x :: r => (acc * x) :: cumprod_from (acc * x) r
  end.
Definition cumprod (l : list Q) : list Q :=
  match l with
  | [] => []
  | x :: r => x :: cumprod_from x r
  end.

(** [expanding().max()] *)
Fixpoint expanding_max_from (acc : Q) (l : list Q) : list Q :=
  match l with
  | [] => []
  | x :: r => Qmax acc x :: expanding_max_from (Qmax acc x) r
  end.
Definition expanding_max (l : list Q) : list Q :=
  match l with
  | [] => []
  | x :: r => x :: expanding_max_from x r
  end.

(** [min()] of a series; NaN when it is empty. *)
Definition smin (l : list Q) : option Q :=
  match l with
  | [] => None
  | x :: r => Some (foldl Qmin x r)
  end.

End Series.
Export Series.

(** ** Floats of the metric layer *)

Module Float.

(** A float of the metric layer: a real number, or NaN ([None]). *)
Abbreviation fl := (option R).

#[global] Instance Rgt_decision (x y : R) : Decision (x > y)%R := Rgt_dec x y.
#[global] Instance Rlt_decision (x y : R) : Decision (x < y)%R := Rlt_dec x y.
#[global] Instance Req_decision : EqDecision R := Req_dec_T.

Definition of_Q (q : Q) : fl := Some (Q2R q).

Definition lift2 (f : R -> R -> R) (a b : fl) : fl :=
  match a, b with
  | Some x, Some y => Some (f x y)
  | _, _ => None
  end.
Definition fadd : fl -> fl -> fl := lift2 Rplus.
Definition fsub : fl -> fl -> fl := lift2 Rminus.
Definition fmul : fl -> fl -> fl := lift2 Rmult.
(** Every float division of the metric layer is guarded by [divisor > 0]. *)
Definition fdiv : fl -> fl -> fl := lift2 Rdiv.

(** [a > b]; false when either side is NaN. *)
Definition fgtb (a b : fl) : bool :=
  match a, b with
  | Some x, Some y => bool_decide (x > y)%R
  | _, _ => false
  end.

(** [b ** e] on float64 (the only use has [e > 0]): NaN for a negative base
    and a fractional exponent, [0] for a zero base. *)
Definition fpow (b e : R) : fl :=
  if decide (0 < b)%R then Some (Rpower b e)
  else if decide (b = 0)%R then Some 0%R
  else None.

Definition sqrt252 : fl := Some (sqrt 252).

End Float.
Export Float.

(** ** Python values and dictionaries *)

(** The values stored in the metric bundle and in a trial's result. *)
#[warnings="-register-all"] Inductive pyval :=
| PFloat (x : fl)
| PInt (n : Z)
| PStr (s : string)
| PList (l : list Q)
| PDict (d : gmap string pyval).

(** [d.get(k, dflt)] read as a float. *)
Definition get_float (k : string) (dflt : fl) (d : gmap string pyval) : fl :=
  match d !! k with
  | Some (PFloat x) => x
  | Some (PInt n) => Some (IZR n)
  | Some _ => None
  | None => dflt
  end.

(** [k in d] *)
Definition has_key (k : string) (d : gmap string pyval) : bool :=
  bool_decide (is_Some (d !! k)).

(** Truth value of a dict: non-empty. *)
Definition truthy (d : gmap string pyval) : bool := bool_decide (d ≠ ∅).

(** ** Metrics calculator *)

Module Metrics.

Definition mean (l : list Q) : Q := Qsum l / Qlen l.

(** Sample variance (one delta degree of freedom, as [Series.std]). *)
Definition variance (l : list Q) : Q :=
  Qsum (map (fun x => (x - mean l) * (x - mean l)) l) / (Qlen l - 1).

(** [Series.std()]: NaN for fewer than two observations. *)
Definition std (l : list Q) : fl :=
  if bool_decide (2 <= length l)%nat then Some (sqrt (Q2R (variance l)))
  else None.

(** [returns[returns < 0]] and [returns[returns > 0]] *)
Definition downside (l : list Q) : list Q := List.filter (fun r => Qltb r 0) l.
Definition upside (l : list Q) : list Q := List.filter (fun r => Qgtb r 0) l.

(** [downside_returns.std() * np.sqrt(252) if len(downside_returns) > 0 else 0] *)
Definition downside_deviation (l : list Q) : fl :=
  if bool_decide (0 < length (downside l))%nat
  then fmul (std (downside l)) sqrt252
  else Some 0%R.

(** [_calculate_sortino] *)
Definition _calculate_sortino (returns : series) : fl :=
  match returns with
  | [] => Some 0%R
  | _ =>
    let returns := dropna returns in
    let mean_return : fl :=
      match returns with
      | [] => None
      | _ => of_Q (mean returns * 252)
      end in
    let dd := downside_deviation returns in
    if fgtb dd (Some 0%R)
    then fdiv (fsub mean_return (Some 0.02%R)) dd
    else Some 0%R
  end.

Definition total_return (returns : list Q) : Q :=
  Qprod (map (fun r => 1 + r) returns) - 1.

Definition num_years (returns : list Q) : Q := Qlen returns / 252.

(** [(1 + total_return) ** (1/num_years) - 1 if num_years > 0 else 0] *)
Definition cagr_of (returns : list Q) : fl :=
  if Qgtb (num_years returns) 0
  then fsub (fpow (Q2R (1 + total_return returns))
                  (Q2R (1 / num_years returns)))
            (Some 1%R)
  else Some 0%R.

Definition volatility_of (returns : list Q) : fl := fmul (std returns) sqrt252.

Definition sharpe_of (returns : list Q) : fl :=
  if fgtb (volatility_of returns) (Some 0%R)
  then fdiv (fsub (cagr_of returns) (Some 0.02%R)) (volatility_of returns)
  else Some 0%R.

Definition sortino_of (returns : list Q) : fl :=
  if fgtb (downside_deviation returns) (Some 0%R)
  then fdiv (fsub (cagr_of returns) (Some 0.02%R)) (downside_deviation returns)
  else Some 0%R.

Definition max_drawdown_of (returns : list Q) : fl :=
  let cumulative_returns := cumprod (map (fun r => 1 + r) returns) in
  let rolling_max := expanding_max cumulative_returns in
  let drawdowns := zip_with (fun c m => (c - m) / m) cumulative_returns rolling_max in
  match smin drawdowns with
  | Some m => of_Q m
  | None => None
  end.

Definition win_rate_of (returns : list Q) : Q :=
  if bool_decide (0 < length returns)%nat
  then Qlen (upside returns) / Qlen returns
  else 0.

Definition recent_weight : fl := Some 0.7%R.
Definition historical_weight : fl := Some 0.3%R.

(** [calculate_enhanced_metrics(returns, period_returns=None)] *)
Definition calculate_enhanced_metrics
    (returns : series) (period_returns : option series) : gmap string pyval :=
  match returns with
  | [] => ∅
  | _ =>
    let returns := dropna returns in
    let sortino_ratio := sortino_of returns in
    let combined_score :=
      match period_returns with
      | Some pr =>
          fadd (fmul recent_weight (_calculate_sortino pr))
               (fmul historical_weight sortino_ratio)
      | None => sortino_ratio
      end in
    <["cagr" := PFloat (cagr_of returns)]>
    (<["volatility" := PFloat (volatility_of returns)]>
    (<["sharpe_ratio" := PFloat (sharpe_of returns)]>
    (<["sortino_ratio" := PFloat sortino_ratio]>
    (<["max_drawdown" := PFloat (max_drawdown_of returns)]>
    (<["win_rate" := PFloat (of_Q (win_rate_of returns))]>
    (<["total_return" := PFloat (of_Q (total_return returns))]>
    (<["combined_score" := PFloat combined_score]>
    (<["num_trades" := PInt (Z.of_nat (length returns))]> ∅))))))))
  end.

(** The keys of a full metric bundle. *)
Definition metric_keys : list string :=
  ["cagr"; "volatility"; "sharpe_ratio"; "sortino_ratio"; "max_drawdown";
   "win_rate"; "total_return"; "combined_score"; "num_trades"].

End Metrics.
Export Metrics.

(** ** Backtest of one (strategy, window) trial *)

Module Backtest.

(** The keys of [self.strategies]. *)
Inductive strategy_type :=
| BTC_only
| ETH_only
| rebalance_50_50
| rebalance_60_40.

#[global] Instance strategy_type_eq_dec : EqDecision strategy_type.
Proof. solve_decision. Defined.

(** The aligned frame: one row per day, the BTC and the ETH close. *)
Abbreviation dataset := (list (Q * Q)).

Definition col_BTC (data : dataset) : list Q := map fst data.
Definition col_ETH (data : dataset) : list Q := map snd data.

Definition weights (st : strategy_type) : Q * Q :=
  match st with
  | rebalance_50_50 => (0.5, 0.5)
  | _ => (0.6, 0.4)
  end.

(** The traded series: the asset's close, or the value of the fixed-weight
    blend compounded from base 100. *)
Definition price_data_of (data : dataset) (st : strategy_type) : list Q :=
  match st with
  | BTC_only => col_BTC data
  | ETH_only => col_ETH data
  | _ =>
    let btc_returns := pct_change (col_BTC data) in
    let eth_returns := pct_change (col_ETH data) in
    let portfolio_returns :=
      sadd (sscale (weights st).1 btc_returns)
           (sscale (weights st).2 eth_returns) in
    map (fun v => v * 100)
        (cumprod (map (fun r => 1 + r) (fillna 0 portfolio_returns)))
  end.

(** The signal series before the fills: NaN, then 1 where [price > ma],
    then 0 where [price <= ma]. *)
Definition signals_raw (price_data : list Q) (ma : series) : series :=
  let signals := replicate (length price_data) None in
  let signals := assign (gt_mask price_data ma) 1 signals in
  assign (le_mask price_data ma) 0 signals.

(** [signals.fillna(method='ffill').fillna(0)] *)
Definition signals_of (ma_period : nat) (price_data : list Q) : list Q :=
  fillna 0 (ffill (signals_raw price_data (rolling_mean ma_period price_data))).

(** [signals.shift(1) * price_returns], before [dropna]. *)
Definition lagged_returns (ma_period : nat) (price_data : list Q) : series :=
  smul (shift1 (Some <$> signals_of ma_period price_data))
       (pct_change price_data).

Definition strategy_returns_of (ma_period : nat) (price_data : list Q) : list Q :=
  dropna (lagged_returns ma_period price_data).

(** [len(strategy_returns) - min(504, len(strategy_returns) // 2)] *)
Definition recent_cutoff (n : nat) : nat := (n - Nat.min 504 (n / 2))%nat.

Definition recent_returns_of (strategy_returns : list Q) : list Q :=
  drop (recent_cutoff (length strategy_returns)) strategy_returns.

(** [position_changes != 0]; NaN differs from 0. *)
Definition ne0 (x : option Q) : bool :=
  match x with
  | Some v => negb (Qeq_bool v 0)
  | None => true
  end.

(** [len(position_changes[position_changes != 0])] *)
Definition count_trades (signals : list Q) : nat :=
  length (List.filter ne0 (diff signals)).

(** [current_price / current_ma if current_ma > 0 else 1] *)
Definition price_ma_ratio (current_price : Q) (current_ma : option Q) : Q :=
  match current_ma with
  | Some m => if Qgtb m 0 then current_price / m else 1
  | None => 1
  end.

(** The four bands: the label and the strength before clamping.  (The
    two-way label the source assigns first is overwritten in every
    branch.) *)
Definition classify (ratio : Q) : string * Q :=
  if Qgtb ratio 1.02 then ("강한 매수", Qmin 95 (50 + (ratio - 1) * 1000))
  else if Qgtb ratio 1 then ("약한 매수", 50 + (ratio - 1) * 500)
  else if Qltb ratio 0.98 then ("강한 매도", Qmin 95 (50 + (1 - ratio) * 1000))
  else ("약한 매도", 50 + (1 - ratio) * 500).

(** [min(99, max(1, signal_strength))] *)
Definition clamp_strength (s : Q) : Q := Qmin 99 (Qmax 1 s).

Definition current_signal_of (ratio : Q) : string := (classify ratio).1.
Definition signal_strength_of (ratio : Q) : Q := clamp_strength (classify ratio).2.

(** The blended score written over the full-history one. *)
Definition blend (all_period_metrics recent_metrics : gmap string pyval) : fl :=
  fadd (fmul (Some 0.3%R) (get_float "sortino_ratio" (Some 0%R) all_period_metrics))
       (fmul (Some 0.7%R) (get_float "sortino_ratio" (Some 0%R) recent_metrics)).

(** The body of the [try] block; [None] is a raised exception (the last
    price of an empty frame). *)
Definition backtest_body (data : dataset) (ma_period : nat)
    (st : strategy_type) : option (gmap string pyval) :=
  let price_data := price_data_of data st in
  let ma := rolling_mean ma_period price_data in
  let signals := signals_of ma_period price_data in
  let strategy_returns := strategy_returns_of ma_period price_data in
  let all_period_metrics :=
    calculate_enhanced_metrics (Some <$> strategy_returns) None in
  let recent_returns := recent_returns_of strategy_returns in
  let recent_metrics :=
    calculate_enhanced_metrics (Some <$> recent_returns) None in
  let all_period_metrics :=
    if bool_decide (0 < length recent_returns)%nat
    then <["combined_score" := PFloat (blend all_period_metrics recent_metrics)]>
           all_period_metrics
    else all_period_metrics in
  let trades := count_trades signals in
  current_price ← last price_data;
  current_ma ← last ma;
  let ratio := price_ma_ratio current_price current_ma in
  Some (<["recent_performance" := PDict recent_metrics]>
       (<["signals" := PList signals]>
       (<["cumulative_returns" :=
            PList (cumprod (map (fun r => 1 + r) strategy_returns))]>
       (<["current_price_ma_ratio" := PFloat (of_Q ratio)]>
       (<["signal_strength" := PFloat (of_Q (signal_strength_of ratio))]>
       (<["current_signal" := PStr (current_signal_of ratio)]>
       (<["total_trades" := PInt (Z.of_nat trades)]>
       (<["ma_period" := PInt (Z.of_nat ma_period)]>
          all_period_metrics)))))))).

(** [backtest_ma_strategy]: an exception is logged and yields [{}]. *)
Definition backtest_ma_strategy (data : dataset) (ma_period : nat)
    (st : strategy_type) : gmap string pyval :=
  default ∅ (backtest_body data ma_period st).

End Backtest.
Export Backtest.

(** ** Optimizer: the sweep over candidate windows *)

Module Optimizer.

(** The dataclass returned by [find_optimal_ma]. *)
Record StrategyResult := {
  strategy_name : string;
  optimal_ma : nat;
  cagr : fl;
  mdd : fl;
  sharpe_ratio : fl;
  sortino_ratio : fl;
  combined_score : fl;
  win_rate : fl;
  total_trades : Z;
  current_signal : string;
  signal_strength : fl;
  last_signal_change : string;
  backtest_data : gmap string pyval
}.

(** [self.strategies] *)
Definition strategies (st : strategy_type) : string :=
  match st with
  | BTC_only => "BTC 단일 투자"
  | ETH_only => "ETH 단일 투자"
  | rebalance_50_50 => "50:50 리밸런싱"
  | rebalance_60_40 => "60:40 리밸런싱"
  end.

(** [range(a, b)] *)
Definition range (a b : nat) : list nat := seq a (b - a).

Definition test_range (st : strategy_type) : list nat :=
  match st with
  | BTC_only | ETH_only => range 5 101
  | _ => range 10 61
  end.

(** The thread pool.  Every candidate window is submitted; the workers
    complete trials in an order the scheduler chooses.  [completed] lists
    the trials whose result is available when the sweep waits on them, in
    completion order; a submitted trial that is not in it makes
    [future.result(timeout=30)] raise.  The state of the pool is the
    result each finished future holds. *)
Definition run_pool (data : dataset) (st : strategy_type)
    (completed : list nat) : gmap nat (gmap string pyval) :=
  foldl (fun pool ma_period =>
           <[ma_period := backtest_ma_strategy data ma_period st]> pool)
        ∅ completed.

(** [future.result(timeout=30)]; [None] is the timeout. *)
Definition future_result (pool : gmap nat (gmap string pyval))
    (ma_period : nat) : option (gmap string pyval) :=
  pool !! ma_period.

(** [result['combined_score']] *)
Definition score_of (result : gmap string pyval) : fl :=
  get_float "combined_score" None result.

(** The three variables the reduction updates. *)
Record best := {
  best_score : fl;
  best_ma : nat;
  best_result : gmap string pyval
}.

Definition best_init : best :=
  {| best_score := Some (-999)%R; best_ma := 20; best_result := ∅ |}.

(** One iteration of [for future in futures]. *)
Definition reduce_step (pool : gmap nat (gmap string pyval))
    (b : best) (ma_period : nat) : best :=
  match future_result pool ma_period with
  | None => b
  | Some result =>
    if truthy result && has_key "combined_score" result
    then
      if fgtb (score_of result) (best_score b)
      then {| best_score := score_of result;
              best_ma := ma_period;
              best_result := result |}
      else b
    else b
  end.

(** The reduction: [futures] is iterated in insertion order, which is the
    order of submission. *)
Definition reduce (pool : gmap nat (gmap string pyval))
    (windows : list nat) : best :=
  foldl (reduce_step pool) best_init windows.

Definition get_int (k : string) (dflt : Z) (d : gmap string pyval) : Z :=
  match d !! k with
  | Some (PInt n) => n
  | _ => dflt
  end.

Definition get_str (k : string) (dflt : string) (d : gmap string pyval) : string :=
  match d !! k with
  | Some (PStr s) => s
  | _ => dflt
  end.

Definition times100 (x : fl) : fl := fmul x (Some 100%R).

(** [find_optimal_ma]; [today] is the date the clock gives. *)
Definition find_optimal_ma (today : string) (completed : list nat)
    (data : dataset) (st : strategy_type) : StrategyResult :=
  let b := reduce (run_pool data st completed) (test_range st) in
  {| strategy_name := strategies st;
     optimal_ma := best_ma b;
     cagr := times100 (get_float "cagr" (Some 0%R) (best_result b));
     mdd := times100 (get_float "max_drawdown" (Some 0%R) (best_result b));
     sharpe_ratio := get_float "sharpe_ratio" (Some 0%R) (best_result b);
     sortino_ratio := get_float "sortino_ratio" (Some 0%R) (best_result b);
     combined_score := best_score b;
     win_rate := times100 (get_float "win_rate" (Some 0%R) (best_result b));
     total_trades := get_int "total_trades" 0 (best_result b);
     current_signal := get_str "current_signal" "N/A" (best_result b);
     signal_strength := get_float "signal_strength" (Some 50%R) (best_result b);
     last_signal_change := today;
     backtest_data := best_result b |}.

End Optimizer.
Export Optimizer.

(** ** Result aggregator *)

Module Aggregator.

(** What the clock and the frame's index contribute to a run. *)
Record run_env := {
  today : string;
  now : string;
  analysis_period : string
}.

(** An entry of the exported mapping: a strategy's fields, or the
    metadata block. *)
Inductive entry :=
| EStrategy (r : StrategyResult)
| EMetadata (last_update : string) (data_points : nat)
            (period : string) (version : string).

Definition strategy_key (st : strategy_type) : string :=
  match st with
  | BTC_only => "BTC_only"
  | ETH_only => "ETH_only"
  | rebalance_50_50 => "rebalance_50_50"
  | rebalance_60_40 => "rebalance_60_40"
  end.

(** The iteration order of [self.strategies.keys()]. *)
Definition strategy_order : list strategy_type :=
  [BTC_only; ETH_only; rebalance_50_50; rebalance_60_40].

(** The checks of [fetch_crypto_data] on the aligned frame; [None] is a
    raised exception (failed download, or fewer than 365 rows). *)
Definition fetch_crypto_data (download : option dataset) : option dataset :=
  df ← download;
  if bool_decide (length df < 365)%nat then None else Some df.

(** [run_full_analysis]; [completed st] is what the pool of strategy [st]
    finishes in time. *)
Definition run_full_analysis (env : run_env)
    (completed : strategy_type -> list nat)
    (download : option dataset) : gmap string entry :=
  match fetch_crypto_data download with
  | None => ∅
  | Some data =>
    let results :=
      foldl (fun results st =>
               <[strategy_key st :=
                   EStrategy (find_optimal_ma (today env) (completed st) data st)]>
                 results)
            ∅ strategy_order in
    <["metadata" :=
        EMetadata (now env) (length data) (analysis_period env) "2.0.0"]> results
  end.

End Aggregator.
Export Aggregator.

(** ** Configuration (config.py) *)

Module Config.

(** An entry of [Config.STRATEGIES]; [cfg_weights] is [None] when the
    dict has no key ['weights']. *)
Record strategy_config := {
  cfg_name : string;
  cfg_description : string;
  cfg_ma_range : nat * nat;
  cfg_weights : option (list Q);
  cfg_icon : string
}.

Definition STRATEGIES : gmap string strategy_config :=
  <["BTC_only" :=
      {| cfg_name := "BTC 단일 투자";
         cfg_description := "Bitcoin 단일 투자 전략";
         cfg_ma_range := (5, 100)%nat;
         cfg_weights := None;
         cfg_icon := "🟠" |}]>
  (<["ETH_only" :=
      {| cfg_name := "ETH 단일 투자";
         cfg_description := "Ethereum 단일 투자 전략";
         cfg_ma_range := (5, 100)%nat;
         cfg_weights := None;
         cfg_icon := "🔵" |}]>
  (<["rebalance_50_50" :=
      {| cfg_name := "50:50 리밸런싱";
         cfg_description := "BTC:ETH = 50:50 리밸런싱 전략";
         cfg_ma_range := (10, 60)%nat;
         cfg_weights := Some [0.5; 0.5];
         cfg_icon := "⚖️" |}]>
  (<["rebalance_60_40" :=
      {| cfg_name := "60:40 리밸런싱";
         cfg_description := "BTC:ETH = 60:40 리밸런싱 전략";
         cfg_ma_range := (10, 60)%nat;
         cfg_weights := Some [0.6; 0.4];
         cfg_icon := "📊" |}]> ∅))).

(** [cls.STRATEGIES.get(strategy_name, {})]; [None] is the empty dict. *)
Definition get_strategy_config (strategy_name : string) : option strategy_config :=
  STRATEGIES !! strategy_name.

(** [config.get('ma_range', (5, 100))] *)
Definition get_ma_range (strategy_name : string) : nat * nat :=
  match get_strategy_config strategy_name with
  | Some config => cfg_ma_range config
  | None => (5, 100)%nat
  end.

(** [config.get('weights', [1.0])] *)
Definition get_weights (strategy_name : string) : list Q :=
  match get_strategy_config strategy_name with
  | Some config => default [1] (cfg_weights config)
  | None => [1]
  end.

(** [strategy_name.startswith('rebalance_')] *)
Definition is_rebalancing_strategy (strategy_name : string) : bool :=
  String.prefix "rebalance_" strategy_name.

(** [x >= y] on floats that are numbers. *)
Definition Qgeb (x y : Q) : bool := Qleb y x.

Definition get_risk_level (sharpe_ratio max_drawdown : Q) : string :=
  if Qgeb sharpe_ratio 2.0 && Qgeb max_drawdown (-0.3) then "낮음"
  else if Qgeb sharpe_ratio 1.5 && Qgeb max_drawdown (-0.4) then "보통"
  else if Qgeb sharpe_ratio 1.0 && Qgeb max_drawdown (-0.5) then "높음"
  else "매우 높음".

(** [PERFORMANCE_THRESHOLDS] *)
Definition excellent_cagr : Q := 0.3.
Definition good_cagr : Q := 0.2.
Definition acceptable_cagr : Q := 0.1.

Definition get_performance_grade (cagr : Q) : string :=
  if Qgeb cagr excellent_cagr then "우수"
  else if Qgeb cagr good_cagr then "좋음"
  else if Qgeb cagr acceptable_cagr then "보통"
  else "개선 필요".

End Config.

(** ** The download loop of [fetch_crypto_data] *)

Module Download.

Definition max_retries : nat := 3.

(** The [for attempt in range(max_retries)] loop.  [attempt_result k] is
    what the two downloads of attempt [k] give, [None] when one of them
    raises.  Returns what the loop leaves in [btc], [eth] ([None]: the
    exception leaves [fetch_crypto_data]) and how often it has slept. *)
Fixpoint retry_loop {A} (attempt_result : nat -> option A)
    (attempts : list nat) (sleeps : nat) : option A * nat :=
  match attempts with
  | [] => (None, sleeps)
  | attempt :: rest =>
    match attempt_result attempt with
    | Some frames => (Some frames, sleeps)
    | None =>
      if bool_decide (attempt = max_retries - 1)%nat
      then (None, sleeps)
      else retry_loop attempt_result rest (S sleeps)
    end
  end.

Definition download_with_retry {A} (attempt_result : nat -> option A)
  : option A * nat :=
  retry_loop attempt_result (seq 0 max_retries) 0.

End Download.

(** ** Scheduler (scheduler.py) *)

Module Scheduler.

(** A [datetime]: the day, and the time of day. *)
Record datetime := { dt_date : Z; dt_time : nat }.

(** The fields of [CryptoAnalysisScheduler] that [run_analysis] uses. *)
Record scheduler := {
  last_update : option datetime;
  update_count : nat;
  error_count : nat;
  max_errors : nat
}.

(** [__init__] *)
Definition init : scheduler :=
  {| last_update := None; update_count := 0; error_count := 0; max_errors := 5 |}.

(** [run_analysis]: [results] is what [run_full_analysis] returned and
    [clock] the time when the results have been saved.  An empty result
    raises inside the [try]; [save_results] and the notifications catch
    their own exceptions and change neither the state nor the return
    value.  Returns the new state and the flag. *)
Definition run_analysis (s : scheduler) (results : gmap string entry)
    (clock : datetime) : scheduler * bool :=
  if bool_decide (results = ∅)
  then
    let s' := {| last_update := last_update s;
                 update_count := update_count s;
                 error_count := S (error_count s);
                 max_errors := max_errors s |} in
    if bool_decide (max_errors s' <= error_count s')%nat
    then (s', false)
    else (s', true)
  else
    ({| last_update := Some clock;
        update_count := S (update_count s);
        error_count := 0;
        max_errors := max_errors s |}, true).

(** [sys.exit(0 if success else 1)] *)
Definition exit_code (success : bool) : Z := if success then 0%Z else 1%Z.

(** [StreamlitCloudScheduler.should_update]; [update_time] is what
    [strptime(..., '%H:%M').time()] gives, [None] when it raises. *)
Definition should_update (s : scheduler) (now : datetime)
    (update_time : option nat) : option bool :=
  ut ← update_time;
  Some (bool_decide (ut <= dt_time now)%nat &&
        match last_update s with
        | None => true
        | Some lu => bool_decide (dt_date lu < dt_date now)%Z
        end).

(** [check_and_update] *)
Definition check_and_update (s : scheduler) (now : datetime)
    (update_time : option nat) (results : gmap string entry)
    (clock : datetime) : option (scheduler * bool) :=
  due ← should_update s now update_time;
  if due : bool then Some (run_analysis s results clock) else Some (s, true).

End Scheduler.

(** ** The exported dicts *)

(** The dict stored for a strategy (lines 324-338) and the metadata dict
    (lines 344-349). *)
Definition entry_dict (e : entry) : gmap string pyval :=
  match e with
  | EStrategy r =>
      <["strategy_name" := PStr (strategy_name r)]>
      (<["optimal_ma" := PInt (Z.of_nat (optimal_ma r))]>
      (<["cagr" := PFloat (cagr r)]>
      (<["mdd" := PFloat (mdd r)]>
      (<["sharpe_ratio" := PFloat (sharpe_ratio r)]>
      (<["sortino_ratio" := PFloat (sortino_ratio r)]>
      (<["combined_score" := PFloat (combined_score r)]>
      (<["win_rate" := PFloat (win_rate r)]>
      (<["total_trades" := PInt (total_trades r)]>
      (<["current_signal" := PStr (current_signal r)]>
      (<["signal_strength" := PFloat (signal_strength r)]>
      (<["last_signal_change" := PStr (last_signal_change r)]>
      (<["backtest_data" := PDict (backtest_data r)]> ∅))))))))))))
  | EMetadata last_update data_points period version =>
      <["last_update" := PStr last_update]>
      (<["data_points" := PInt (Z.of_nat data_points)]>
      (<["analysis_period" := PStr period]>
      (<["version" := PStr version]> ∅)))
  end.

(** ** Dashboard (enhanced_app.py) *)

Module Dashboard.

(** [sub in s] *)
Definition contains (sub s : string) : bool :=
  bool_decide (is_Some (String.index 0 sub s)).

(** The card class chosen by [display_signal_card]. *)
Definition card_class (signal : string) : string :=
  if contains "매수" signal then "buy-signal"
  else if contains "매도" signal then "sell-signal"
  else "hold-signal".

(** [data.get('last_update', datetime.now()...)] in [main]: the stored
    value, or the current time. *)
Definition header_last_update (data : gmap string entry) (now : string)
  : entry + string :=
  match data !! "last_update" with
  | Some v => inl v
  | None => inr now
  end.

(** The condition of [create_performance_chart] under which a strategy
    gets a line: ['cumulative_returns' in data[strategy]]. *)
Definition has_trace (data : gmap string entry) (strategy : string) : bool :=
  match data !! strategy with
  | Some e => has_key "cumulative_returns" (entry_dict e)
  | None => false
  end.

End Dashboard.

(** * Vocabulary of the statements *)

(** ** Trials *)

(** The metric bundle after the blended score has been written. *)
Definition scored_metrics (strategy_returns : list Q) : gmap string pyval :=
  let all_period_metrics :=
    calculate_enhanced_metrics (Some <$> strategy_returns) None in
  let recent_returns := recent_returns_of strategy_returns in
  let recent_metrics :=
    calculate_enhanced_metrics (Some <$> recent_returns) None in
  if bool_decide (0 < length recent_returns)%nat
  then <["combined_score" := PFloat (blend all_period_metrics recent_metrics)]>
         all_period_metrics
  else all_period_metrics.

(** The full bundle built for a non-empty series. *)
Definition metric_bundle (returns : list Q) (combined : fl) : gmap string pyval :=
  <["cagr" := PFloat (cagr_of returns)]>
  (<["volatility" := PFloat (volatility_of returns)]>
  (<["sharpe_ratio" := PFloat (sharpe_of returns)]>
  (<["sortino_ratio" := PFloat (sortino_of returns)]>
  (<["max_drawdown" := PFloat (max_drawdown_of returns)]>
  (<["win_rate" := PFloat (of_Q (win_rate_of returns))]>
  (<["total_return" := PFloat (of_Q (total_return returns))]>
  (<["combined_score" := PFloat combined]>
  (<["num_trades" := PInt (Z.of_nat (length returns))]> ∅)))))))).

(** The Sortino ratio a caller reads from the bundle of a series, with the
    default 0 of [.get('sortino_ratio', 0)]. *)
Definition sortino_over (l : list Q) : fl :=
  get_float "sortino_ratio" (Some 0%R)
            (calculate_enhanced_metrics (Some <$> l) None).

(** The recent slice in the words of the specification: from index
    [max(0, N - min(504, N/2))] to the end. *)
Definition recent_slice (l : list Q) : list Q :=
  let N := Z.of_nat (length l) in
  drop (Z.to_nat (Z.max 0 (N - Z.min 504 (N / 2)))) l.

(** The blended score of a strategy-return series with at least two
    observations (the recent slice is then non-empty). *)
Definition blended_score (sr : list Q) : fl :=
  fadd (fmul (Some 0.3%R) (sortino_of sr))
       (fmul (Some 0.7%R) (sortino_of (recent_slice sr))).

(** The price is strictly above its moving average at every date from the
    end of the warm-up on. *)
Definition above_ma (W : nat) (p : list Q) : Prop :=
  forall i x m,
    (W <= S i)%nat -> p !! i = Some x ->
    rolling_mean W p !! i = Some (Some m) -> m < x.

(** The same, as a check that runs. *)
Definition above_mab (W : nat) (p : list Q) : bool :=
  forallb (fun i =>
             match p !! i, rolling_mean W p !! i with
             | Some x, Some (Some m) => Qgtb x m
             | _, _ => true
             end)
          (seq 0 (length p)).

(** The claim of C6 as it is worded: every metric field is present. *)
Definition all_fields_present (bundle : gmap string pyval) : Prop :=
  forall k, k ∈ metric_keys -> is_Some (bundle !! k).

(** ** Sweeps *)

(** The numeric combined score a trial contributes to the reduction, if
    any: the trial finished, returned a non-empty result with the key
    [combined_score], and the score is a number. *)
Definition pool_score (pool : gmap nat (gmap string pyval)) (w : nat) : option R :=
  match future_result pool w with
  | Some result =>
      if truthy result && has_key "combined_score" result
      then score_of result
      else None
  | None => None
  end.

(** The same for the sweep of a strategy over a dataset, given the trials
    that finish in time. *)
Definition trial_score (completed : list nat) (data : dataset)
    (st : strategy_type) (w : nat) : option R :=
  pool_score (run_pool data st completed) w.

(** The initial [best_score]. *)
Definition floor_score : R := (-999)%R.

(** [chosen] has the highest numeric score [s] of the sweep and is the
    first window, in sweep order, that has it. *)
Definition first_maximum (score : nat -> option R) (windows : list nat)
    (chosen : nat) (s : R) : Prop :=
  exists i,
    windows !! i = Some chosen /\
    score chosen = Some s /\
    (forall w s', w ∈ windows -> score w = Some s' -> (s' <= s)%R) /\
    (forall j w s', (j < i)%nat -> windows !! j = Some w ->
                    score w = Some s' -> (s' < s)%R).

(** C1 as it is worded: whenever some trial produced a result with a
    combined score, the optimizer returns the first window, in sweep
    order, of the highest score. *)
Definition selects_best_scored_trial (today : string) (completed : list nat)
    (data : dataset) (st : strategy_type) : Prop :=
  (exists w, w ∈ test_range st /\ is_Some (trial_score completed data st w)) ->
  exists s,
    combined_score (find_optimal_ma today completed data st) = Some s /\
    first_maximum (trial_score completed data st) (test_range st)
      (optimal_ma (find_optimal_ma today completed data st)) s.

(** [s] is the highest numeric score of the sweep and window [w] has it. *)
Definition attains_maximum (score : nat -> option R) (windows : list nat)
    (w : nat) (s : R) : Prop :=
  w ∈ windows /\ score w = Some s /\
  forall w' s', w' ∈ windows -> score w' = Some s' -> (s' <= s)%R.

(** C10 as it is worded: when two or more windows attain the maximal
    score, the returned window is the smallest of them. *)
Definition ties_go_to_smallest_window (today : string) (completed : list nat)
    (data : dataset) (st : strategy_type) : Prop :=
  forall w1 w2 s,
    w1 <> w2 ->
    attains_maximum (trial_score completed data st) (test_range st) w1 s ->
    attains_maximum (trial_score completed data st) (test_range st) w2 s ->
    attains_maximum (trial_score completed data st) (test_range st)
      (optimal_ma (find_optimal_ma today completed data st)) s /\
    forall w, attains_maximum (trial_score completed data st) (test_range st) w s ->
              (optimal_ma (find_optimal_ma today completed data st) <= w)%nat.

(** C9 as it is worded: two runs of the sweep over the same data return
    the same window and the same score, whichever trials the pool of each
    run finishes within the timeout. *)
Definition same_selection_in_every_run (today : string) (data : dataset)
    (st : strategy_type) : Prop :=
  forall completed1 completed2 : list nat,
    optimal_ma (find_optimal_ma today completed1 data st) =
      optimal_ma (find_optimal_ma today completed2 data st) /\
    combined_score (find_optimal_ma today completed1 data st) =
      combined_score (find_optimal_ma today completed2 data st).

(** The trial of window [w] fails: its future timed out or raised, or its
    result is the empty dict of a logged exception, or the result has no
    combined score. *)
Definition trial_fails (completed : list nat) (data : dataset)
    (st : strategy_type) (w : nat) : Prop :=
  match future_result (run_pool data st completed) w with
  | None => True
  | Some result => result = ∅ \/ has_key "combined_score" result = false
  end.

(** C7 as it is worded: a strategy whose every trial fails has no entry
    in the exported mapping. *)
Definition omits_failed_strategy (env : run_env)
    (completed : strategy_type -> list nat) (data : dataset)
    (st : strategy_type) : Prop :=
  (forall w, w ∈ test_range st -> trial_fails (completed st) data st w) ->
  run_full_analysis env completed (Some data) !! strategy_key st = None.

(** ** Sample inputs *)

(** A year of flat quotes, a jump, and two slightly different small
    slips.  Every window of the sweep is long over the two slips only, so
    every trial has the same strategy returns: zeros and two negative
    returns of about one and two millionths. *)
Definition flat_then_slip : list Q :=
  replicate 362 1000000 ++ [2000000; 1999998; 1999994].

Definition slip_data : dataset := map (fun x => (x, x)) flat_then_slip.

(** The strategy returns of every trial of the sweep over [slip_data]. *)
Definition slip_returns : list Q :=
  Eval vm_compute in strategy_returns_of 5 flat_then_slip.

(** Equality of two lists of rationals, numerator by numerator and
    denominator by denominator. *)
Definition Qeqb_syn (a b : Q) : bool :=
  Z.eqb (Qnum a) (Qnum b) && Pos.eqb (Qden a) (Qden b).

Fixpoint list_eqb (l1 l2 : list Q) : bool :=
  match l1, l2 with
  | [], [] => true
  | a :: r1, b :: r2 => Qeqb_syn a b && list_eqb r1 r2
  | _, _ => false
  end.

(** Flat quotes: every trial scores 0. *)
Definition flat_data : dataset := replicate 8 (100, 100).

(** A clock. *)
Definition env0 : run_env :=
  {| today := "2024-01-01";
     now := "2024-01-01 09:00:00";
     analysis_period := "2023-01-01 ~ 2023-12-31" |}.

(** A year of flat quotes. *)
Definition flat_year : dataset := replicate 365 (100, 100).

(** Every trial of the BTC sweep times out; the other sweeps finish. *)
Definition btc_times_out (st : strategy_type) : list nat :=
  match st with
  | BTC_only => []
  | _ => test_range st
  end.

(** ** Positions, trades and the blended portfolio *)

(** A value of the raw signal series: NaN, out of the market, or in. *)
Definition is_position (x : option Q) : Prop :=
  x = None \/ x = Some 0 \/ x = Some 1.

(** The number of places where two consecutive signals differ. *)
Fixpoint flips (s : list Q) : nat :=
  match s with
  | a :: (b :: _) as r => ((if Qeq_bool a b then 0 else 1) + flips r)%nat
  | _ => 0%nat
  end.

Definition is_rebalance (st : strategy_type) : bool :=
  match st with
  | rebalance_50_50 | rebalance_60_40 => true
  | _ => false
  end.


(** ** The exported mapping *)

(** The keys of a full export. *)
Definition exported_keys : list string :=
  ["BTC_only"; "ETH_only"; "rebalance_50_50"; "rebalance_60_40"; "metadata"].

(** ** Grades *)

(** The risk levels, from the lowest risk to the highest. *)
Definition risk_rank (level : string) : nat :=
  if decide (level = "낮음") then 0
  else if decide (level = "보통") then 1
  else if decide (level = "높음") then 2
  else 3.

(** The performance grades, from the best to the worst. *)
Definition grade_rank (grade : string) : nat :=
  if decide (grade = "우수") then 0
  else if decide (grade = "좋음") then 1
  else if decide (grade = "보통") then 2
  else 3.

(** ** Sequences of scheduler runs *)

(** The state after a sequence of runs, each given by the result mapping
    and the clock. *)
Definition run_all (s : Scheduler.scheduler)
    (runs : list (gmap string entry * Scheduler.datetime)) : Scheduler.scheduler :=
  foldl (fun s run => (Scheduler.run_analysis s run.1 run.2).1) s runs.

(** A run whose result mapping is not empty. *)
Definition succeeded (run : gmap string entry * Scheduler.datetime) : bool :=
  negb (bool_decide (run.1 = ∅)).

(** The number of failed runs at the end of the sequence. *)
Fixpoint trailing_failures (runs : list (gmap string entry * Scheduler.datetime))
  : nat :=
  match runs with
  | [] => 0
  | run :: rest =>
      if forallb (fun r => negb (succeeded r)) rest
      then (if succeeded run then 0 else 1) + trailing_failures rest
      else trailing_failures rest
  end%nat.

(** ** Tactics *)

Ltac lookup_insert_tac :=
  repeat first
    [ rewrite lookup_insert_eq
    | rewrite lookup_insert_ne by discriminate ].

Ltac split_geb :=
  repeat match goal with
         | |- context [Config.Qgeb ?x ?y] =>
             let E := fresh "E" in destruct (Config.Qgeb x y) eqn:E
         end.

(** * Properties *)

(** ** Comparisons on [Q] *)

Lemma Qgtb_true (x y : Q) : Qgtb x y = true <-> y < x.
Proof.
  unfold Qgtb. rewrite Qlt_alt, <- (Qcompare_antisym x y).
  destruct (x ?= y); simpl; split; congruence.
Qed.

Lemma Qgtb_false (x y : Q) : Qgtb x y = false <-> x <= y.
Proof.
  unfold Qgtb. rewrite Qle_alt.
  destruct (x ?= y); split; congruence.
Qed.

Lemma Qleb_true (x y : Q) : Qleb x y = true <-> x <= y.
Proof.
  unfold Qleb. rewrite Qle_alt.
  destruct (x ?= y); split; congruence.
Qed.

Lemma Qltb_true (x y : Q) : Qltb x y = true <-> x < y.
Proof.
  unfold Qltb. rewrite Qlt_alt.
  destruct (x ?= y); split; congruence.
Qed.

Lemma Qltb_false (x y : Q) : Qltb x y = false <-> y <= x.
Proof.
  rewrite <- not_true_iff_false, Qltb_true. split.
  - apply Qnot_lt_le.
  - apply Qle_not_lt.
Qed.

Lemma Qleb_Qgtb (x y : Q) : Qleb x y = negb (Qgtb x y).
Proof. unfold Qleb, Qgtb. by destruct (x ?= y). Qed.

(** ** Signal classification (lines 218-243) *)

Section Classification.

Variable ratio : Q.

Lemma classify_strong_buy : 1.02 < ratio -> current_signal_of ratio = "강한 매수".
Proof.
  intros H. unfold current_signal_of, classify.
  apply Qgtb_true in H. by rewrite H.
Qed.

Lemma classify_weak_buy :
  1 < ratio -> ratio <= 1.02 -> current_signal_of ratio = "약한 매수".
Proof.
  intros H1 H2. unfold current_signal_of, classify.
  apply Qgtb_true in H1. apply Qgtb_false in H2. by rewrite H2, H1.
Qed.

Lemma classify_strong_sell : ratio < 0.98 -> current_signal_of ratio = "강한 매도".
Proof.
  intros H. unfold current_signal_of, classify.
  assert (H1 : ratio <= 1.02) by (apply Qlt_le_weak; eapply Qlt_trans; [exact H|reflexivity]).
  assert (H2 : ratio <= 1) by (apply Qlt_le_weak; eapply Qlt_trans; [exact H|reflexivity]).
  apply Qgtb_false in H1, H2. apply Qltb_true in H.
  by rewrite H1, H2, H.
Qed.

Lemma classify_weak_sell :
  0.98 <= ratio -> ratio <= 1 -> current_signal_of ratio = "약한 매도".
Proof.
  intros H1 H2. unfold current_signal_of, classify.
  assert (H3 : ratio <= 1.02) by (eapply Qle_trans; [exact H2|discriminate]).
  apply Qgtb_false in H2, H3. apply Qltb_false in H1.
  by rewrite H3, H2, H1.
Qed.

Lemma clamp_strength_bounds (s : Q) : 1 <= clamp_strength s <= 99.
Proof.
  unfold clamp_strength. split.
  - apply Q.min_glb; [discriminate | apply Q.le_max_l].
  - apply Q.le_min_l.
Qed.

Lemma signal_strength_bounds : 1 <= signal_strength_of ratio <= 99.
Proof. apply clamp_strength_bounds. Qed.

End Classification.

(** ** Signal generator (lines 186-192) *)

Section SignalGenerator.

Variable W : nat.
Variable p : list Q.

Lemma rolling_mean_length : length (rolling_mean W p) = length p.
Proof. unfold rolling_mean. by rewrite length_map, length_seq. Qed.

Lemma rolling_mean_lookup (i : nat) :
  (i < length p)%nat ->
  rolling_mean W p !! i =
    Some (if bool_decide (1 <= W <= S i)%nat
          then Some (Qsum (take W (drop (S i - W) p)) / inject_Z (Z.of_nat W))
          else None).
Proof.
  intros Hi. unfold rolling_mean.
  rewrite list_lookup_fmap, lookup_seq_lt by done. done.
Qed.

(** No average before [W] observations exist. *)
Lemma rolling_mean_warmup (i : nat) :
  (i < length p)%nat -> (S i < W)%nat -> rolling_mean W p !! i = Some None.
Proof.
  intros Hi Hw. rewrite rolling_mean_lookup by done.
  rewrite bool_decide_eq_false_2; [done | lia].
Qed.

Lemma rolling_mean_defined (i : nat) :
  (i < length p)%nat -> (1 <= W <= S i)%nat ->
  rolling_mean W p !! i =
    Some (Some (Qsum (take W (drop (S i - W) p)) / inject_Z (Z.of_nat W))).
Proof.
  intros Hi Hw. rewrite rolling_mean_lookup by done.
  by rewrite bool_decide_eq_true_2.
Qed.

Lemma signals_raw_length (ma : series) :
  length ma = length p -> length (signals_raw p ma) = length p.
Proof.
  intros Hma. unfold signals_raw, assign, gt_mask, le_mask.
  rewrite !length_zip_with, length_replicate. lia.
Qed.

Lemma signals_raw_lookup (ma : series) (i : nat) (x : Q) (m : option Q) :
  p !! i = Some x -> ma !! i = Some m ->
  signals_raw p ma !! i =
    Some (match m with
          | Some v => if Qgtb x v then Some 1 else Some 0
          | None => None
          end).
Proof.
  intros Hx Hm. unfold signals_raw, assign, gt_mask, le_mask.
  assert (Hi : (i < length p)%nat) by (eapply lookup_lt_Some; eauto).
  rewrite !lookup_zip_with, Hx, Hm. simpl.
  rewrite lookup_replicate_2 by done. simpl.
  destruct m as [v|]; [|done].
  rewrite Qleb_Qgtb. by destruct (Qgtb x v).
Qed.

End SignalGenerator.

(** Forward fill: a defined entry is kept, an undefined one takes the value
    of its predecessor, and an undefined first entry stays undefined. *)
Lemma ffill_from_length (s : series) (last : option Q) :
  length (ffill_from last s) = length s.
Proof.
  revert last. induction s as [|[v|] s IH]; intros last; simpl; auto.
Qed.

Lemma ffill_from_lookup_Some (s : series) (last : option Q) (i : nat) (v : Q) :
  s !! i = Some (Some v) -> ffill_from last s !! i = Some (Some v).
Proof.
  revert last i. induction s as [|[u|] s IH]; intros last [|i] H; simpl in *;
    try done; by apply IH.
Qed.

Lemma ffill_from_lookup_None (s : series) (last : option Q) (i : nat) :
  s !! S i = Some None -> ffill_from last s !! S i = ffill_from last s !! i.
Proof.
  revert last i. induction s as [|a s IH]; intros last i H; [done|].
  destruct i as [|i].
  - destruct s as [|b s]; [done|]. simpl in H. injection H as ->.
    by destruct a.
  - destruct a as [u|]; simpl; by apply IH.
Qed.

Lemma ffill_length (s : series) : length (ffill s) = length s.
Proof. apply ffill_from_length. Qed.

Lemma ffill_keeps (s : series) (i : nat) (v : Q) :
  s !! i = Some (Some v) -> ffill s !! i = Some (Some v).
Proof. apply ffill_from_lookup_Some. Qed.

Lemma ffill_carries (s : series) (i : nat) :
  s !! S i = Some None -> ffill s !! S i = ffill s !! i.
Proof. apply ffill_from_lookup_None. Qed.

Lemma ffill_start (s : series) :
  s !! 0%nat = Some None -> ffill s !! 0%nat = Some None.
Proof. by destruct s as [|[v|] s]. Qed.

Lemma fillna_lookup (d : Q) (s : series) (i : nat) :
  fillna d s !! i = default d <$> s !! i.
Proof. unfold fillna. apply list_lookup_fmap. Qed.

Lemma signals_of_length (W : nat) (p : list Q) :
  length (signals_of W p) = length p.
Proof.
  unfold signals_of, fillna.
  rewrite length_map, ffill_length, signals_raw_length; [done|].
  apply rolling_mean_length.
Qed.

Lemma signals_of_carries (W : nat) (p : list Q) (i : nat) :
  signals_raw p (rolling_mean W p) !! S i = Some None ->
  signals_of W p !! S i = signals_of W p !! i.
Proof.
  intros H. unfold signals_of. rewrite !fillna_lookup.
  by rewrite ffill_carries.
Qed.

Lemma signals_of_start (W : nat) (p : list Q) :
  signals_raw p (rolling_mean W p) !! 0%nat = Some None ->
  signals_of W p !! 0%nat = Some 0.
Proof.
  intros H. unfold signals_of. rewrite fillna_lookup.
  by rewrite ffill_start.
Qed.

Lemma signals_raw_warmup (W : nat) (p : list Q) (i : nat) :
  (i < length p)%nat -> (S i < W)%nat ->
  signals_raw p (rolling_mean W p) !! i = Some None.
Proof.
  intros Hi Hw.
  destruct (lookup_lt_is_Some_2 p i Hi) as [x Hx].
  rewrite (signals_raw_lookup p _ i x None Hx); [done|].
  by apply rolling_mean_warmup.
Qed.

Lemma signals_of_warmup (W : nat) (p : list Q) (i : nat) :
  (i < length p)%nat -> (S i < W)%nat -> signals_of W p !! i = Some 0.
Proof.
  induction i as [|i IH]; intros Hi Hw.
  - apply signals_of_start. by apply signals_raw_warmup.
  - rewrite signals_of_carries by (by apply signals_raw_warmup).
    apply IH; lia.
Qed.

Lemma signals_of_defined (W : nat) (p : list Q) (i : nat) (x m : Q) :
  p !! i = Some x -> rolling_mean W p !! i = Some (Some m) ->
  signals_of W p !! i = Some (if Qgtb x m then 1 else 0).
Proof.
  intros Hx Hm. unfold signals_of. rewrite fillna_lookup.
  pose proof (signals_raw_lookup p _ i x (Some m) Hx Hm) as Hraw.
  simpl in Hraw.
  destruct (Qgtb x m); by rewrite (ffill_keeps _ _ _ Hraw).
Qed.

(** C4.  With a window [W >= 1] the moving average is the mean of the last
    [W] prices and is undefined (NaN) while fewer than [W] observations
    exist, and so is the signal before the fills; where the average is
    defined the signal is 1 when the price is strictly above it and 0 when
    the price is at or below it; an undefined entry takes the value of its
    predecessor (forward fill), and 0 when it opens the series. *)
Theorem signal_series_spec (W : nat) (p : list Q) :
  (1 <= W)%nat ->
  let ma := rolling_mean W p in
  let raw := signals_raw p ma in
  let sig := signals_of W p in
  length sig = length p /\
  (forall i, (i < length p)%nat -> (S i < W)%nat ->
     ma !! i = Some None /\ raw !! i = Some None /\ sig !! i = Some 0) /\
  (forall i, (i < length p)%nat -> (W <= S i)%nat ->
     ma !! i = Some (Some (Qsum (take W (drop (S i - W) p))
                           / inject_Z (Z.of_nat W)))) /\
  (forall i x m, p !! i = Some x -> ma !! i = Some (Some m) ->
     (m < x -> raw !! i = Some (Some 1) /\ sig !! i = Some 1) /\
     (x <= m -> raw !! i = Some (Some 0) /\ sig !! i = Some 0)) /\
  (forall i, raw !! S i = Some None -> sig !! S i = sig !! i) /\
  (raw !! 0%nat = Some None -> sig !! 0%nat = Some 0).
Proof.
  intros HW ma raw sig. subst ma raw sig.
  split; [apply signals_of_length|].
  split.
  { intros i Hi Hw. split; [by apply rolling_mean_warmup|].
    split; [by apply signals_raw_warmup | by apply signals_of_warmup]. }
  split.
  { intros i Hi Hw. apply rolling_mean_defined; [done | lia]. }
  split.
  { intros i x m Hx Hm.
    pose proof (signals_raw_lookup p _ i x (Some m) Hx Hm) as Hraw.
    pose proof (signals_of_defined W p i x m Hx Hm) as Hsig.
    simpl in Hraw.
    split; intros Hc.
    - apply Qgtb_true in Hc. rewrite Hc in Hraw, Hsig. by split.
    - apply Qgtb_false in Hc. rewrite Hc in Hraw, Hsig. by split. }
  split.
  { intros i. apply signals_of_carries. }
  apply signals_of_start.
Qed.

Lemma signal_series_spec_witness :
  let p := [10; 11; 12; 11; 9; 9; 13] in
  signals_of 3 p = [0; 0; 1; 0; 0; 0; 1] /\
  length (signals_of 3 p) = length p.
Proof.
  split; [reflexivity|].
  apply (signal_series_spec 3 [10; 11; 12; 11; 9; 9; 13]). lia.
Defined.

(** ** The result of a trial *)

Lemma backtest_body_inv (data : dataset) (W : nat) (st : strategy_type)
    (result : gmap string pyval) :
  backtest_body data W st = Some result ->
  exists cp cma,
    last (price_data_of data st) = Some cp /\
    last (rolling_mean W (price_data_of data st)) = Some cma /\
    result !! "current_signal" =
      Some (PStr (current_signal_of (price_ma_ratio cp cma))) /\
    result !! "signal_strength" =
      Some (PFloat (of_Q (signal_strength_of (price_ma_ratio cp cma)))) /\
    result !! "total_trades" =
      Some (PInt (Z.of_nat (count_trades (signals_of W (price_data_of data st))))) /\
    result !! "combined_score" =
      scored_metrics (strategy_returns_of W (price_data_of data st))
        !! "combined_score" /\
    result !! "volatility" =
      scored_metrics (strategy_returns_of W (price_data_of data st))
        !! "volatility".
Proof.
  unfold backtest_body. intros H.
  destruct (last (price_data_of data st)) as [cp|]; [|done].
  destruct (last (rolling_mean W (price_data_of data st))) as [cma|]; [|done].
  cbn [mbind option_bind] in H. apply Some_inj in H. subst result.
  exists cp, cma.
  do 2 (split; [reflexivity|]).
  repeat split; lookup_insert_tac; reflexivity.
Qed.

Lemma backtest_body_is_Some (data : dataset) (W : nat) (st : strategy_type) :
  price_data_of data st <> [] -> is_Some (backtest_body data W st).
Proof.
  intros Hne. unfold backtest_body.
  destruct (last (price_data_of data st)) as [cp|] eqn:Hcp.
  2:{ apply last_None in Hcp. done. }
  destruct (last (rolling_mean W (price_data_of data st))) as [cma|] eqn:Hma.
  2:{ apply last_None in Hma. apply (f_equal length) in Hma.
      rewrite rolling_mean_length in Hma. by destruct (price_data_of data st). }
  cbn [mbind option_bind]. eexists. reflexivity.
Qed.

(** C8.  The label of the current signal follows the four bands of the
    ratio (above 1.02 strong buy, in (1, 1.02] weak buy, below 0.98 strong
    sell, in [0.98, 1] weak sell) and the reported strength lies in
    [1, 99], for every ratio, 1 included; a trial reports the label and the
    strength of the ratio of its latest price to its latest moving
    average. *)
Theorem signal_bands_and_strength :
  (forall ratio : Q,
     (1.02 < ratio -> current_signal_of ratio = "강한 매수") /\
     (1 < ratio -> ratio <= 1.02 -> current_signal_of ratio = "약한 매수") /\
     (ratio < 0.98 -> current_signal_of ratio = "강한 매도") /\
     (0.98 <= ratio -> ratio <= 1 -> current_signal_of ratio = "약한 매도") /\
     1 <= signal_strength_of ratio <= 99) /\
  signal_strength_of 1 == 50 /\
  (forall data W st result,
     backtest_body data W st = Some result ->
     exists cp cma,
       last (price_data_of data st) = Some cp /\
       last (rolling_mean W (price_data_of data st)) = Some cma /\
       (forall m, cma = Some m -> 0 < m -> price_ma_ratio cp cma = cp / m) /\
       result !! "current_signal" =
         Some (PStr (current_signal_of (price_ma_ratio cp cma))) /\
       result !! "signal_strength" =
         Some (PFloat (of_Q (signal_strength_of (price_ma_ratio cp cma))))).
Proof.
  split; [|split].
  - intros ratio.
    split; [apply classify_strong_buy|].
    split; [apply classify_weak_buy|].
    split; [apply classify_strong_sell|].
    split; [apply classify_weak_sell|].
    apply signal_strength_bounds.
  - reflexivity.
  - intros data W st result H.
    destruct (backtest_body_inv _ _ _ _ H)
      as (cp & cma & Hcp & Hma & Hsig & Hstr & _).
    exists cp, cma. repeat split; try done.
    intros m -> Hm. unfold price_ma_ratio.
    apply Qgtb_true in Hm. by rewrite Hm.
Qed.

Lemma signal_bands_and_strength_witness :
  current_signal_of 1.05 = "강한 매수" /\
  current_signal_of 1.01 = "약한 매수" /\
  current_signal_of 0.9 = "강한 매도" /\
  current_signal_of 1 = "약한 매도" /\
  1 <= signal_strength_of 1 <= 99.
Proof.
  destruct signal_bands_and_strength as [H _].
  split; [apply (H 1.05); reflexivity|].
  split; [apply (H 1.01); [reflexivity | discriminate]|].
  split; [apply (H 0.9); reflexivity|].
  split; [apply (H 1); discriminate|].
  apply (H 1).
Defined.

(** ** One-period lag (lines 194-197) *)

Lemma Qmult_1_l_eq (r : Q) : 1 * r = r.
Proof. destruct r as [n d]. unfold Qmult. simpl. by destruct n. Qed.

Lemma shift1_lookup_S (s : series) (i : nat) :
  (S i < length s)%nat -> shift1 s !! S i = s !! i.
Proof.
  intros Hi. destruct s as [|a s]; [simpl in Hi; lia|].
  unfold shift1. rewrite lookup_cons. apply lookup_take_lt.
  simpl in *. lia.
Qed.

Lemma shift1_length (s : series) : length (shift1 s) = length s.
Proof.
  destruct s as [|a s]; [done|]. unfold shift1. cbn [length].
  rewrite length_take. cbn [length]. lia.
Qed.

Lemma pct_change_length (p : list Q) : length (pct_change p) = length p.
Proof.
  destruct p as [|a p]; [done|]. unfold pct_change. cbn [length].
  rewrite length_zip_with. cbn [length]. lia.
Qed.

Lemma pct_change_lookup_S (p : list Q) (i : nat) (prev cur : Q) :
  p !! i = Some prev -> p !! S i = Some cur ->
  pct_change p !! S i = Some (Some (cur / prev - 1)).
Proof.
  intros Hprev Hcur. destruct p as [|a p]; [done|].
  unfold pct_change. rewrite lookup_cons, lookup_zip_with.
  rewrite lookup_cons in Hcur. by rewrite Hprev, Hcur.
Qed.

Lemma lagged_returns_lookup_S (W : nat) (p : list Q) (i : nat) (s r : Q) :
  signals_of W p !! i = Some s -> pct_change p !! S i = Some (Some r) ->
  lagged_returns W p !! S i = Some (Some (s * r)).
Proof.
  intros Hs Hr. unfold lagged_returns, smul.
  rewrite lookup_zip_with, shift1_lookup_S, list_lookup_fmap, Hs, Hr; [done|].
  rewrite length_fmap, signals_of_length, <- pct_change_length.
  eapply lookup_lt_Some; eauto.
Qed.

Lemma lagged_returns_lookup_0 (W : nat) (p : list Q) :
  p <> [] -> lagged_returns W p !! 0%nat = Some None.
Proof.
  intros Hp. destruct p as [|a p]; [done|].
  unfold lagged_returns, smul, shift1.
  pose proof (signals_of_length W (a :: p)) as Hl.
  destruct (signals_of W (a :: p)) as [|s l]; [done|]. done.
Qed.

Lemma lagged_returns_length (W : nat) (p : list Q) :
  length (lagged_returns W p) = length p.
Proof.
  unfold lagged_returns, smul.
  rewrite length_zip_with, pct_change_length, shift1_length, length_fmap.
  rewrite signals_of_length. lia.
Qed.

(** The lagged series is NaN at the first date and a number afterwards, so
    [dropna] removes exactly the first entry. *)
Lemma lagged_returns_dropna (W : nat) (p : list Q) :
  p <> [] ->
  lagged_returns W p = None :: (Some <$> strategy_returns_of W p).
Proof.
  intros Hp. unfold strategy_returns_of.
  pose proof (lagged_returns_lookup_0 W p Hp) as H0.
  assert (Hrest : forall i, (S i < length p)%nat ->
            is_Some (lagged_returns W p !! S i ≫= (fun x => x))).
  { intros i Hi.
    destruct (lookup_lt_is_Some_2 p i ltac:(lia)) as [prev Hprev].
    destruct (lookup_lt_is_Some_2 p (S i) Hi) as [cur Hcur].
    destruct (lookup_lt_is_Some_2 (signals_of W p) i
                ltac:(rewrite signals_of_length; lia)) as [s Hs].
    rewrite (lagged_returns_lookup_S W p i s _ Hs
               (pct_change_lookup_S p i prev cur Hprev Hcur)).
    simpl. eauto. }
  pose proof (lagged_returns_length W p) as Hlen.
  destruct (lagged_returns W p) as [|a l]; [done|].
  simpl in H0. injection H0 as ->. simpl. f_equal.
  assert (Hall : forall i, (i < length l)%nat -> is_Some (l !! i ≫= (fun x => x))).
  { intros i Hi. apply (Hrest i). simpl in Hlen. lia. }
  clear -Hall. induction l as [|b l IH]; [done|].
  destruct (Hall 0%nat ltac:(simpl; lia)) as [v Hv].
  destruct b as [b|]; [|done]. unfold dropna. simpl. fold (dropna l). f_equal.
  apply IH. intros i Hi. apply (Hall (S i)). simpl. lia.
Qed.

Lemma strategy_returns_lookup (W : nat) (p : list Q) (i : nat) (s r : Q) :
  signals_of W p !! i = Some s -> pct_change p !! S i = Some (Some r) ->
  strategy_returns_of W p !! i = Some (s * r).
Proof.
  intros Hs Hr.
  pose proof (lagged_returns_lookup_S W p i s r Hs Hr) as H.
  assert (Hp : p <> []) by (intros ->; done).
  rewrite (lagged_returns_dropna W p Hp), lookup_cons, list_lookup_fmap in H.
  destruct (strategy_returns_of W p !! i); simpl in H; congruence.
Qed.

Lemma strategy_returns_length (W : nat) (p : list Q) :
  length (strategy_returns_of W p) = (length p - 1)%nat.
Proof.
  destruct (decide (p = [])) as [->|Hp]; [done|].
  pose proof (lagged_returns_length W p) as H.
  rewrite (lagged_returns_dropna W p Hp) in H. simpl in H.
  rewrite length_fmap in H. lia.
Qed.

Lemma above_mab_sound (W : nat) (p : list Q) :
  above_mab W p = true -> above_ma W p.
Proof.
  unfold above_mab. rewrite forallb_forall. intros H i x m _ Hx Hm.
  assert (Hi : (i < length p)%nat) by (eapply lookup_lt_Some; eauto).
  specialize (H i). rewrite Hx, Hm in H. apply Qgtb_true, H.
  apply in_seq. lia.
Qed.

Lemma signals_of_long (W : nat) (p : list Q) :
  (1 <= W)%nat -> above_ma W p ->
  forall i, (W <= S i)%nat -> (i < length p)%nat -> signals_of W p !! i = Some 1.
Proof.
  intros HW Habove i Hw Hi.
  destruct (lookup_lt_is_Some_2 p i Hi) as [x Hx].
  pose proof (rolling_mean_defined W p i Hi ltac:(lia)) as Hm.
  rewrite (signals_of_defined W p i x _ Hx Hm).
  pose proof (Habove i x _ Hw Hx Hm) as Hlt.
  apply Qgtb_true in Hlt. by rewrite Hlt.
Qed.

(** C3.  The strategy return of period [T] is the signal of period [T-1]
    times the price return of period [T]; the first period has none.  So
    when the price is strictly above its moving average at every date from
    the end of the warm-up on, the signal is 1 from there on, and from one
    period later the strategy earns the price return of the period: the
    price-return series is entered with a delay of exactly one period. *)
Theorem one_period_lag (W : nat) (p : list Q) :
  (1 <= W)%nat ->
  (forall T s r,
     signals_of W p !! T = Some s -> pct_change p !! S T = Some (Some r) ->
     lagged_returns W p !! S T = Some (Some (s * r)) /\
     strategy_returns_of W p !! T = Some (s * r)) /\
  (p <> [] -> lagged_returns W p !! 0%nat = Some None) /\
  (above_ma W p ->
   (forall i, (W <= S i)%nat -> (i < length p)%nat ->
      signals_of W p !! i = Some 1) /\
   (forall T r, (W <= S T)%nat -> pct_change p !! S T = Some (Some r) ->
      lagged_returns W p !! S T = Some (Some r) /\
      strategy_returns_of W p !! T = Some r) /\
   (forall T, (S T < W)%nat -> (S T < length p)%nat ->
      exists r, pct_change p !! S T = Some (Some r) /\
                strategy_returns_of W p !! T = Some (0 * r))).
Proof.
  intros HW. split; [|split].
  - intros T s r Hs Hr. split.
    + by apply lagged_returns_lookup_S.
    + by apply strategy_returns_lookup.
  - apply lagged_returns_lookup_0.
  - intros Habove. split; [|split].
    + by apply signals_of_long.
    + intros T r Hw Hr.
      assert (HT : (S T < length p)%nat).
      { rewrite <- pct_change_length. eapply lookup_lt_Some; eauto. }
      pose proof (signals_of_long W p HW Habove T Hw ltac:(lia)) as Hs.
      rewrite <- (Qmult_1_l_eq r). split.
      * by apply lagged_returns_lookup_S.
      * by apply strategy_returns_lookup.
    + intros T Hw HT.
      destruct (lookup_lt_is_Some_2 p T ltac:(lia)) as [prev Hprev].
      destruct (lookup_lt_is_Some_2 p (S T) HT) as [cur Hcur].
      exists (cur / prev - 1).
      pose proof (pct_change_lookup_S p T prev cur Hprev Hcur) as Hr.
      split; [done|].
      apply strategy_returns_lookup; [|done].
      apply signals_of_warmup; lia.
Qed.

Lemma one_period_lag_witness :
  let p := [10; 11; 12; 13; 15; 18; 24] in
  signals_of 3 p = [0; 0; 1; 1; 1; 1; 1] /\
  above_ma 3 p /\
  Forall2 Qeq (strategy_returns_of 3 p) [0; 0; 1 # 12; 2 # 13; 1 # 5; 1 # 3] /\
  strategy_returns_of 3 p !! 4%nat = Some (18 / 15 - 1).
Proof.
  assert (Habove : above_ma 3 [10; 11; 12; 13; 15; 18; 24])
    by (apply above_mab_sound; reflexivity).
  split; [reflexivity|].
  split; [exact Habove|].
  split; [repeat constructor|].
  apply (one_period_lag 3 [10; 11; 12; 13; 15; 18; 24]);
    [lia | exact Habove | lia | reflexivity].
Defined.

(** ** Metrics calculator (lines 94-161) *)

Lemma dropna_fmap_Some (l : list Q) : dropna (Some <$> l) = l.
Proof.
  unfold dropna. induction l as [|x l IH]; [done|].
  cbn [fmap list_fmap omap list_omap]. by rewrite IH.
Qed.

Lemma calculate_enhanced_metrics_nil (period_returns : option series) :
  calculate_enhanced_metrics [] period_returns = ∅.
Proof. reflexivity. Qed.

Lemma calculate_enhanced_metrics_cons (l : list Q) :
  l <> [] ->
  calculate_enhanced_metrics (Some <$> l) None = metric_bundle l (sortino_of l).
Proof.
  intros Hl. destruct l as [|x l]; [done|].
  unfold calculate_enhanced_metrics.
  change (Some <$> x :: l) with (Some x :: (Some <$> l)). cbv iota beta.
  change (Some x :: (Some <$> l)) with (Some <$> x :: l).
  by rewrite dropna_fmap_Some.
Qed.

Lemma metric_bundle_keys (l : list Q) (c : fl) (k : string) :
  k ∈ metric_keys -> is_Some (metric_bundle l c !! k).
Proof.
  unfold metric_keys, metric_bundle. intros Hk.
  repeat (apply elem_of_cons in Hk as [->|Hk];
          [lookup_insert_tac; eauto|]).
  by apply elem_of_nil in Hk.
Qed.

Lemma metric_bundle_other (l : list Q) (c : fl) (k : string) :
  k ∉ metric_keys -> metric_bundle l c !! k = None.
Proof.
  unfold metric_keys, metric_bundle. intros Hk.
  rewrite !not_elem_of_cons in Hk.
  destruct Hk as (? & ? & ? & ? & ? & ? & ? & ? & ? & _).
  by rewrite !lookup_insert_ne by congruence.
Qed.

Lemma sortino_over_nil : sortino_over [] = Some 0%R.
Proof. reflexivity. Qed.

Lemma sortino_over_cons (l : list Q) : l <> [] -> sortino_over l = sortino_of l.
Proof.
  intros Hl. unfold sortino_over, get_float.
  rewrite calculate_enhanced_metrics_cons by done.
  unfold metric_bundle. by lookup_insert_tac.
Qed.

Lemma combined_score_cons (l : list Q) :
  l <> [] ->
  calculate_enhanced_metrics (Some <$> l) None !! "combined_score" =
    Some (PFloat (sortino_of l)).
Proof.
  intros Hl. rewrite calculate_enhanced_metrics_cons by done.
  unfold metric_bundle. by lookup_insert_tac.
Qed.

Lemma volatility_cons (l : list Q) :
  l <> [] ->
  calculate_enhanced_metrics (Some <$> l) None !! "volatility" =
    Some (PFloat (volatility_of l)).
Proof.
  intros Hl. rewrite calculate_enhanced_metrics_cons by done.
  unfold metric_bundle. by lookup_insert_tac.
Qed.

(** C6 as stated fails: the bundle of the empty series has no field. *)
Lemma empty_series_bundle_has_no_field :
  ~ all_fields_present (calculate_enhanced_metrics [] None).
Proof.
  intros H. destruct (H "cagr") as [v Hv].
  - unfold metric_keys. set_solver.
  - by rewrite calculate_enhanced_metrics_nil, lookup_empty in Hv.
Qed.

(** C6, amended.  For the empty return series the metrics calculator
    returns the empty bundle, with or without a recent series: no field is
    present, and a caller reading a field with the default 0 reads 0.  The
    function is total: no input makes it raise. *)
Theorem empty_series_neutral_bundle (period_returns : option series) :
  calculate_enhanced_metrics [] period_returns = ∅ /\
  (forall k, calculate_enhanced_metrics [] period_returns !! k = None) /\
  (forall k, get_float k (Some 0%R)
               (calculate_enhanced_metrics [] period_returns) = Some 0%R).
Proof.
  rewrite calculate_enhanced_metrics_nil. split; [done|].
  split; intros k; [apply lookup_empty|].
  unfold get_float. by rewrite lookup_empty.
Qed.

(** ** The blended score (lines 199-212) *)

Lemma fadd_comm (a b : fl) : fadd a b = fadd b a.
Proof. destruct a, b; simpl; try done. f_equal. apply Rplus_comm. Qed.

Lemma fgtb_0_0 : fgtb (Some 0%R) (Some 0%R) = false.
Proof. unfold fgtb. apply bool_decide_eq_false_2. lra. Qed.

(** One observation has no sample deviation: its downside deviation is 0
    or NaN, and the Sortino ratio falls back to 0. *)
Lemma sortino_of_single (r : Q) : sortino_of [r] = Some 0%R.
Proof.
  unfold sortino_of, downside_deviation, downside. cbn [List.filter].
  destruct (Qltb r 0); cbn [length].
  - rewrite bool_decide_eq_true_2 by lia.
    unfold std. cbn [length]. rewrite bool_decide_eq_false_2 by lia. done.
  - rewrite bool_decide_eq_false_2 by lia. by rewrite fgtb_0_0.
Qed.

Lemma recent_cutoff_spec (n : nat) :
  recent_cutoff n =
    Z.to_nat (Z.max 0 (Z.of_nat n - Z.min 504 (Z.of_nat n / 2))).
Proof.
  unfold recent_cutoff.
  assert (H : Z.of_nat (n / 2) = (Z.of_nat n / 2)%Z)
    by (rewrite Nat2Z.inj_div; reflexivity).
  lia.
Qed.

Lemma recent_returns_of_slice (l : list Q) : recent_returns_of l = recent_slice l.
Proof. unfold recent_returns_of, recent_slice. by rewrite recent_cutoff_spec. Qed.

Lemma recent_slice_length (l : list Q) :
  length (recent_slice l) = Nat.min 504 (length l / 2).
Proof.
  rewrite <- recent_returns_of_slice. unfold recent_returns_of, recent_cutoff.
  rewrite length_drop.
  pose proof (Nat.Div0.div_le_upper_bound (length l) 2 (length l)) as H.
  assert (length l / 2 <= length l)%nat by (apply Nat.Div0.div_le_upper_bound; lia).
  lia.
Qed.

(** C2.  For a trial whose strategy-return series has at least one
    observation, the combined score of the result is 0.7 times the Sortino
    ratio of the recent slice plus 0.3 times the Sortino ratio of the whole
    series, the recent slice running from index max(0, N - min(504, N/2))
    to the end.  (With N = 1 the slice is empty, nothing is written over the
    full-history score, and both sides are 0.) *)
Theorem combined_score_blend (data : dataset) (W : nat) (st : strategy_type)
    (result : gmap string pyval) :
  backtest_body data W st = Some result ->
  (1 <= length (strategy_returns_of W (price_data_of data st)))%nat ->
  result !! "combined_score" =
    Some (PFloat
            (fadd (fmul (Some 0.7%R)
                        (sortino_over
                           (recent_slice
                              (strategy_returns_of W (price_data_of data st)))))
                  (fmul (Some 0.3%R)
                        (sortino_over
                           (strategy_returns_of W (price_data_of data st)))))).
Proof.
  intros Hres HN.
  destruct (backtest_body_inv _ _ _ _ Hres)
    as (cp & cma & _ & _ & _ & _ & _ & -> & _).
  set (sr := strategy_returns_of W (price_data_of data st)) in *.
  assert (Hsr : sr <> []) by (intros E; rewrite E in HN; simpl in HN; lia).
  unfold scored_metrics. rewrite recent_returns_of_slice.
  case_bool_decide as Hrecent.
  - rewrite lookup_insert_eq. unfold blend. rewrite fadd_comm. reflexivity.
  - rewrite combined_score_cons by done.
    assert (Hlen : length sr = 1%nat).
    { rewrite recent_slice_length in Hrecent.
      destruct (decide (length sr = 1%nat)) as [|Hne]; [done|].
      assert (1 <= length sr / 2)%nat by (apply Nat.div_le_lower_bound; lia).
      lia. }
    destruct sr as [|r [|r' sr']]; try done.
    rewrite sortino_of_single.
    change (recent_slice [r]) with (@nil Q). rewrite sortino_over_nil.
    rewrite sortino_over_cons, sortino_of_single by done.
    unfold fadd, fmul, lift2. do 3 f_equal. lra.
Qed.

Lemma backtest_body_eq (data : dataset) (W : nat) (st : strategy_type) :
  price_data_of data st <> [] ->
  backtest_body data W st = Some (backtest_ma_strategy data W st).
Proof.
  intros Hne. unfold backtest_ma_strategy.
  by destruct (backtest_body_is_Some data W st Hne) as [r ->].
Qed.

Lemma combined_score_blend_witness :
  let data := [(10, 1); (11, 1); (12, 1); (11, 1); (13, 1)] in
  (1 <= length (strategy_returns_of 2 (price_data_of data BTC_only)))%nat /\
  backtest_ma_strategy data 2 BTC_only !! "combined_score" =
    Some (PFloat
            (fadd (fmul (Some 0.7%R)
                        (sortino_over
                           (recent_slice
                              (strategy_returns_of 2 (price_data_of data BTC_only)))))
                  (fmul (Some 0.3%R)
                        (sortino_over
                           (strategy_returns_of 2 (price_data_of data BTC_only)))))).
Proof.
  split; [vm_compute; lia|].
  apply (combined_score_blend [(10, 1); (11, 1); (12, 1); (11, 1); (13, 1)]
           2%nat BTC_only).
  - apply backtest_body_eq. discriminate.
  - vm_compute. lia.
Defined.

(** ** The sweep (lines 254-308) *)

Section Pool.

Variable data : dataset.
Variable st : strategy_type.

Lemma run_pool_lookup_from (pool : gmap nat (gmap string pyval))
    (completed : list nat) (w : nat) :
  foldl (fun pool ma_period =>
           <[ma_period := backtest_ma_strategy data ma_period st]> pool)
        pool completed !! w =
    if decide (w ∈ completed) then Some (backtest_ma_strategy data w st)
    else pool !! w.
Proof.
  revert pool. induction completed as [|c completed IH]; intros pool.
  - cbn [foldl]. destruct (decide (w ∈ [])) as [Hin|]; [|done].
    by apply elem_of_nil in Hin.
  - cbn [foldl]. rewrite IH. rewrite (decide_ext _ _ _ _ (elem_of_cons completed w c)).
    destruct (decide (w ∈ completed)) as [Hin|Hin].
    + rewrite decide_True; [done | by right].
    + destruct (decide (w = c)) as [->|Hne].
      * rewrite lookup_insert_eq. rewrite decide_True; [done | by left].
      * rewrite lookup_insert_ne by done. rewrite decide_False; [done | tauto].
Qed.

(** A future holds the result of its own trial, whatever the order in which
    the workers finished; a trial that did not finish in time has none. *)
Lemma future_result_spec (completed : list nat) (w : nat) :
  future_result (run_pool data st completed) w =
    if decide (w ∈ completed) then Some (backtest_ma_strategy data w st)
    else None.
Proof.
  unfold future_result, run_pool. rewrite run_pool_lookup_from.
  by destruct (decide (w ∈ completed)).
Qed.

End Pool.

Lemma reduce_step_scored (pool : gmap nat (gmap string pyval)) (b : best)
    (w : nat) (s sb : R) :
  pool_score pool w = Some s -> best_score b = Some sb ->
  reduce_step pool b w =
    if bool_decide (s > sb)%R
    then {| best_score := Some s; best_ma := w;
            best_result := default ∅ (future_result pool w) |}
    else b.
Proof.
  unfold pool_score, reduce_step. intros Hs Hb.
  destruct (future_result pool w) as [result|]; [|done].
  destruct (truthy result && has_key "combined_score" result); [|done].
  rewrite Hs, Hb. simpl. done.
Qed.

Lemma reduce_step_unscored (pool : gmap nat (gmap string pyval)) (b : best)
    (w : nat) :
  pool_score pool w = None -> reduce_step pool b w = b.
Proof.
  unfold pool_score, reduce_step. intros Hs.
  destruct (future_result pool w) as [result|]; [|done].
  destruct (truthy result && has_key "combined_score" result); [|done].
  by rewrite Hs.
Qed.

Lemma reduce_snoc (pool : gmap nat (gmap string pyval)) (l : list nat) (w : nat) :
  reduce pool (l ++ [w]) = reduce_step pool (reduce pool l) w.
Proof. unfold reduce. by rewrite foldl_app. Qed.

(** What the reduction has found at the end of a sweep: either nothing
    above the floor -999, and the three variables still hold their initial
    values; or the first window, in sweep order, of the highest numeric
    score. *)
Lemma reduce_spec (pool : gmap nat (gmap string pyval)) (windows : list nat) :
  let b := reduce pool windows in
  (b = best_init /\
   forall w s, w ∈ windows -> pool_score pool w = Some s -> (s <= floor_score)%R)
  \/
  (exists s,
     best_score b = Some s /\ (s > floor_score)%R /\
     future_result pool (best_ma b) = Some (best_result b) /\
     first_maximum (pool_score pool) windows (best_ma b) s).
Proof.
  induction windows as [|w windows IH] using rev_ind.
  - left. split; [done|]. intros w s Hw. by apply elem_of_nil in Hw.
  - rewrite reduce_snoc. cbv zeta in IH. cbv zeta.
    set (b := reduce pool windows) in *.
    destruct (pool_score pool w) as [s|] eqn:Hs.
    2:{ rewrite reduce_step_unscored by done.
        destruct IH as [[Hb Hall]|(sb & Hsb & Hgt & Hres & i & Hi & Hsc & Hmax & Hfirst)].
        - left. split; [done|]. intros w' s' Hw' Hs'.
          apply elem_of_app in Hw' as [Hw'|Hw']; [by eapply Hall|].
          apply list_elem_of_singleton in Hw' as ->. congruence.
        - right. exists sb. repeat split; try done.
          exists i. split; [by apply lookup_app_l_Some|]. split; [done|]. split.
          + intros w' s' Hw' Hs'.
            apply elem_of_app in Hw' as [Hw'|Hw']; [by eapply Hmax|].
            apply list_elem_of_singleton in Hw' as ->. congruence.
          + intros j w' s' Hj Hw' Hs'. eapply (Hfirst j); [done| |done].
            rewrite lookup_app_l in Hw'; [done|].
            apply lookup_lt_Some in Hi. lia. }
    destruct IH as [[Hb Hall]|(sb & Hsb & Hgt & Hres & i & Hi & Hsc & Hmax & Hfirst)].
    + rewrite (reduce_step_scored pool b w s floor_score Hs) by (by rewrite Hb).
      case_bool_decide as Hcmp.
      * right. exists s. cbn [best_score best_ma best_result].
        assert (Hfut : is_Some (future_result pool w)).
        { unfold pool_score in Hs. by destruct (future_result pool w). }
        destruct Hfut as [result Hfut]. rewrite Hfut. simpl.
        repeat split; try done.
        exists (length windows). split; [by rewrite list_lookup_middle|].
        split; [done|]. split.
        -- intros w' s' Hw' Hs'.
           apply elem_of_app in Hw' as [Hw'|Hw'].
           ++ specialize (Hall w' s' Hw' Hs'). lra.
           ++ apply list_elem_of_singleton in Hw' as ->.
              assert (s' = s) by congruence. lra.
        -- intros j w' s' Hj Hw' Hs'.
           rewrite lookup_app_l in Hw' by done.
           assert (Hin : w' ∈ windows) by (eapply list_elem_of_lookup_2; eauto).
           specialize (Hall w' s' Hin Hs'). lra.
      * left. split; [done|]. intros w' s' Hw' Hs'.
        apply elem_of_app in Hw' as [Hw'|Hw']; [by eapply Hall|].
        apply list_elem_of_singleton in Hw' as ->.
        assert (s' = s) by congruence. unfold floor_score in *. lra.
    + rewrite (reduce_step_scored pool b w s sb Hs Hsb).
      case_bool_decide as Hcmp.
      * right. exists s. cbn [best_score best_ma best_result].
        assert (Hfut : is_Some (future_result pool w)).
        { unfold pool_score in Hs. by destruct (future_result pool w). }
        destruct Hfut as [result Hfut]. rewrite Hfut. simpl.
        split; [done|]. split; [lra|]. split; [done|].
        exists (length windows). split; [by rewrite list_lookup_middle|].
        split; [done|]. split.
        -- intros w' s' Hw' Hs'.
           apply elem_of_app in Hw' as [Hw'|Hw'].
           ++ specialize (Hmax w' s' Hw' Hs'). lra.
           ++ apply list_elem_of_singleton in Hw' as ->.
              assert (s' = s) by congruence. lra.
        -- intros j w' s' Hj Hw' Hs'.
           rewrite lookup_app_l in Hw' by done.
           assert (Hin : w' ∈ windows) by (eapply list_elem_of_lookup_2; eauto).
           specialize (Hmax w' s' Hin Hs'). lra.
      * right. exists sb. repeat split; try done.
        exists i. split; [by apply lookup_app_l_Some|]. split; [done|]. split.
        -- intros w' s' Hw' Hs'.
           apply elem_of_app in Hw' as [Hw'|Hw']; [by eapply Hmax|].
           apply list_elem_of_singleton in Hw' as ->.
           assert (s' = s) by congruence. lra.
        -- intros j w' s' Hj Hw' Hs'. eapply (Hfirst j); [done| |done].
           rewrite lookup_app_l in Hw'; [done|].
           apply lookup_lt_Some in Hi. lia.
Qed.

Lemma range_lookup (a b i w : nat) :
  range a b !! i = Some w <-> (w = a + i /\ a + i < b)%nat.
Proof.
  unfold range. rewrite lookup_seq. split; intros [-> H]; split; lia.
Qed.

Lemma elem_of_range (a b w : nat) : w ∈ range a b <-> (a <= w < b)%nat.
Proof. unfold range. rewrite elem_of_seq. lia. Qed.

Lemma test_range_ascending (st : strategy_type) (i j w w' : nat) :
  test_range st !! i = Some w -> test_range st !! j = Some w' ->
  (i < j)%nat -> (w < w')%nat.
Proof.
  intros Hi Hj Hlt.
  destruct st; unfold test_range in *;
    apply range_lookup in Hi as [-> _]; apply range_lookup in Hj as [-> _]; lia.
Qed.

Section Sweep.

Variable today : string.
Variable completed : list nat.
Variable data : dataset.
Variable st : strategy_type.

Let r := find_optimal_ma today completed data st.
Let score := trial_score completed data st.

Lemma sweep_outcome :
  (optimal_ma r = 20%nat /\ combined_score r = Some floor_score /\
   backtest_data r = ∅ /\
   forall w s, w ∈ test_range st -> score w = Some s -> (s <= floor_score)%R)
  \/
  (exists s,
     combined_score r = Some s /\ (s > floor_score)%R /\
     first_maximum score (test_range st) (optimal_ma r) s).
Proof.
  subst r score. unfold find_optimal_ma, trial_score.
  cbn [optimal_ma combined_score backtest_data].
  destruct (reduce_spec (run_pool data st completed) (test_range st))
    as [[Hb Hall]|(s & Hs & Hgt & _ & Hfirst)].
  - left. rewrite Hb. by repeat split.
  - right. exists s. by repeat split.
Qed.

Lemma sweep_above_floor :
  (exists w s, w ∈ test_range st /\ score w = Some s /\ (s > floor_score)%R) ->
  exists s,
    combined_score r = Some s /\
    first_maximum score (test_range st) (optimal_ma r) s.
Proof.
  intros (w & s & Hw & Hs & Hgt).
  destruct sweep_outcome as [(_ & _ & _ & Hall)|(s' & Hs' & _ & Hfirst)].
  - specialize (Hall w s Hw Hs). lra.
  - by exists s'.
Qed.

Lemma sweep_below_floor :
  (forall w s, w ∈ test_range st -> score w = Some s -> (s <= floor_score)%R) ->
  optimal_ma r = 20%nat /\ combined_score r = Some floor_score /\
  backtest_data r = ∅.
Proof.
  intros Hall.
  destruct sweep_outcome as [(H1 & H2 & H3 & _)|(s & Hs & Hgt & i & Hi & Hsc & _)].
  - done.
  - apply list_elem_of_lookup_2 in Hi. specialize (Hall _ _ Hi Hsc). lra.
Qed.

End Sweep.

(** C1.  What the sweep returns.  It covers exactly the windows 5..100
    for the single-asset strategies and 10..60 for the rebalance
    strategies.  When some trial produced a result whose combined score is
    above -999, the optimizer returns the window of the highest score, the
    first one in sweep order on a tie.  When every score is at or below
    -999, the comparison [score > best_score] never holds against the
    initial [best_score = -999], and the optimizer returns window 20,
    score -999 and an empty result although trials have a score. *)
Theorem optimizer_selects_first_maximum (today : string)
    (completed : list nat) (data : dataset) (st : strategy_type) :
  test_range st =
    match st with
    | BTC_only | ETH_only => seq 5 96
    | _ => seq 10 51
    end /\
  ((exists w s, w ∈ test_range st /\
                trial_score completed data st w = Some s /\ (s > -999)%R) ->
   selects_best_scored_trial today completed data st) /\
  ((forall w s, w ∈ test_range st ->
                trial_score completed data st w = Some s -> (s <= -999)%R) ->
   optimal_ma (find_optimal_ma today completed data st) = 20%nat /\
   combined_score (find_optimal_ma today completed data st) = Some (-999)%R /\
   backtest_data (find_optimal_ma today completed data st) = ∅).
Proof.
  split; [by destruct st|]. split.
  - intros H _. by apply sweep_above_floor.
  - apply sweep_below_floor.
Qed.

(** ** Evaluating the score of a trial *)

Lemma recent_slice_nonempty (sr : list Q) :
  (2 <= length sr)%nat -> recent_slice sr <> [].
Proof.
  intros Hlen Hnil. apply (f_equal length) in Hnil.
  rewrite recent_slice_length in Hnil. cbn [length] in Hnil.
  assert (1 <= length sr / 2)%nat by (apply Nat.div_le_lower_bound; lia).
  lia.
Qed.

Lemma scored_metrics_combined (sr : list Q) :
  (2 <= length sr)%nat ->
  scored_metrics sr !! "combined_score" = Some (PFloat (blended_score sr)).
Proof.
  intros Hlen. unfold scored_metrics.
  pose proof (recent_slice_nonempty sr Hlen) as Hrec.
  rewrite recent_returns_of_slice.
  rewrite bool_decide_eq_true_2
    by (destruct (recent_slice sr); [done | simpl; lia]).
  rewrite lookup_insert_eq. unfold blend, blended_score.
  fold (sortino_over sr). fold (sortino_over (recent_slice sr)).
  rewrite !sortino_over_cons; [done | done |].
  intros ->. simpl in Hlen. lia.
Qed.

Lemma scored_metrics_volatility (sr : list Q) :
  sr <> [] ->
  scored_metrics sr !! "volatility" = Some (PFloat (volatility_of sr)).
Proof.
  intros Hsr. unfold scored_metrics.
  case_bool_decide; [rewrite lookup_insert_ne by discriminate|];
    by apply volatility_cons.
Qed.

Lemma backtest_score (data : dataset) (W : nat) (st : strategy_type) :
  price_data_of data st <> [] ->
  (2 <= length (strategy_returns_of W (price_data_of data st)))%nat ->
  backtest_ma_strategy data W st !! "combined_score" =
    Some (PFloat (blended_score (strategy_returns_of W (price_data_of data st)))).
Proof.
  intros Hne Hlen.
  destruct (backtest_body_inv _ _ _ _ (backtest_body_eq data W st Hne))
    as (cp & cma & _ & _ & _ & _ & _ & -> & _).
  by apply scored_metrics_combined.
Qed.

Lemma trial_score_eval (completed : list nat) (data : dataset)
    (st : strategy_type) (w : nat) :
  w ∈ completed -> price_data_of data st <> [] ->
  (2 <= length (strategy_returns_of w (price_data_of data st)))%nat ->
  trial_score completed data st w =
    blended_score (strategy_returns_of w (price_data_of data st)).
Proof.
  intros Hw Hne Hlen. unfold trial_score, pool_score.
  rewrite future_result_spec, decide_True by done.
  pose proof (backtest_score data w st Hne Hlen) as Hscore.
  assert (Htruthy : truthy (backtest_ma_strategy data w st) = true).
  { unfold truthy. apply bool_decide_eq_true_2. intros E.
    rewrite E, lookup_empty in Hscore. done. }
  assert (Hkey : has_key "combined_score" (backtest_ma_strategy data w st) = true).
  { unfold has_key. apply bool_decide_eq_true_2. rewrite Hscore. eauto. }
  rewrite Htruthy, Hkey. cbn [andb].
  unfold score_of, get_float. by rewrite Hscore.
Qed.

(** A series without a negative return has downside deviation 0 and the
    Sortino ratio falls back to 0. *)
Lemma sortino_of_no_downside (l : list Q) :
  downside l = [] -> sortino_of l = Some 0%R.
Proof.
  intros H. unfold sortino_of, downside_deviation. rewrite H. cbn [length].
  rewrite bool_decide_eq_false_2 by lia. by rewrite fgtb_0_0.
Qed.

(** ** A bound on the Sortino ratio *)

Lemma Q2R_252 : Q2R 252 = 252%R.
Proof. unfold Q2R. simpl. lra. Qed.

Lemma Rpower_le_1 (b e : R) :
  (0 < b <= 1)%R -> (0 <= e)%R -> (Rpower b e <= 1)%R.
Proof.
  intros [Hb0 Hb1] He.
  apply Rle_trans with (Rpower 1 e).
  - apply Rle_Rpower_l; [done | lra].
  - right. unfold Rpower. rewrite ln_1, Rmult_0_r. apply exp_0.
Qed.

(** A series that never gains overall and whose negative returns are at
    least two and close to one another has a Sortino ratio of at most
    -1000: the numerator is at most -0.02 and the downside deviation at
    most 0.00002. *)
Lemma sortino_of_below (l : list Q) :
  Qgtb (num_years l) 0 = true ->
  Qgtb (Qprod (map (fun r => 1 + r) l)) 0 = true ->
  Qleb (Qprod (map (fun r => 1 + r) l)) 1 = true ->
  (2 <= length (downside l))%nat ->
  Qgtb (variance (downside l)) 0 = true ->
  Qleb (variance (downside l) * 252) ((1 # 50000) * (1 # 50000)) = true ->
  exists s, sortino_of l = Some s /\ (s <= -1000)%R.
Proof.
  intros Hyears Hpos Hle1 Hlen Hvar0 Hvar.
  apply Qgtb_true in Hpos, Hvar0. apply Qleb_true in Hle1, Hvar.
  set (P := Qprod (map (fun r => 1 + r) l)) in *.
  set (v := variance (downside l)) in *.
  assert (HP : Q2R (1 + total_return l) = Q2R P).
  { apply Qeq_eqR. unfold total_return. fold P. ring. }
  apply Qlt_Rlt in Hpos, Hvar0. apply Qle_Rle in Hle1, Hvar.
  rewrite Q2R_mult, Q2R_252 in Hvar.
  change (Q2R 0) with (0 * / 1)%R in Hpos, Hvar0.
  replace (Q2R 1) with 1%R in Hle1 by (unfold Q2R; simpl; lra).
  replace (Q2R ((1 # 50000) * (1 # 50000)))
    with ((1 / 50000) * (1 / 50000))%R in Hvar
    by (rewrite Q2R_mult; unfold Q2R; simpl; lra).
  set (dd := (sqrt (Q2R v) * sqrt 252)%R).
  assert (Hdd : downside_deviation l = Some dd).
  { unfold downside_deviation, std.
    rewrite !bool_decide_eq_true_2 by lia. reflexivity. }
  assert (Hdd0 : (0 < dd)%R).
  { unfold dd. apply Rmult_lt_0_compat; apply sqrt_lt_R0; lra. }
  assert (Hdd1 : (dd <= 1 / 50000)%R).
  { unfold dd. rewrite <- sqrt_mult by lra.
    rewrite <- (sqrt_square (1 / 50000)) by lra.
    apply sqrt_le_1; nra. }
  unfold sortino_of. rewrite Hdd.
  unfold fgtb. rewrite bool_decide_eq_true_2 by lra.
  unfold cagr_of. rewrite Hyears, HP.
  unfold fpow. rewrite decide_True by lra.
  cbn [fsub fdiv lift2].
  eexists. split; [reflexivity|].
  assert (He : (0 <= Q2R (1 / num_years l))%R).
  { apply Qgtb_true in Hyears.
    replace 0%R with (Q2R 0) by (unfold Q2R; simpl; lra).
    apply Qle_Rle. apply Qlt_le_weak.
    unfold Qdiv. rewrite Qmult_1_l. by apply Qinv_lt_0_compat. }
  pose proof (Rpower_le_1 (Q2R P) _ ltac:(lra) He) as Hpow.
  set (n := (Rpower (Q2R P) (Q2R (1 / num_years l)) - 1 - 0.02)%R) in *.
  assert (Hn : (n <= -0.02)%R) by (unfold n; lra).
  unfold Rdiv.
  assert (Hinv : (50000 <= / dd)%R).
  { replace 50000%R with (/ (1 / 50000))%R by lra.
    apply Rinv_le_contravar; lra. }
  nra.
Qed.

(** ** A sweep whose every score lies below the floor *)

Lemma list_eqb_eq (l1 l2 : list Q) : list_eqb l1 l2 = true -> l1 = l2.
Proof.
  revert l2. induction l1 as [|a l1 IH]; intros [|b l2] H; try done.
  simpl in H. apply andb_true_iff in H as [Hab H].
  unfold Qeqb_syn in Hab. apply andb_true_iff in Hab as [Hn Hd].
  apply Z.eqb_eq in Hn. apply Pos.eqb_eq in Hd.
  destruct a, b. simpl in *. subst. f_equal. by apply IH.
Qed.

Lemma slip_sweep_returns (w : nat) :
  (5 <= w < 101)%nat -> strategy_returns_of w flat_then_slip = slip_returns.
Proof.
  intros Hw. apply list_eqb_eq.
  assert (Hall : forallb (fun w => list_eqb (strategy_returns_of w flat_then_slip)
                                            slip_returns)
                         (range 5 101) = true) by (vm_compute; reflexivity).
  rewrite forallb_forall in Hall. apply Hall.
  apply list_elem_of_In, elem_of_range. lia.
Qed.

Lemma slip_blended_score :
  exists s, blended_score slip_returns = Some s /\ (s <= -1000)%R.
Proof.
  destruct (sortino_of_below slip_returns) as (s1 & Hs1 & Hle1);
    [vm_compute; reflexivity .. | vm_compute; lia | vm_compute; reflexivity
     | vm_compute; reflexivity |].
  destruct (sortino_of_below (recent_slice slip_returns)) as (s2 & Hs2 & Hle2);
    [vm_compute; reflexivity .. | vm_compute; lia | vm_compute; reflexivity
     | vm_compute; reflexivity |].
  unfold blended_score. rewrite Hs1, Hs2. cbn [fadd fmul lift2].
  eexists. split; [reflexivity | lra].
Qed.

Lemma slip_trial_scores (st : strategy_type) :
  st = BTC_only \/ st = ETH_only ->
  exists s, (s <= -1000)%R /\
    forall w, w ∈ test_range st ->
      trial_score (test_range st) slip_data st w = Some s.
Proof.
  intros Hst. destruct slip_blended_score as (s & Hs & Hle).
  exists s. split; [done|]. intros w Hw.
  assert (Hprice : price_data_of slip_data st = flat_then_slip).
  { destruct Hst as [-> | ->]; vm_compute; reflexivity. }
  assert (Hrange : (5 <= w < 101)%nat).
  { destruct Hst as [-> | ->]; by apply elem_of_range in Hw. }
  rewrite trial_score_eval; rewrite ?Hprice, ?slip_sweep_returns; try done.
  vm_compute. lia.
Qed.

Lemma slip_sweep_outcome (today : string) (st : strategy_type) :
  st = BTC_only \/ st = ETH_only ->
  optimal_ma (find_optimal_ma today (test_range st) slip_data st) = 20%nat /\
  combined_score (find_optimal_ma today (test_range st) slip_data st)
    = Some (-999)%R.
Proof.
  intros Hst. destruct (slip_trial_scores st Hst) as (s0 & Hle & Hall).
  destruct (sweep_below_floor today (test_range st) slip_data st) as (H1 & H2 & _);
    [|by split].
  intros w s Hw Hs. rewrite (Hall w Hw) in Hs.
  injection Hs as <-. unfold floor_score. lra.
Qed.

(** C1 as stated fails on [slip_data]: every one of the 96 trials has a
    combined score, the same for all and below -999, and the optimizer
    returns window 20 with score -999 instead of the first window. *)
Lemma slip_sweep_misses_best_trial :
  ~ selects_best_scored_trial "2024-01-01" (test_range BTC_only)
      slip_data BTC_only.
Proof.
  intros H.
  destruct (slip_trial_scores BTC_only (or_introl eq_refl)) as (s0 & Hle & Hall).
  destruct (slip_sweep_outcome "2024-01-01" BTC_only (or_introl eq_refl))
    as [Hma Hscore].
  destruct H as (s & Hs & i & Hi & Hsc & _).
  { exists 5%nat. split; [apply elem_of_range; lia|].
    rewrite Hall by (apply elem_of_range; lia). eauto. }
  rewrite Hscore in Hs. injection Hs as <-.
  rewrite Hma, Hall in Hsc by (apply elem_of_range; lia).
  injection Hsc as ->. lra.
Qed.

Lemma flat_trial_score :
  exists s, trial_score (test_range BTC_only) flat_data BTC_only 5 = Some s /\
            (s > -999)%R.
Proof.
  rewrite trial_score_eval;
    [| apply elem_of_range; lia | discriminate | vm_compute; lia].
  unfold blended_score.
  rewrite !sortino_of_no_downside by (vm_compute; reflexivity).
  cbn [fadd fmul lift2]. eexists. split; [reflexivity | lra].
Qed.

Lemma optimizer_selects_first_maximum_witness :
  selects_best_scored_trial "2024-01-01" (test_range BTC_only)
    flat_data BTC_only /\
  optimal_ma (find_optimal_ma "2024-01-01" (test_range ETH_only)
                slip_data ETH_only) = 20%nat.
Proof.
  split.
  - apply (optimizer_selects_first_maximum "2024-01-01" (test_range BTC_only)
             flat_data BTC_only).
    destruct flat_trial_score as (s & Hs & Hgt).
    exists 5%nat, s. split; [apply elem_of_range; lia | by split].
  - apply (optimizer_selects_first_maximum "2024-01-01" (test_range ETH_only)
             slip_data ETH_only).
    destruct (slip_trial_scores ETH_only (or_intror eq_refl)) as (s0 & Hle & Hall).
    intros w s Hw Hs. rewrite (Hall w Hw) in Hs. injection Hs as <-. lra.
Defined.

(** ** Ties (lines 269-288) *)

(** C10 as stated fails on [slip_data]: all windows tie on the maximal
    score, which is below -999, and the optimizer returns 20, not 5. *)
Lemma slip_sweep_tie_not_smallest :
  ~ ties_go_to_smallest_window "2024-01-01" (test_range ETH_only)
      slip_data ETH_only.
Proof.
  intros H.
  destruct (slip_trial_scores ETH_only (or_intror eq_refl)) as (s0 & Hle & Hall).
  destruct (slip_sweep_outcome "2024-01-01" ETH_only (or_intror eq_refl))
    as [Hma _].
  assert (Hmax : forall w, w ∈ test_range ETH_only ->
            attains_maximum (trial_score (test_range ETH_only) slip_data ETH_only)
              (test_range ETH_only) w s0).
  { intros w Hw. split; [done|]. split; [by apply Hall|].
    intros w' s' Hw' Hs'. rewrite (Hall w' Hw') in Hs'. injection Hs' as <-. lra. }
  destruct (H 5%nat 6%nat s0) as [_ Hsmall];
    [lia | apply Hmax, elem_of_range; lia | apply Hmax, elem_of_range; lia |].
  specialize (Hsmall 5%nat (Hmax 5%nat ltac:(apply elem_of_range; lia))).
  rewrite Hma in Hsmall. lia.
Qed.

(** C10.  The reduction runs over the candidate windows in ascending
    order.  When two or more windows attain the maximal combined score
    and that score is above the initial [best_score = -999], the returned
    window is the smallest of them; a tie at or below -999 is never
    picked up. *)
Theorem tie_returns_smallest_window (today : string) (completed : list nat)
    (data : dataset) (st : strategy_type) :
  (forall i j w w', test_range st !! i = Some w -> test_range st !! j = Some w' ->
                    (i < j)%nat -> (w < w')%nat) /\
  forall w1 w2 s,
    w1 <> w2 -> (s > -999)%R ->
    attains_maximum (trial_score completed data st) (test_range st) w1 s ->
    attains_maximum (trial_score completed data st) (test_range st) w2 s ->
    attains_maximum (trial_score completed data st) (test_range st)
      (optimal_ma (find_optimal_ma today completed data st)) s /\
    forall w, attains_maximum (trial_score completed data st) (test_range st) w s ->
              (optimal_ma (find_optimal_ma today completed data st) <= w)%nat.
Proof.
  split; [apply test_range_ascending|].
  intros w1 w2 s _ Hgt (Hw1 & Hs1 & Hmax1) _.
  destruct (sweep_above_floor today completed data st)
    as (s' & _ & i & Hi & Hsc & Hmax & Hfirst).
  { exists w1, s. by repeat split. }
  assert (Hin : optimal_ma (find_optimal_ma today completed data st)
                  ∈ test_range st) by (eapply list_elem_of_lookup_2; eauto).
  assert (s' = s) as ->.
  { apply Rle_antisym; [exact (Hmax1 _ s' Hin Hsc) | exact (Hmax w1 s Hw1 Hs1)]. }
  split; [by repeat split|].
  intros w (Hw & Hs & _).
  apply list_elem_of_lookup_1 in Hw as [j Hj].
  destruct (decide (j < i)%nat) as [Hlt|Hge].
  - specialize (Hfirst j w s Hlt Hj Hs). lra.
  - destruct (decide (i = j)) as [->|Hne].
    { enough (optimal_ma (find_optimal_ma today completed data st) = w) by lia.
      congruence. }
    pose proof (test_range_ascending st i j _ _ Hi Hj ltac:(lia)). lia.
Qed.

(** ** Constant price series (lines 107-114, 214-216) *)

Lemma Qsum_replicate (k : nat) (c : Q) :
  Qsum (replicate k c) == inject_Z (Z.of_nat k) * c.
Proof.
  induction k as [|k IH].
  - simpl. ring.
  - cbn [replicate Qsum foldr]. fold (Qsum (replicate k c)). rewrite IH.
    rewrite Nat2Z.inj_succ. unfold Z.succ. rewrite inject_Z_plus. ring.
Qed.

Lemma rolling_mean_constant (W n i : nat) (c m : Q) :
  rolling_mean W (replicate n c) !! i = Some (Some m) -> m == c.
Proof.
  intros H.
  assert (Hi : (i < n)%nat).
  { apply lookup_lt_Some in H. by rewrite rolling_mean_length, length_replicate in H. }
  rewrite rolling_mean_lookup in H by (by rewrite length_replicate).
  case_bool_decide as HW; [|done]. injection H as <-.
  rewrite drop_replicate, take_replicate.
  replace (W `min` (n - (S i - W)))%nat with W by lia.
  rewrite Qsum_replicate. field.
  intros E. unfold Qeq in E. simpl in E. lia.
Qed.

Lemma signals_of_constant (W n : nat) (c : Q) :
  (1 <= W)%nat -> signals_of W (replicate n c) = replicate n 0.
Proof.
  intros HW. apply list_eq. intros i.
  destruct (decide (i < n)%nat) as [Hi|Hi].
  - rewrite lookup_replicate_2 by done.
    destruct (decide (S i < W)%nat) as [Hw|Hw].
    + apply signals_of_warmup; [by rewrite length_replicate | done].
    + pose proof (rolling_mean_defined W (replicate n c) i
                    ltac:(by rewrite length_replicate) ltac:(lia)) as Hm.
      rewrite (signals_of_defined W _ i c _ (lookup_replicate_2 _ _ _ Hi) Hm).
      apply rolling_mean_constant in Hm.
      assert (Hc : Qgtb c (Qsum (take W (drop (S i - W) (replicate n c)))
                           / inject_Z (Z.of_nat W)) = false).
      { apply Qgtb_false. rewrite Hm. apply Qle_refl. }
      by rewrite Hc.
  - rewrite !lookup_ge_None_2; [done | by rewrite length_replicate; lia |].
    rewrite signals_of_length, length_replicate. lia.
Qed.

Lemma strategy_returns_constant (W n : nat) (c : Q) :
  (1 <= W)%nat ->
  strategy_returns_of W (replicate n c) = replicate (n - 1) (0 * (c / c - 1)).
Proof.
  intros HW. apply list_eq. intros i.
  destruct (decide (i < n - 1)%nat) as [Hi|Hi].
  - rewrite lookup_replicate_2 by done.
    apply strategy_returns_lookup.
    + rewrite signals_of_constant by done. apply lookup_replicate_2. lia.
    + apply pct_change_lookup_S; apply lookup_replicate_2; lia.
  - rewrite !lookup_ge_None_2; [done | by rewrite length_replicate; lia |].
    rewrite strategy_returns_length, length_replicate. lia.
Qed.

Lemma diff_flat (n : nat) :
  diff (replicate (S n) 0) = None :: replicate n (Some (0 - 0)).
Proof.
  unfold diff. cbn [replicate]. f_equal.
  induction n as [|n IH]; [done|].
  cbn [replicate zip_with]. f_equal. exact IH.
Qed.

Lemma count_trades_flat (n : nat) :
  (1 <= n)%nat -> count_trades (replicate n 0) = 1%nat.
Proof.
  intros Hn. destruct n as [|n]; [lia|]. clear Hn.
  unfold count_trades. rewrite diff_flat. cbn [List.filter ne0 length]. f_equal.
  induction n as [|k IH]; [done|].
  cbn [replicate List.filter].
  change (ne0 (Some (0 - 0))) with false. exact IH.
Qed.

Lemma Qsum_zero (l : list Q) : Forall (fun x => x == 0) l -> Qsum l == 0.
Proof.
  induction 1 as [|x l Hx _ IH]; [reflexivity|].
  cbn [Qsum foldr]. fold (Qsum l). rewrite Hx, IH. reflexivity.
Qed.

Lemma variance_zero (l : list Q) : Forall (fun x => x == 0) l -> variance l == 0.
Proof.
  intros Hl. unfold variance.
  assert (Hmean : mean l == 0).
  { unfold mean. rewrite (Qsum_zero l Hl). unfold Qdiv. ring. }
  rewrite Qsum_zero; [unfold Qdiv; ring|].
  apply Forall_fmap. eapply Forall_impl; [exact Hl|].
  intros x Hx. cbn. rewrite Hx, Hmean. ring.
Qed.

Lemma volatility_of_zero (l : list Q) :
  Forall (fun x => x == 0) l -> (2 <= length l)%nat ->
  volatility_of l = Some 0%R.
Proof.
  intros Hl Hlen. unfold volatility_of, std, sqrt252.
  rewrite bool_decide_eq_true_2 by done. cbn [fmul lift2]. f_equal.
  rewrite (Qeq_eqR _ _ (variance_zero l Hl)).
  replace (Q2R 0) with 0%R by (unfold Q2R; simpl; lra).
  rewrite sqrt_0. lra.
Qed.

Lemma downside_zero (l : list Q) : Forall (fun x => x == 0) l -> downside l = [].
Proof.
  induction 1 as [|x l Hx _ IH]; [done|].
  unfold downside. cbn [List.filter]. fold (downside l).
  assert (Hf : Qltb x 0 = false) by (apply Qltb_false; rewrite Hx; apply Qle_refl).
  by rewrite Hf.
Qed.

Lemma blended_score_zero (l : list Q) :
  Forall (fun x => x == 0) l -> blended_score l = Some (0.3 * 0 + 0.7 * 0)%R.
Proof.
  intros Hl. unfold blended_score.
  rewrite !sortino_of_no_downside; [done | |].
  - apply downside_zero. unfold recent_slice. by apply Forall_drop.
  - by apply downside_zero.
Qed.

Lemma Forall_replicate_zero (k : nat) (z : Q) :
  z == 0 -> Forall (fun x => x == 0) (replicate k z).
Proof. intros Hz. by apply Forall_replicate. Qed.

(** The trial of a constant series: the signal never leaves 0, every
    strategy return is 0, yet one trade is reported: the first entry of
    [signals.diff()] is NaN, and NaN differs from 0. *)
Lemma constant_series_trial (data : dataset) (st : strategy_type)
    (c : Q) (n W : nat) :
  price_data_of data st = replicate n c ->
  (1 <= W)%nat -> (3 <= n)%nat ->
  signals_of W (price_data_of data st) = replicate n 0 /\
  backtest_ma_strategy data W st !! "total_trades" = Some (PInt 1) /\
  backtest_ma_strategy data W st !! "volatility" = Some (PFloat (Some 0%R)) /\
  backtest_ma_strategy data W st !! "combined_score" = Some (PFloat (Some 0%R)).
Proof.
  intros Hprice HW Hn.
  assert (Hne : price_data_of data st <> []).
  { rewrite Hprice. destruct n; [lia | done]. }
  destruct (backtest_body_inv _ _ _ _ (backtest_body_eq data W st Hne))
    as (cp & cma & _ & _ & _ & _ & Htrades & Hscore & Hvol).
  rewrite Htrades, Hscore, Hvol, Hprice.
  rewrite signals_of_constant, strategy_returns_constant by done.
  assert (Hzero : Forall (fun x => x == 0) (replicate (n - 1) (0 * (c / c - 1)))).
  { apply Forall_replicate_zero. ring. }
  assert (Hlen : (2 <= length (replicate (n - 1) (0 * (c / c - 1))%Q))%nat).
  { rewrite length_replicate. lia. }
  split; [done|]. split; [|split].
  - by rewrite count_trades_flat by lia.
  - rewrite scored_metrics_volatility.
    + by rewrite volatility_of_zero.
    + intros E. rewrite E in Hlen. simpl in Hlen. lia.
  - rewrite scored_metrics_combined by done.
    rewrite blended_score_zero by done. do 3 f_equal. lra.
Qed.

(** C5: what the code does on a constant series.  For a constant,
    strictly positive price series of at least three observations and any
    window [W >= 1], the trial reports zero annualised volatility and a
    combined score of 0, and it reports ONE trade, not zero. *)
Theorem constant_series_reports_one_trade (c : Q) (n W : nat)
    (st : strategy_type) :
  0 < c -> (1 <= W)%nat -> (3 <= n)%nat -> (W <= n)%nat ->
  st = BTC_only \/ st = ETH_only ->
  let result := backtest_ma_strategy (replicate n (c, c)) W st in
  count_trades (signals_of W (replicate n c)) = 1%nat /\
  result !! "total_trades" = Some (PInt 1) /\
  result !! "volatility" = Some (PFloat (Some 0%R)) /\
  result !! "combined_score" = Some (PFloat (Some 0%R)).
Proof.
  intros Hc HW Hn _ Hst result. subst result.
  assert (Hprice : price_data_of (replicate n (c, c)) st = replicate n c).
  { destruct Hst as [-> | ->]; unfold price_data_of, col_BTC, col_ETH;
      apply fmap_replicate. }
  destruct (constant_series_trial _ st c n W Hprice HW Hn) as (Hsig & H).
  split; [|exact H].
  rewrite signals_of_constant by done. apply count_trades_flat. lia.
Qed.

Lemma constant_series_reports_one_trade_witness :
  let result := backtest_ma_strategy (replicate 365 (100, 100)) 20 BTC_only in
  signals_of 20 (replicate 365 100) = replicate 365 0 /\
  count_trades (signals_of 20 (replicate 365 100)) = 1%nat /\
  result !! "total_trades" = Some (PInt 1) /\
  result !! "volatility" = Some (PFloat (Some 0%R)) /\
  result !! "combined_score" = Some (PFloat (Some 0%R)).
Proof.
  split; [vm_compute; reflexivity|].
  apply (constant_series_reports_one_trade 100 365 20 BTC_only);
    [reflexivity | lia | lia | lia | by left].
Defined.

Lemma flat_trial_scores (n : nat) (c : Q) (st : strategy_type) (w : nat) :
  (3 <= n)%nat -> st = BTC_only \/ st = ETH_only -> w ∈ test_range st ->
  trial_score (test_range st) (replicate n (c, c)) st w
    = Some (0.3 * 0 + 0.7 * 0)%R.
Proof.
  intros Hn Hst Hw.
  assert (Hprice : price_data_of (replicate n (c, c)) st = replicate n c).
  { destruct Hst as [-> | ->]; unfold price_data_of, col_BTC, col_ETH;
      apply fmap_replicate. }
  assert (HW : (1 <= w)%nat).
  { destruct Hst as [-> | ->]; apply elem_of_range in Hw; lia. }
  rewrite trial_score_eval; rewrite ?Hprice; try done.
  - rewrite strategy_returns_constant by done.
    apply blended_score_zero, Forall_replicate_zero. ring.
  - destruct n; [lia | done].
  - rewrite strategy_returns_length, length_replicate. lia.
Qed.

Lemma tie_returns_smallest_window_witness :
  optimal_ma (find_optimal_ma "2024-01-01" (test_range BTC_only)
                flat_data BTC_only) = 5%nat.
Proof.
  assert (Hscore : forall w, w ∈ test_range BTC_only ->
            trial_score (test_range BTC_only) flat_data BTC_only w
              = Some (0.3 * 0 + 0.7 * 0)%R).
  { intros w Hw. apply (flat_trial_scores 8 100 BTC_only w); [lia | by left | done]. }
  assert (Hmax : forall w, w ∈ test_range BTC_only ->
            attains_maximum (trial_score (test_range BTC_only) flat_data BTC_only)
              (test_range BTC_only) w (0.3 * 0 + 0.7 * 0)%R).
  { intros w Hw. split; [done|]. split; [by apply Hscore|].
    intros w' s' Hw' Hs'. rewrite (Hscore w' Hw') in Hs'. injection Hs' as <-. lra. }
  destruct (tie_returns_smallest_window "2024-01-01" (test_range BTC_only)
              flat_data BTC_only) as [_ H].
  destruct (H 5%nat 6%nat (0.3 * 0 + 0.7 * 0)%R) as [(Hin & _) Hsmall];
    [lia | lra | apply Hmax, elem_of_range; lia
     | apply Hmax, elem_of_range; lia |].
  specialize (Hsmall 5%nat (Hmax 5%nat ltac:(apply elem_of_range; lia))).
  apply elem_of_range in Hin. lia.
Defined.

(** ** Determinism of the sweep (lines 268-288) *)

Lemma run_pool_same_trials (data : dataset) (st : strategy_type)
    (c1 c2 : list nat) :
  (forall w, w ∈ c1 <-> w ∈ c2) -> run_pool data st c1 = run_pool data st c2.
Proof.
  intros Hsame. apply map_eq. intros w.
  pose proof (future_result_spec data st c1 w) as H1.
  pose proof (future_result_spec data st c2 w) as H2.
  unfold future_result in H1, H2. rewrite H1, H2.
  destruct (decide (w ∈ c1)) as [Hin|Hin].
  - rewrite decide_True; [done | by apply Hsame].
  - rewrite decide_False; [done | by rewrite <- Hsame].
Qed.

(** C9, amended.  Two runs of the sweep over the same data in which the
    same trials finish within the timeout yield the same optimal window
    and the same best combined score (indeed the same result record),
    whatever the order in which the pool's workers complete the trials
    and however often a trial is listed. *)
Theorem sweep_is_deterministic (today : string) (data : dataset)
    (st : strategy_type) (completed1 completed2 : list nat) :
  (forall w, w ∈ completed1 <-> w ∈ completed2) ->
  optimal_ma (find_optimal_ma today completed1 data st) =
    optimal_ma (find_optimal_ma today completed2 data st) /\
  combined_score (find_optimal_ma today completed1 data st) =
    combined_score (find_optimal_ma today completed2 data st) /\
  find_optimal_ma today completed1 data st =
    find_optimal_ma today completed2 data st.
Proof.
  intros Hsame. unfold find_optimal_ma.
  by rewrite (run_pool_same_trials data st _ _ Hsame).
Qed.

Lemma sweep_is_deterministic_witness :
  find_optimal_ma "2024-01-01" [5; 7; 6]%nat flat_data BTC_only =
    find_optimal_ma "2024-01-01" [6; 5; 7]%nat flat_data BTC_only.
Proof.
  apply (sweep_is_deterministic "2024-01-01" flat_data BTC_only
           [5; 7; 6]%nat [6; 5; 7]%nat).
  intros w. rewrite !elem_of_cons. tauto.
Defined.

Lemma trial_score_completed (completed : list nat) (data : dataset)
    (st : strategy_type) (w : nat) (s : R) :
  trial_score completed data st w = Some s ->
  w ∈ completed /\
  forall completed', w ∈ completed' -> trial_score completed' data st w = Some s.
Proof.
  unfold trial_score, pool_score. rewrite future_result_spec.
  destruct (decide (w ∈ completed)) as [Hin|]; [|done].
  intros H. split; [done|]. intros completed' Hin'.
  by rewrite future_result_spec, decide_True.
Qed.

(** On flat quotes every finished trial scores 0, so the sweep returns the
    first window whose trial finished in time. *)
Lemma flat_sweep_first_finished (today : string) (completed : list nat)
    (w0 : nat) :
  w0 ∈ test_range BTC_only -> w0 ∈ completed ->
  (forall w, w ∈ test_range BTC_only -> (w < w0)%nat -> w ∉ completed) ->
  optimal_ma (find_optimal_ma today completed flat_data BTC_only) = w0.
Proof.
  intros Hw0 Hin Hbefore.
  assert (Hscore : forall w, w ∈ test_range BTC_only -> w ∈ completed ->
            trial_score completed flat_data BTC_only w
              = Some (0.3 * 0 + 0.7 * 0)%R).
  { intros w Hw Hc.
    pose proof (flat_trial_scores 8 100 BTC_only w ltac:(lia) (or_introl eq_refl) Hw)
      as Hs.
    apply trial_score_completed in Hs as [_ Hs]. by apply Hs. }
  destruct (sweep_above_floor today completed flat_data BTC_only)
    as (s & _ & i & Hi & Hsc & _ & Hfirst).
  { exists w0, (0.3 * 0 + 0.7 * 0)%R. split; [done|]. split; [by apply Hscore|].
    unfold floor_score. lra. }
  set (chosen := optimal_ma (find_optimal_ma today completed flat_data BTC_only)) in *.
  pose proof (list_elem_of_lookup_2 _ _ _ Hi) as Hchosen.
  pose proof Hsc as Hc. apply trial_score_completed in Hc as [Hc _].
  rewrite (Hscore chosen Hchosen Hc) in Hsc. injection Hsc as <-.
  destruct (lt_eq_lt_dec chosen w0) as [[Hlt|Heq]|Hgt]; [|done|].
  - by destruct (Hbefore chosen Hchosen Hlt).
  - apply list_elem_of_lookup_1 in Hw0 as [j Hj].
    assert (Hji : (j < i)%nat).
    { destruct (lt_eq_lt_dec j i) as [[H|H]|H]; [done| |].
      - subst j. rewrite Hj in Hi. injection Hi as ->. lia.
      - pose proof (test_range_ascending BTC_only i j chosen w0 Hi Hj H). lia. }
    specialize (Hfirst j w0 _ Hji Hj (Hscore w0 ltac:(by eapply list_elem_of_lookup_2) Hin)).
    lra.
Qed.

(** C9 as stated fails on [flat_data]: every finished trial scores 0; a
    run in which all trials finish in time returns window 5, a run in
    which the trial of window 5 misses the timeout returns window 6. *)
Lemma late_trial_changes_selection :
  ~ same_selection_in_every_run "2024-01-01" flat_data BTC_only.
Proof.
  intros H.
  destruct (H (test_range BTC_only) (seq 6 95)) as [Hma _].
  rewrite (flat_sweep_first_finished "2024-01-01" (test_range BTC_only) 5) in Hma.
  - rewrite (flat_sweep_first_finished "2024-01-01" (seq 6 95) 6) in Hma.
    + discriminate.
    + apply elem_of_range. lia.
    + apply elem_of_seq. lia.
    + intros w Hw Hlt Hin. apply elem_of_range in Hw. apply elem_of_seq in Hin. lia.
  - apply elem_of_range. lia.
  - apply elem_of_range. lia.
  - intros w Hw Hlt. apply elem_of_range in Hw. lia.
Qed.

(** ** A strategy whose every trial fails (lines 258-260, 290-305) *)

Lemma trial_fails_no_score (completed : list nat) (data : dataset)
    (st : strategy_type) (w : nat) :
  trial_fails completed data st w -> trial_score completed data st w = None.
Proof.
  unfold trial_fails, trial_score, pool_score.
  destruct (future_result (run_pool data st completed) w) as [result|]; [|done].
  intros [-> | Hkey].
  - unfold truthy. by rewrite bool_decide_eq_false_2 by (intros H; by apply H).
  - rewrite Hkey. by rewrite andb_false_r.
Qed.

Lemma failed_sweep_result (today : string) (completed : list nat)
    (data : dataset) (st : strategy_type) :
  (forall w, w ∈ test_range st -> trial_fails completed data st w) ->
  find_optimal_ma today completed data st =
    {| strategy_name := strategies st;
       optimal_ma := 20;
       cagr := times100 (Some 0%R);
       mdd := times100 (Some 0%R);
       sharpe_ratio := Some 0%R;
       sortino_ratio := Some 0%R;
       combined_score := Some (-999)%R;
       win_rate := times100 (Some 0%R);
       total_trades := 0;
       current_signal := "N/A";
       signal_strength := Some 50%R;
       last_signal_change := today;
       backtest_data := ∅ |}.
Proof.
  intros Hfail. unfold find_optimal_ma.
  destruct (reduce_spec (run_pool data st completed) (test_range st))
    as [[-> _]|(s & _ & _ & _ & i & Hi & Hsc & _)].
  - reflexivity.
  - apply list_elem_of_lookup_2 in Hi.
    pose proof (trial_fails_no_score _ _ _ _ (Hfail _ Hi)) as Hnone.
    unfold trial_score in Hnone. congruence.
Qed.

Lemma run_full_analysis_lookup (env : run_env)
    (completed : strategy_type -> list nat) (download : option dataset)
    (data : dataset) (st : strategy_type) :
  fetch_crypto_data download = Some data ->
  run_full_analysis env completed download !! strategy_key st =
    Some (EStrategy (find_optimal_ma (today env) (completed st) data st)).
Proof.
  intros Hfetch. unfold run_full_analysis. rewrite Hfetch.
  rewrite lookup_insert_ne by (by destruct st).
  cbn [foldl strategy_order].
  destruct st; cbn [strategy_key]; by lookup_insert_tac.
Qed.

Lemma run_full_analysis_metadata (env : run_env)
    (completed : strategy_type -> list nat) (download : option dataset)
    (data : dataset) :
  fetch_crypto_data download = Some data ->
  run_full_analysis env completed download !! "metadata" =
    Some (EMetadata (now env) (length data) (analysis_period env) "2.0.0").
Proof.
  intros Hfetch. unfold run_full_analysis. rewrite Hfetch.
  apply lookup_insert_eq.
Qed.

Lemma btc_trials_fail (w : nat) :
  trial_fails (btc_times_out BTC_only) flat_year BTC_only w.
Proof.
  unfold trial_fails. rewrite future_result_spec.
  rewrite decide_False; [done|]. cbn [btc_times_out]. apply not_elem_of_nil.
Qed.

(** C7 as stated fails: with every BTC trial timed out, the exported
    mapping still has an entry for the BTC strategy. *)
Lemma failed_strategy_is_exported :
  ~ omits_failed_strategy env0 btc_times_out flat_year BTC_only.
Proof.
  intros H. specialize (H (fun w _ => btc_trials_fail w)).
  rewrite (run_full_analysis_lookup env0 btc_times_out (Some flat_year)
             flat_year BTC_only) in H; [done|].
  vm_compute. reflexivity.
Qed.

(** C7, amended.  When every candidate-window trial of a strategy fails
    (raises, times out, or yields no combined score), the strategy is
    still exported: its entry carries the initial values of the sweep,
    window 20, score -999, zero metrics, signal "N/A", strength 50 and an
    empty backtest record.  The run continues: every strategy has its
    entry and the metadata block is present. *)
Theorem failed_sweep_exports_placeholder (env : run_env)
    (completed : strategy_type -> list nat) (download : option dataset)
    (data : dataset) (st : strategy_type) :
  fetch_crypto_data download = Some data ->
  (forall w, w ∈ test_range st -> trial_fails (completed st) data st w) ->
  (exists r,
     run_full_analysis env completed download !! strategy_key st
       = Some (EStrategy r) /\
     strategy_name r = strategies st /\
     optimal_ma r = 20%nat /\
     combined_score r = Some (-999)%R /\
     cagr r = Some 0%R /\ mdd r = Some 0%R /\ win_rate r = Some 0%R /\
     sharpe_ratio r = Some 0%R /\ sortino_ratio r = Some 0%R /\
     total_trades r = 0%Z /\
     current_signal r = "N/A" /\
     signal_strength r = Some 50%R /\
     backtest_data r = ∅) /\
  (forall st',
     run_full_analysis env completed download !! strategy_key st' =
       Some (EStrategy (find_optimal_ma (today env) (completed st') data st'))) /\
  is_Some (run_full_analysis env completed download !! "metadata").
Proof.
  intros Hfetch Hfail. split; [|split].
  - eexists. split; [by apply run_full_analysis_lookup|].
    rewrite (failed_sweep_result _ _ _ _ Hfail).
    cbn [strategy_name optimal_ma combined_score cagr mdd win_rate sharpe_ratio
         sortino_ratio total_trades current_signal signal_strength backtest_data].
    unfold times100, fmul, lift2.
    repeat split; f_equal; lra.
  - intros st'. by apply run_full_analysis_lookup.
  - rewrite (run_full_analysis_metadata _ _ _ _ Hfetch). eauto.
Qed.

Lemma failed_sweep_exports_placeholder_witness :
  exists r,
    run_full_analysis env0 btc_times_out (Some flat_year) !! "BTC_only"
      = Some (EStrategy r) /\
    optimal_ma r = 20%nat /\ combined_score r = Some (-999)%R.
Proof.
  destruct (failed_sweep_exports_placeholder env0 btc_times_out
              (Some flat_year) flat_year BTC_only)
    as [(r & Hr & _ & Hma & Hscore & _) _].
  - vm_compute. reflexivity.
  - intros w _. apply btc_trials_fail.
  - exists r. by repeat split.
Defined.

(** * Further properties of the code *)

(** ** Degenerate denominators *)

Lemma std_few (l : list Q) : (length l < 2)%nat -> std l = None.
Proof. intros H. unfold std. by rewrite bool_decide_eq_false_2 by lia. Qed.

Lemma downside_deviation_few (l : list Q) :
  (length (downside l) < 2)%nat ->
  fgtb (downside_deviation l) (Some 0%R) = false.
Proof.
  intros H. unfold downside_deviation.
  case_bool_decide as Hlen.
  - by rewrite std_few.
  - apply fgtb_0_0.
Qed.

Lemma calculate_enhanced_metrics_bundle (s : series) (pr : option series) :
  s <> [] ->
  calculate_enhanced_metrics s pr =
    metric_bundle (dropna s)
      match pr with
      | Some pr =>
          fadd (fmul recent_weight (_calculate_sortino pr))
               (fmul historical_weight (sortino_of (dropna s)))
      | None => sortino_of (dropna s)
      end.
Proof. intros Hs. destruct s as [|x s]; [done|]. reflexivity. Qed.

(** X1 (data_processor.py, lines 151-161; data_processor.py, lines 111-114).
    With fewer than two negative returns left after dropping NaN,
    _calculate_sortino returns 0 (never NaN and never a division by zero),
    and the 'sortino_ratio' of the bundle built by
    calculate_enhanced_metrics for a non-empty series is 0 as well. *)
Theorem sortino_guard (s : series) :
  (length (downside (dropna s)) < 2)%nat ->
  _calculate_sortino s = Some 0%R /\
  (s <> [] -> forall pr,
     calculate_enhanced_metrics s pr !! "sortino_ratio" = Some (PFloat (Some 0%R))).
Proof.
  intros H. split.
  - destruct s as [|x s]; [done|]. unfold _calculate_sortino.
    by rewrite downside_deviation_few.
  - intros Hs pr. rewrite calculate_enhanced_metrics_bundle by done.
    unfold metric_bundle. lookup_insert_tac.
    unfold sortino_of. by rewrite downside_deviation_few.
Qed.

Lemma sortino_guard_witness :
  _calculate_sortino [Some (1 # 10); Some (-1 # 20); None; Some (3 # 100)]
    = Some 0%R.
Proof.
  apply (sortino_guard [Some (1 # 10); Some (-1 # 20); None; Some (3 # 100)]).
  vm_compute. lia.
Defined.

(** ** The keys of a bundle *)

(** X2 (data_processor.py, lines 94-149).  For a non-empty input series,
    with or without period_returns, the dict returned by
    calculate_enhanced_metrics has exactly the nine keys cagr, volatility,
    sharpe_ratio, sortino_ratio, max_drawdown, win_rate, total_return,
    combined_score and num_trades. *)
Theorem bundle_keys (s : series) (pr : option series) (k : string) :
  s <> [] ->
  (is_Some (calculate_enhanced_metrics s pr !! k) <-> k ∈ metric_keys).
Proof.
  intros Hs. rewrite calculate_enhanced_metrics_bundle by done. split.
  - intros Hk. destruct (decide (k ∈ metric_keys)) as [|Hn]; [done|].
    rewrite metric_bundle_other in Hk by done. by destruct Hk.
  - apply metric_bundle_keys.
Qed.

Lemma bundle_keys_witness :
  is_Some (calculate_enhanced_metrics [Some (1 # 10)] None !! "max_drawdown") /\
  calculate_enhanced_metrics [Some (1 # 10)] None !! "total_trades" = None.
Proof.
  split.
  - apply (bundle_keys [Some (1 # 10)] None "max_drawdown"); [done|].
    unfold metric_keys. set_solver.
  - destruct (calculate_enhanced_metrics [Some (1 # 10)] None !! "total_trades")
      as [v|] eqn:E; [|done].
    assert (H : "total_trades" ∈ metric_keys).
    { apply (bundle_keys [Some (1 # 10)] None "total_trades"); [done|].
      rewrite E. eauto. }
    unfold metric_keys in H. set_solver.
Defined.

(** ** A series of NaN only *)

Lemma dropna_all_nan (s : series) : Forall (fun x => x = None) s -> dropna s = [].
Proof.
  induction 1 as [|x s -> _ IH]; [done|]. unfold dropna in *. simpl. exact IH.
Qed.

(** X3 (data_processor.py, lines 94-149).  A non-empty series that holds
    only NaN passes the emptiness guard: the bundle then has num_trades 0,
    cagr, total_return, win_rate, sharpe_ratio and sortino_ratio 0, and NaN
    for volatility and max_drawdown. *)
Theorem nan_only_series_bundle (s : series) (pr : option series) :
  s <> [] -> Forall (fun x => x = None) s ->
  let bundle := calculate_enhanced_metrics s pr in
  bundle !! "num_trades" = Some (PInt 0) /\
  bundle !! "cagr" = Some (PFloat (Some 0%R)) /\
  bundle !! "total_return" = Some (PFloat (Some 0%R)) /\
  bundle !! "win_rate" = Some (PFloat (Some 0%R)) /\
  bundle !! "sharpe_ratio" = Some (PFloat (Some 0%R)) /\
  bundle !! "sortino_ratio" = Some (PFloat (Some 0%R)) /\
  bundle !! "volatility" = Some (PFloat None) /\
  bundle !! "max_drawdown" = Some (PFloat None).
Proof.
  intros Hs Hnan bundle. subst bundle.
  rewrite calculate_enhanced_metrics_bundle by done.
  rewrite (dropna_all_nan s Hnan). unfold metric_bundle.
  assert (Hzero : of_Q (total_return []) = Some 0%R).
  { unfold of_Q, total_return. f_equal. cbn [map Qprod foldr].
    rewrite Q2R_minus. unfold Q2R; simpl. lra. }
  assert (Hwin : of_Q (win_rate_of []) = Some 0%R).
  { unfold of_Q. f_equal. apply RMicromega.Q2R_0. }
  repeat split; lookup_insert_tac; rewrite ?Hzero, ?Hwin; try reflexivity.
  by rewrite sortino_of_no_downside.
Qed.

Lemma nan_only_series_bundle_witness :
  calculate_enhanced_metrics [None; None] None !! "volatility"
    = Some (PFloat None).
Proof.
  apply (nan_only_series_bundle [None; None] None); [done|].
  by repeat constructor.
Defined.

(** ** Returns that are all zero *)

(** X4 (data_processor.py, lines 107-114).  When the returns left after
    dropping NaN are at least two and all zero, the volatility is 0, so the
    guards 'if volatility > 0' and 'if downside_deviation > 0' fail and
    sharpe_ratio and sortino_ratio are both 0: no division by zero. *)
Theorem zero_returns_ratios (s : series) (pr : option series) :
  Forall (fun x => x == 0) (dropna s) -> (2 <= length (dropna s))%nat ->
  let bundle := calculate_enhanced_metrics s pr in
  bundle !! "volatility" = Some (PFloat (Some 0%R)) /\
  bundle !! "sharpe_ratio" = Some (PFloat (Some 0%R)) /\
  bundle !! "sortino_ratio" = Some (PFloat (Some 0%R)).
Proof.
  intros Hall Hlen bundle. subst bundle.
  assert (Hs : s <> []) by (intros ->; simpl in Hlen; lia).
  rewrite calculate_enhanced_metrics_bundle by done.
  unfold metric_bundle. repeat split; lookup_insert_tac.
  - by rewrite volatility_of_zero.
  - unfold sharpe_of. rewrite volatility_of_zero by done. by rewrite fgtb_0_0.
  - by rewrite sortino_of_no_downside by (by apply downside_zero).
Qed.

Lemma zero_returns_ratios_witness :
  calculate_enhanced_metrics [Some 0; None; Some (0 # 5); Some 0] None
    !! "sharpe_ratio" = Some (PFloat (Some 0%R)).
Proof.
  apply (zero_returns_ratios [Some 0; None; Some (0 # 5); Some 0] None).
  - repeat constructor.
  - vm_compute. lia.
Defined.

(** ** Win rate and observation count *)





(** ** Drawdown *)

Lemma cumprod_from_pos (l : list Q) (acc : Q) :
  0 < acc -> Forall (fun x => 0 < x) l ->
  Forall (fun x => 0 < x) (cumprod_from acc l).
Proof.
  intros Hacc Hl. revert acc Hacc.
  induction Hl as [|x l Hx _ IH]; intros acc Hacc; [constructor|].
  cbn [cumprod_from].
  assert (0 < acc * x) by (by apply Qmult_lt_0_compat).
  constructor; [done | by apply IH].
Qed.

Lemma cumprod_pos (l : list Q) :
  Forall (fun x => 0 < x) l -> Forall (fun x => 0 < x) (cumprod l).
Proof.
  intros Hl. destruct Hl as [|x l Hx Hl]; [constructor|].
  cbn [cumprod]. constructor; [done | by apply cumprod_from_pos].
Qed.

Lemma drawdown_bounds (c m : Q) : 0 < c -> c <= m -> -1 <= (c - m) / m <= 0.
Proof.
  intros Hc Hcm. assert (Hm : 0 < m) by (eapply Qlt_le_trans; eauto).
  split.
  - apply Qle_shift_div_l; [done|]. Lqa.lra.
  - apply Qle_shift_div_r; [done|]. Lqa.lra.
Qed.

Lemma drawdowns_from_bounds (l : list Q) (acc : Q) :
  0 < acc -> Forall (fun x => 0 < x) l ->
  Forall (fun d => -1 <= d <= 0)
         (zip_with (fun c m => (c - m) / m) l (expanding_max_from acc l)).
Proof.
  intros Hacc Hl. revert acc Hacc.
  induction Hl as [|x l Hx _ IH]; intros acc Hacc; [constructor|].
  cbn [expanding_max_from zip_with]. constructor.
  - apply (drawdown_bounds x (Qmax acc x)); [done | apply Q.le_max_r].
  - apply IH. eapply Qlt_le_trans; [exact Hacc | apply Q.le_max_l].
Qed.

Lemma drawdowns_bounds (l : list Q) :
  Forall (fun x => 0 < x) l ->
  Forall (fun d => -1 <= d <= 0)
         (zip_with (fun c m => (c - m) / m) l (expanding_max l)).
Proof.
  intros Hl. destruct Hl as [|x l Hx Hl]; [constructor|].
  cbn [expanding_max zip_with]. constructor.
  - apply (drawdown_bounds x x); [done | apply Qle_refl].
  - by apply drawdowns_from_bounds.
Qed.

Lemma foldl_Qmin_bounds (l : list Q) (x a b : Q) :
  a <= x <= b -> Forall (fun d => a <= d <= b) l ->
  a <= foldl Qmin x l <= b.
Proof.
  intros Hx Hl. revert x Hx.
  induction Hl as [|y l Hy _ IH]; intros x Hx; [done|].
  cbn [foldl]. apply IH. split.
  - apply Q.min_glb; [apply Hx | apply Hy].
  - eapply Qle_trans; [apply Q.le_min_l | apply Hx].
Qed.

Lemma smin_bounds (l : list Q) (m a b : Q) :
  smin l = Some m -> Forall (fun d => a <= d <= b) l -> a <= m <= b.
Proof.
  intros Hm Hl. destruct Hl as [|x l Hx Hl]; [done|].
  injection Hm as <-. by apply foldl_Qmin_bounds.
Qed.

(** X6 (data_processor.py, lines 116-120).  When at least one return is not
    NaN and every such return is above -100%, max_drawdown is a number
    between -1 and 0. *)
Theorem max_drawdown_bounds (s : series) (pr : option series) :
  dropna s <> [] -> Forall (fun r => -1 < r) (dropna s) ->
  exists m,
    calculate_enhanced_metrics s pr !! "max_drawdown" = Some (PFloat (of_Q m)) /\
    -1 <= m <= 0.
Proof.
  intros Hne Hall.
  assert (Hs : s <> []) by (intros ->; done).
  rewrite calculate_enhanced_metrics_bundle by done.
  unfold metric_bundle. lookup_insert_tac. unfold max_drawdown_of.
  set (cum := cumprod (map (fun r => 1 + r) (dropna s))).
  assert (Hcum : Forall (fun x => 0 < x) cum).
  { apply cumprod_pos. apply Forall_fmap. eapply Forall_impl; [exact Hall|].
    intros r Hr. cbv beta in Hr. change (0 < 1 + r). Lqa.lra. }
  pose proof (drawdowns_bounds cum Hcum) as Hdd.
  destruct (smin (zip_with (fun c m => (c - m) / m) cum (expanding_max cum)))
    as [m|] eqn:Hm.
  - exists m. split; [done|]. by apply (smin_bounds _ _ _ _ Hm).
  - exfalso. destruct (dropna s) as [|r l]; [done|]. done.
Qed.

Lemma max_drawdown_bounds_witness :
  exists m,
    calculate_enhanced_metrics [Some (1 # 10); Some (-1 # 2); Some (1 # 5)] None
      !! "max_drawdown" = Some (PFloat (of_Q m)) /\
    -1 <= m <= 0.
Proof.
  apply (max_drawdown_bounds [Some (1 # 10); Some (-1 # 2); Some (1 # 5)] None).
  - done.
  - by repeat constructor.
Defined.

(** ** Compounding *)




Lemma cumprod_length (l : list Q) : length (cumprod l) = length l.
Proof.
  destruct l as [|x l]; [done|]. cbn [cumprod length]. f_equal.
  revert x. induction l as [|y l IH]; intros x; [done|].
  cbn [cumprod_from length]. f_equal. apply IH.
Qed.


(** ** The whole result of a trial *)

Lemma backtest_body_result (data : dataset) (W : nat) (st : strategy_type)
    (result : gmap string pyval) :
  backtest_body data W st = Some result ->
  exists cp cma,
    last (price_data_of data st) = Some cp /\
    last (rolling_mean W (price_data_of data st)) = Some cma /\
    result =
      <["recent_performance" :=
          PDict (calculate_enhanced_metrics
                   (Some <$> recent_returns_of
                               (strategy_returns_of W (price_data_of data st)))
                   None)]>
      (<["signals" := PList (signals_of W (price_data_of data st))]>
      (<["cumulative_returns" :=
           PList (cumprod (map (fun r => 1 + r)
                    (strategy_returns_of W (price_data_of data st))))]>
      (<["current_price_ma_ratio" := PFloat (of_Q (price_ma_ratio cp cma))]>
      (<["signal_strength" :=
           PFloat (of_Q (signal_strength_of (price_ma_ratio cp cma)))]>
      (<["current_signal" := PStr (current_signal_of (price_ma_ratio cp cma))]>
      (<["total_trades" :=
           PInt (Z.of_nat (count_trades (signals_of W (price_data_of data st))))]>
      (<["ma_period" := PInt (Z.of_nat W)]>
         (scored_metrics (strategy_returns_of W (price_data_of data st)))))))))).
Proof.
  unfold backtest_body. intros H.
  destruct (last (price_data_of data st)) as [cp|]; [|done].
  destruct (last (rolling_mean W (price_data_of data st))) as [cma|]; [|done].
  cbn [mbind option_bind] in H. apply Some_inj in H. subst result.
  exists cp, cma. do 2 (split; [reflexivity|]). reflexivity.
Qed.


Lemma price_data_length (data : dataset) (st : strategy_type) :
  length (price_data_of data st) = length data.
Proof.
  assert (Hblend : length
            (map (fun v => v * 100)
               (cumprod (map (fun r => 1 + r)
                  (fillna 0 (sadd (sscale (weights st).1 (pct_change (col_BTC data)))
                                  (sscale (weights st).2 (pct_change (col_ETH data))))))))
            = length data).
  { rewrite length_map, cumprod_length, length_map. unfold fillna, sadd, sscale.
    rewrite length_map, length_zip_with, !length_map, !pct_change_length.
    unfold col_BTC, col_ETH. rewrite !length_map. lia. }
  destruct st; unfold price_data_of; try exact Hblend;
    unfold col_BTC, col_ETH; apply length_map.
Qed.



(** ** Signals are positions *)

Lemma signals_raw_positions (p : list Q) (ma : series) :
  Forall is_position (signals_raw p ma).
Proof.
  unfold signals_raw, assign. apply Forall_lookup. intros i x Hx.
  rewrite !lookup_zip_with in Hx.
  destruct (le_mask p ma !! i) as [b1|]; [|done]. simpl in Hx.
  destruct (gt_mask p ma !! i) as [b2|]; [|done]. simpl in Hx.
  destruct (replicate (length p) None !! i) as [y|] eqn:Hy; [|done].
  apply lookup_replicate in Hy as [-> _]. simpl in Hx. injection Hx as <-.
  unfold is_position. destruct b1, b2; auto.
Qed.

Lemma ffill_from_positions (s : series) (last : option Q) :
  is_position last -> Forall is_position s ->
  Forall is_position (ffill_from last s).
Proof.
  intros Hlast Hs. revert last Hlast.
  induction Hs as [|x s Hx _ IH]; intros last Hlast; [constructor|].
  destruct x as [v|]; cbn [ffill_from]; constructor; auto.
Qed.

(** X9 (data_processor.py, lines 188-192).  Every value of the signal series
    of a trial is 0 or 1: after the forward fill and fillna(0) no NaN and no
    other value is left, for any window and any prices. *)
Theorem signals_are_positions (W : nat) (p : list Q) (i : nat) (s : Q) :
  signals_of W p !! i = Some s -> s = 0 \/ s = 1.
Proof.
  unfold signals_of. rewrite fillna_lookup. intros H.
  destruct (ffill (signals_raw p (rolling_mean W p)) !! i) as [x|] eqn:Hx; [|done].
  simpl in H. injection H as <-.
  assert (Hpos : is_position x).
  { eapply (Forall_lookup_1 is_position); [|exact Hx].
    apply ffill_from_positions; [by left | apply signals_raw_positions]. }
  destruct Hpos as [-> | [-> | ->]]; auto.
Qed.

Lemma signals_are_positions_witness :
  signals_of 2 [5; 7; 6; 9] !! 3%nat = Some 1 /\ (1 = 0 \/ 1 = 1).
Proof.
  split; [reflexivity|].
  apply (signals_are_positions 2 [5; 7; 6; 9] 3 1). reflexivity.
Defined.

(** ** Trades and position changes *)

Lemma Qeq_bool_diff (a b : Q) : Qeq_bool (b - a) 0 = Qeq_bool a b.
Proof.
  destruct (Qeq_bool a b) eqn:E.
  - apply Qeq_bool_iff in E. apply Qeq_bool_iff. rewrite E. ring.
  - apply not_true_iff_false. intros H. apply Qeq_bool_iff in H.
    apply not_true_iff_false in E. apply E. apply Qeq_bool_iff.
    Lqa.lra.
Qed.

Lemma count_changes (a : Q) (r : list Q) :
  length (List.filter ne0 (zip_with (fun prev cur => Some (cur - prev)) (a :: r) r))
    = flips (a :: r).
Proof.
  revert a. induction r as [|b r IH]; intros a; [done|].
  change (zip_with (fun prev cur => Some (cur - prev)) (a :: b :: r) (b :: r))
    with (Some (b - a) :: zip_with (fun prev cur => Some (cur - prev)) (b :: r) r).
  cbn [List.filter flips]. unfold ne0 at 1. rewrite Qeq_bool_diff.
  destruct (Qeq_bool a b); cbn [negb]; cbv iota; cbn [length]; rewrite IH;
    reflexivity.
Qed.

Lemma count_trades_flips (s : list Q) :
  s <> [] -> count_trades s = S (flips s).
Proof.
  intros Hs. destruct s as [|a r]; [done|].
  unfold count_trades, diff. cbn [List.filter ne0 length].
  by rewrite count_changes.
Qed.

(** X10 (data_processor.py, lines 214-216; data_processor.py, lines
    241-241).  The 'total_trades' of a trial is one more than the number of
    places where two consecutive signals differ: the NaN that diff() puts
    first is counted as a change. *)
Theorem total_trades_counts_flips_plus_one (data : dataset) (W : nat)
    (st : strategy_type) (result : gmap string pyval) :
  backtest_body data W st = Some result ->
  result !! "total_trades" =
    Some (PInt (1 + Z.of_nat (flips (signals_of W (price_data_of data st))))).
Proof.
  intros Hres.
  destruct (backtest_body_result _ _ _ _ Hres) as (cp & cma & Hcp & _ & ->).
  lookup_insert_tac. rewrite count_trades_flips; [do 2 f_equal; lia|].
  intros E. apply (f_equal length) in E.
  rewrite signals_of_length in E. apply last_Some in Hcp as [l' Hl'].
  rewrite Hl', length_app in E. simpl in E. lia.
Qed.

Lemma total_trades_counts_flips_plus_one_witness :
  backtest_ma_strategy [(10, 1); (12, 1); (9, 1); (13, 1); (14, 1)] 2 BTC_only
    !! "total_trades" = Some (PInt 4) /\
  flips (signals_of 2 [10; 12; 9; 13; 14]) = 3%nat.
Proof.
  split; [|reflexivity].
  apply (total_trades_counts_flips_plus_one
           [(10, 1); (12, 1); (9, 1); (13, 1); (14, 1)] 2 BTC_only).
  apply backtest_body_eq. discriminate.
Defined.

(** ** The range of the signal strength *)

Lemma classify_strength_label (ratio : Q) :
  50 <= (classify ratio).2 <= 95 /\
  (70 <= (classify ratio).2 <->
   (classify ratio).1 = "강한 매수" \/ (classify ratio).1 = "강한 매도").
Proof.
  unfold classify.
  destruct (Qgtb ratio 1.02) eqn:H1.
  { apply Qgtb_true in H1. cbn [fst snd].
    assert (70 <= 50 + (ratio - 1) * 1000) by Lqa.lra.
    split; [split|split].
    - apply Q.min_glb; [discriminate | Lqa.lra].
    - apply Q.le_min_l.
    - by left.
    - intros _. apply Q.min_glb; [discriminate | done]. }
  apply Qgtb_false in H1.
  destruct (Qgtb ratio 1) eqn:H2.
  { apply Qgtb_true in H2. cbn [fst snd].
    split; [split; Lqa.lra|]. split.
    - intros H. exfalso. Lqa.lra.
    - intros [H|H]; discriminate. }
  apply Qgtb_false in H2.
  destruct (Qltb ratio 0.98) eqn:H3.
  { apply Qltb_true in H3. cbn [fst snd].
    assert (70 <= 50 + (1 - ratio) * 1000) by Lqa.lra.
    split; [split|split].
    - apply Q.min_glb; [discriminate | Lqa.lra].
    - apply Q.le_min_l.
    - by right.
    - intros _. apply Q.min_glb; [discriminate | done]. }
  apply Qltb_false in H3. cbn [fst snd].
  split; [split; Lqa.lra|]. split.
  - intros H. exfalso. Lqa.lra.
  - intros [H|H]; discriminate.
Qed.

(** X11 (data_processor.py, lines 223-243).  The signal strength always lies
    between 50 and 95, so the final min(99, max(1, .)) never changes it; it
    is at least 70 exactly when the label is one of the two strong ones
    (strong buy, strong sell), and below 70 for the two weak labels. *)
Theorem signal_strength_range (ratio : Q) :
  signal_strength_of ratio == (classify ratio).2 /\
  50 <= signal_strength_of ratio <= 95 /\
  (70 <= signal_strength_of ratio <->
   current_signal_of ratio = "강한 매수" \/ current_signal_of ratio = "강한 매도").
Proof.
  destruct (classify_strength_label ratio) as ((Hlo & Hhi) & Hlabel).
  assert (Heq : signal_strength_of ratio == (classify ratio).2).
  { unfold signal_strength_of, clamp_strength.
    rewrite Q.max_r by (eapply Qle_trans; [|exact Hlo]; discriminate).
    apply Q.min_r. eapply Qle_trans; [exact Hhi | discriminate]. }
  split; [done|]. rewrite Heq. split; [done|]. exact Hlabel.
Qed.

Lemma signal_strength_range_witness :
  70 <= signal_strength_of 1.03 /\ ~ 70 <= signal_strength_of (51 # 50).
Proof.
  destruct (signal_strength_range 1.03) as (_ & _ & H1).
  destruct (signal_strength_range (51 # 50)) as (_ & _ & H2).
  split.
  - apply H1. left. reflexivity.
  - intros H. apply H2 in H as [H|H]; vm_compute in H; discriminate.
Defined.

(** ** A window longer than the history *)

Lemma rolling_mean_short (W : nat) (p : list Q) :
  (length p < W)%nat -> rolling_mean W p = replicate (length p) None.
Proof.
  intros Hlen. apply list_eq. intros i.
  destruct (decide (i < length p)%nat) as [Hi|Hi].
  - rewrite lookup_replicate_2 by done. apply rolling_mean_warmup; lia.
  - rewrite !lookup_ge_None_2; [done | rewrite length_replicate; lia |].
    rewrite rolling_mean_length. lia.
Qed.

Lemma signals_of_short (W : nat) (p : list Q) :
  (length p < W)%nat -> signals_of W p = replicate (length p) 0.
Proof.
  intros Hlen. apply list_eq. intros i.
  destruct (decide (i < length p)%nat) as [Hi|Hi].
  - rewrite lookup_replicate_2 by done. apply signals_of_warmup; lia.
  - rewrite !lookup_ge_None_2; [done | rewrite length_replicate; lia |].
    rewrite signals_of_length. lia.
Qed.

Lemma strategy_returns_flat (W : nat) (p : list Q) :
  signals_of W p = replicate (length p) 0 ->
  Forall (fun x => x == 0) (strategy_returns_of W p).
Proof.
  intros Hsig. apply Forall_lookup. intros i x Hx.
  assert (Hi : (S i < length p)%nat).
  { apply lookup_lt_Some in Hx. rewrite strategy_returns_length in Hx. lia. }
  destruct (lookup_lt_is_Some_2 p i ltac:(lia)) as [prev Hprev].
  destruct (lookup_lt_is_Some_2 p (S i) Hi) as [cur Hcur].
  rewrite (strategy_returns_lookup W p i 0 (cur / prev - 1)) in Hx.
  - injection Hx as <-. ring.
  - rewrite Hsig. apply lookup_replicate_2. lia.
  - by apply pct_change_lookup_S.
Qed.

(** X12 (data_processor.py, lines 185-248).  A trial whose window is longer
    than the price history does not fail: its signals are all 0, the
    price/MA ratio falls back to 1, the label is the weak-sell label with
    strength 50, total_trades is 1, and with at least three rows the
    combined_score is 0. *)
Theorem window_longer_than_history (data : dataset) (W : nat)
    (st : strategy_type) (result : gmap string pyval) :
  backtest_body data W st = Some result ->
  (length data < W)%nat ->
  result !! "signals" = Some (PList (replicate (length data) 0)) /\
  result !! "current_price_ma_ratio" = Some (PFloat (of_Q 1)) /\
  result !! "current_signal" = Some (PStr "약한 매도") /\
  result !! "signal_strength" = Some (PFloat (of_Q (signal_strength_of 1))) /\
  signal_strength_of 1 == 50 /\
  result !! "total_trades" = Some (PInt 1) /\
  ((3 <= length data)%nat ->
   result !! "combined_score" = Some (PFloat (Some 0%R))).
Proof.
  intros Hres Hlen.
  destruct (backtest_body_result _ _ _ _ Hres) as (cp & cma & Hcp & Hma & ->).
  set (p := price_data_of data st) in *.
  assert (Hp : length p = length data) by apply price_data_length.
  assert (Hsig : signals_of W p = replicate (length p) 0)
    by (apply signals_of_short; lia).
  assert (Hcma : cma = None).
  { rewrite rolling_mean_short in Hma by lia.
    apply last_Some in Hma as [l' Hl'].
    assert (Hin : cma ∈ replicate (length p) (@None Q)).
    { rewrite Hl'. apply elem_of_app. right. by left. }
    by apply elem_of_replicate in Hin as [-> _]. }
  subst cma. cbn [price_ma_ratio].
  assert (Hn : (1 <= length p)%nat).
  { apply last_Some in Hcp as [l' Hl']. rewrite Hl', length_app. simpl. lia. }
  repeat split; lookup_insert_tac.
  - by rewrite Hsig, Hp.
  - done.
  - done.
  - done.
  - by rewrite Hsig, count_trades_flat.
  - intros H3. rewrite scored_metrics_combined.
    + rewrite blended_score_zero by (by apply strategy_returns_flat).
      do 3 f_equal. lra.
    + rewrite strategy_returns_length. lia.
Qed.

Lemma window_longer_than_history_witness :
  backtest_ma_strategy [(10, 1); (11, 1); (12, 1)] 5 BTC_only !! "current_signal"
    = Some (PStr "약한 매도") /\
  backtest_ma_strategy [(10, 1); (11, 1); (12, 1)] 5 BTC_only !! "combined_score"
    = Some (PFloat (Some 0%R)).
Proof.
  destruct (window_longer_than_history [(10, 1); (11, 1); (12, 1)] 5 BTC_only
              (backtest_ma_strategy [(10, 1); (11, 1); (12, 1)] 5 BTC_only))
    as (_ & _ & Hsig & _ & _ & _ & Hscore).
  - apply backtest_body_eq. discriminate.
  - simpl. lia.
  - split; [exact Hsig | apply Hscore; simpl; lia].
Defined.

(** ** The rebalanced portfolio *)









(** ** Frames too short to trade *)

Lemma backtest_empty_frame (W : nat) (st : strategy_type) :
  backtest_ma_strategy [] W st = ∅.
Proof. by destruct st. Qed.

Lemma backtest_short_frame (data : dataset) (W : nat) (st : strategy_type) :
  (length data <= 1)%nat ->
  backtest_ma_strategy data W st !! "combined_score" = None.
Proof.
  intros Hlen. destruct (decide (data = [])) as [->|Hd].
  - by rewrite backtest_empty_frame.
  - assert (Hne : price_data_of data st <> []).
    { intros E. apply (f_equal length) in E. rewrite price_data_length in E.
      destruct data; [done | simpl in E; lia]. }
    destruct (backtest_body_result _ _ _ _ (backtest_body_eq data W st Hne))
      as (cp & cma & _ & _ & ->).
    lookup_insert_tac.
    assert (Hsr : strategy_returns_of W (price_data_of data st) = []).
    { apply length_zero_iff_nil.
      rewrite strategy_returns_length, price_data_length. lia. }
    by rewrite Hsr.
Qed.

Lemma short_frame_trials_fail (completed : list nat) (data : dataset)
    (st : strategy_type) (w : nat) :
  (length data <= 1)%nat -> trial_fails completed data st w.
Proof.
  intros Hlen. unfold trial_fails. rewrite future_result_spec.
  case_decide; [|done]. right. unfold has_key.
  apply bool_decide_eq_false_2. rewrite backtest_short_frame by done.
  by intros [? ?].
Qed.

(** X14 (data_processor.py, lines 163-252; data_processor.py, lines
    254-308).  On a frame of at most one row no trial yields a
    combined_score (on an empty frame every trial returns the empty dict),
    so find_optimal_ma returns the defaults: window 20, score -999, signal
    'N/A' and empty backtest_data. *)
Theorem short_frame_sweep (today : string) (completed : list nat)
    (data : dataset) (st : strategy_type) :
  (length data <= 1)%nat ->
  (forall w, backtest_ma_strategy data w st !! "combined_score" = None) /\
  (data = [] -> forall w, backtest_ma_strategy data w st = ∅) /\
  optimal_ma (find_optimal_ma today completed data st) = 20%nat /\
  combined_score (find_optimal_ma today completed data st) = Some (-999)%R /\
  current_signal (find_optimal_ma today completed data st) = "N/A" /\
  backtest_data (find_optimal_ma today completed data st) = ∅.
Proof.
  intros Hlen.
  split; [intros w; by apply backtest_short_frame|].
  split; [intros -> w; apply backtest_empty_frame|].
  rewrite (failed_sweep_result today completed data st)
    by (intros w _; by apply short_frame_trials_fail).
  done.
Qed.

Lemma short_frame_sweep_witness :
  optimal_ma (find_optimal_ma "2024-01-01" (test_range ETH_only)
                [(100, 50)] ETH_only) = 20%nat.
Proof.
  apply (short_frame_sweep "2024-01-01" (test_range ETH_only) [(100, 50)] ETH_only).
  simpl. lia.
Defined.

(** ** What the sweep always returns *)

Lemma twenty_is_candidate (st : strategy_type) : 20%nat ∈ test_range st.
Proof. destruct st; apply elem_of_range; lia. Qed.

(** X15 (data_processor.py, lines 254-308).  Whatever the data and whichever
    trials finish in time, the optimal_ma returned by find_optimal_ma lies
    in the strategy's candidate range (the default 20 does too) and
    combined_score is a number not below -999. *)
Theorem sweep_result_invariants (today : string) (completed : list nat)
    (data : dataset) (st : strategy_type) :
  optimal_ma (find_optimal_ma today completed data st) ∈ test_range st /\
  exists s,
    combined_score (find_optimal_ma today completed data st) = Some s /\
    (-999 <= s)%R.
Proof.
  destruct (sweep_outcome today completed data st)
    as [(Hma & Hs & _)|(s & Hs & Hgt & i & Hi & _)].
  - rewrite Hma, Hs. split; [apply twenty_is_candidate|].
    exists floor_score. split; [done|]. unfold floor_score. lra.
  - split; [by eapply list_elem_of_lookup_2|].
    exists s. split; [done|]. unfold floor_score in Hgt. lra.
Qed.

Lemma backtest_no_price (data : dataset) (W : nat) (st : strategy_type) :
  price_data_of data st = [] -> backtest_ma_strategy data W st = ∅.
Proof.
  intros E. unfold backtest_ma_strategy, backtest_body. by rewrite E.
Qed.

Lemma scored_metrics_combined_float (sr : list Q) (v : pyval) :
  scored_metrics sr !! "combined_score" = Some v -> exists x, v = PFloat x.
Proof.
  unfold scored_metrics. case_bool_decide.
  - rewrite lookup_insert_eq. intros [= <-]. eauto.
  - destruct (decide (sr = [])) as [->|Hsr]; [done|].
    rewrite combined_score_cons by done. intros [= <-]. eauto.
Qed.

Lemma backtest_combined_float (data : dataset) (W : nat) (st : strategy_type)
    (v : pyval) :
  backtest_ma_strategy data W st !! "combined_score" = Some v ->
  price_data_of data st <> [] /\ exists x, v = PFloat x.
Proof.
  intros Hv. destruct (decide (price_data_of data st = [])) as [E|Hne].
  - by rewrite (backtest_no_price data W st E) in Hv.
  - split; [done|].
    destruct (backtest_body_inv _ _ _ _ (backtest_body_eq data W st Hne))
      as (cp & cma & _ & _ & _ & _ & _ & Hscore & _).
    rewrite Hscore in Hv. by eapply scored_metrics_combined_float.
Qed.

Lemma winning_trial_data (today : string) (completed : list nat)
    (data : dataset) (st : strategy_type) :
  (exists w s, w ∈ test_range st /\
               trial_score completed data st w = Some s /\ (s > -999)%R) ->
  let r := find_optimal_ma today completed data st in
  optimal_ma r ∈ completed /\
  price_data_of data st <> [] /\
  backtest_data r = backtest_ma_strategy data (optimal_ma r) st /\
  backtest_data r !! "combined_score" = Some (PFloat (combined_score r)).
Proof.
  intros (w & s & Hw & Hs & Hgt) r. subst r.
  unfold find_optimal_ma.
  cbn [optimal_ma backtest_data combined_score].
  destruct (reduce_spec (run_pool data st completed) (test_range st))
    as [[_ Hall]|(s' & Hbest & _ & Hfut & i & _ & Hsc & _)].
  { specialize (Hall w s Hw Hs). unfold floor_score in Hall. lra. }
  set (b := reduce (run_pool data st completed) (test_range st)) in *.
  rewrite future_result_spec in Hfut.
  destruct (decide (best_ma b ∈ completed)) as [Hin|]; [|done].
  injection Hfut as Hres.
  unfold pool_score in Hsc. rewrite future_result_spec, decide_True in Hsc by done.
  rewrite Hres in Hsc.
  destruct (truthy (best_result b) && has_key "combined_score" (best_result b))
    eqn:Hkey; [|done].
  apply andb_true_iff in Hkey as [_ Hkey].
  unfold has_key in Hkey. apply bool_decide_eq_true_1 in Hkey as [v Hv].
  pose proof Hv as Hv'. rewrite <- Hres in Hv'.
  apply backtest_combined_float in Hv' as [Hne [x ->]].
  unfold score_of, get_float in Hsc. rewrite Hv in Hsc. subst x.
  split; [done|]. split; [done|]. split; [done|].
  by rewrite Hv, Hbest.
Qed.

(** X16 (data_processor.py, lines 268-305).  If some trial scores above
    -999, the returned optimal_ma is a trial that finished in time,
    backtest_data is exactly that trial's result dict, and its ma_period,
    combined_score, current_signal and total_trades agree with the fields of
    the StrategyResult. *)
Theorem winning_trial_is_exported (today : string) (completed : list nat)
    (data : dataset) (st : strategy_type) :
  (exists w s, w ∈ test_range st /\
               trial_score completed data st w = Some s /\ (s > -999)%R) ->
  let r := find_optimal_ma today completed data st in
  optimal_ma r ∈ completed /\
  backtest_data r = backtest_ma_strategy data (optimal_ma r) st /\
  backtest_data r !! "ma_period" = Some (PInt (Z.of_nat (optimal_ma r))) /\
  backtest_data r !! "combined_score" = Some (PFloat (combined_score r)) /\
  backtest_data r !! "current_signal" = Some (PStr (current_signal r)) /\
  backtest_data r !! "total_trades" = Some (PInt (total_trades r)).
Proof.
  intros Hwin r.
  destruct (winning_trial_data today completed data st Hwin)
    as (Hin & Hne & Hres & Hscore).
  fold r in Hin, Hres, Hscore.
  destruct (backtest_body_result _ _ _ _
              (backtest_body_eq data (optimal_ma r) st Hne))
    as (cp & cma & _ & _ & Hbody).
  rewrite <- Hres in Hbody.
  split; [done|]. split; [done|].
  split; [rewrite Hbody; by lookup_insert_tac|].
  split; [done|].
  assert (Hsig : current_signal r = get_str "current_signal" "N/A" (backtest_data r))
    by reflexivity.
  assert (Htr : total_trades r = get_int "total_trades" 0 (backtest_data r))
    by reflexivity.
  rewrite Hsig, Htr. unfold get_str, get_int.
  split; rewrite Hbody; by lookup_insert_tac.
Qed.

Lemma winning_trial_is_exported_witness :
  backtest_data (find_optimal_ma "2024-01-01" (test_range BTC_only)
                   flat_data BTC_only)
    = backtest_ma_strategy flat_data
        (optimal_ma (find_optimal_ma "2024-01-01" (test_range BTC_only)
                       flat_data BTC_only))
        BTC_only.
Proof.
  apply (winning_trial_is_exported "2024-01-01" (test_range BTC_only)
           flat_data BTC_only).
  destruct flat_trial_score as (s & Hs & Hgt).
  exists 5%nat, s. split; [apply elem_of_range; lia | by split].
Defined.

(** ** The exported mapping *)

(** X18 (data_processor.py, lines 54-92; data_processor.py, lines 310-356).
    fetch_crypto_data fails exactly when the download fails or the aligned
    frame has fewer than 365 rows, and run_full_analysis then returns the
    empty dict; otherwise the returned mapping has exactly the four strategy
    keys and 'metadata', whose data_points is the number of rows and whose
    version is '2.0.0'. *)
Theorem run_full_analysis_shape (env : run_env)
    (completed : strategy_type -> list nat) (download : option dataset) :
  (fetch_crypto_data download = None <->
   download = None \/ exists df, download = Some df /\ (length df < 365)%nat) /\
  (fetch_crypto_data download = None ->
   run_full_analysis env completed download = ∅) /\
  (forall data, fetch_crypto_data download = Some data ->
     download = Some data /\ (365 <= length data)%nat /\
     (forall k, is_Some (run_full_analysis env completed download !! k)
                <-> k ∈ exported_keys) /\
     run_full_analysis env completed download !! "metadata" =
       Some (EMetadata (now env) (length data) (analysis_period env) "2.0.0")).
Proof.
  split; [|split].
  - unfold fetch_crypto_data. destruct download as [df|]; cbn [mbind option_bind].
    + case_bool_decide; split; try done.
      * intros _. right. eauto.
      * intros [|(df' & [= <-] & Hlen)]; [done | lia].
    + split; [by left | done].
  - intros H. unfold run_full_analysis. by rewrite H.
  - intros data Hfetch.
    assert (Hd : download = Some data /\ (365 <= length data)%nat).
    { unfold fetch_crypto_data in Hfetch.
      destruct download as [df|]; cbn [mbind option_bind] in Hfetch; [|done].
      case_bool_decide; [done|]. injection Hfetch as <-. split; [done | lia]. }
    destruct Hd as [Hd Hlen]. split; [done|]. split; [done|]. split.
    + intros k. unfold run_full_analysis. rewrite Hfetch.
      cbn [foldl strategy_order strategy_key]. unfold exported_keys.
      rewrite <- elem_of_dom. rewrite !dom_insert_L, dom_empty_L. set_solver.
    + by apply run_full_analysis_metadata.
Qed.

Lemma run_full_analysis_shape_witness :
  run_full_analysis env0 btc_times_out (Some flat_data) = ∅ /\
  is_Some (run_full_analysis env0 btc_times_out (Some flat_year) !! "ETH_only").
Proof.
  destruct (run_full_analysis_shape env0 btc_times_out (Some flat_data))
    as (_ & Hempty & _).
  destruct (run_full_analysis_shape env0 btc_times_out (Some flat_year))
    as (_ & _ & Hfull).
  split.
  - apply Hempty. vm_compute. reflexivity.
  - destruct (Hfull flat_year) as (_ & _ & Hkeys & _); [vm_compute; reflexivity|].
    apply Hkeys. unfold exported_keys. set_solver.
Defined.

(** ** Configuration *)

(** X20 (config.py, lines 16-43; config.py, lines 158-178;
    data_processor.py, lines 42-47; data_processor.py, lines 262-266;
    data_processor.py, lines 173-176).  For each of the four strategies,
    Config agrees with the analyzer: get_ma_range gives the bounds of the
    window range that find_optimal_ma sweeps, get_weights the weights the
    backtest uses, is_rebalancing_strategy holds exactly for the two
    rebalancing strategies, and the configured name is the analyzer's
    strategy name. *)
Theorem config_agrees_with_optimizer (st : strategy_type) :
  test_range st =
    range (Config.get_ma_range (strategy_key st)).1
          (S (Config.get_ma_range (strategy_key st)).2) /\
  Config.is_rebalancing_strategy (strategy_key st) = is_rebalance st /\
  Config.get_weights (strategy_key st) =
    (if is_rebalance st then [(weights st).1; (weights st).2] else [1]) /\
  (exists c, Config.get_strategy_config (strategy_key st) = Some c /\
             Config.cfg_name c = strategies st).
Proof.
  destruct st; (split; [reflexivity|]); (split; [reflexivity|]);
    (split; [reflexivity|]); eexists; split; reflexivity.
Qed.

(** X21 (config.py, lines 158-173).  For a name that is not one of the four
    strategy keys, get_strategy_config finds no entry, get_ma_range returns
    (5, 100) and get_weights returns [1.0]; no lookup raises. *)
Theorem config_defaults (name : string) :
  name ∉ strategy_key <$> strategy_order ->
  Config.get_strategy_config name = None /\
  Config.get_ma_range name = (5, 100)%nat /\
  Config.get_weights name = [1].
Proof.
  intros Hname. cbn [strategy_order fmap list_fmap strategy_key] in Hname.
  rewrite !not_elem_of_cons in Hname.
  destruct Hname as (H1 & H2 & H3 & H4 & _).
  assert (Hnone : Config.get_strategy_config name = None).
  { unfold Config.get_strategy_config, Config.STRATEGIES.
    by rewrite !lookup_insert_ne by congruence. }
  unfold Config.get_ma_range, Config.get_weights. by rewrite Hnone.
Qed.

Lemma config_defaults_witness : Config.get_ma_range "BTC_ETH" = (5, 100)%nat.
Proof.
  apply (config_defaults "BTC_ETH").
  cbn [strategy_order fmap list_fmap strategy_key].
  rewrite !not_elem_of_cons. repeat split; try discriminate.
  apply not_elem_of_nil.
Defined.

Lemma Qgeb_true (x y : Q) : Config.Qgeb x y = true <-> y <= x.
Proof. apply Qleb_true. Qed.

Lemma Qgeb_false (x y : Q) : Config.Qgeb x y = false <-> x < y.
Proof.
  unfold Config.Qgeb. rewrite <- not_true_iff_false, Qleb_true. split.
  - apply Qnot_le_lt.
  - apply Qlt_not_le.
Qed.

(** X22 (config.py, lines 180-190).  get_risk_level is monotone: a Sharpe
    ratio and a maximum drawdown that are both at least as good never give a
    higher risk level. *)
Theorem risk_level_monotone (s m s' m' : Q) :
  s <= s' -> m <= m' ->
  (risk_rank (Config.get_risk_level s' m') <= risk_rank (Config.get_risk_level s m))%nat.
Proof.
  intros Hs Hm. unfold Config.get_risk_level.
  split_geb; cbn [andb]; try (vm_compute; lia); exfalso;
    rewrite ?Qgeb_true, ?Qgeb_false in *; Lqa.lra.
Qed.

Lemma risk_level_monotone_witness :
  (risk_rank (Config.get_risk_level 2.5 (-0.2))
   <= risk_rank (Config.get_risk_level 1.2 (-0.45)))%nat.
Proof. apply (risk_level_monotone 1.2 (-0.45) 2.5 (-0.2)); discriminate. Defined.

(** X23 (config.py, lines 133-137; config.py, lines 192-202).
    get_performance_grade is monotone in the CAGR: a CAGR that is at least
    as high never gives a worse grade. *)
Theorem performance_grade_monotone (c c' : Q) :
  c <= c' ->
  (grade_rank (Config.get_performance_grade c')
   <= grade_rank (Config.get_performance_grade c))%nat.
Proof.
  intros Hc. unfold Config.get_performance_grade, Config.excellent_cagr,
    Config.good_cagr, Config.acceptable_cagr.
  split_geb; try (vm_compute; lia); exfalso;
    rewrite ?Qgeb_true, ?Qgeb_false in *; Lqa.lra.
Qed.

Lemma performance_grade_monotone_witness :
  (grade_rank (Config.get_performance_grade 0.35)
   <= grade_rank (Config.get_performance_grade 0.15))%nat.
Proof. apply (performance_grade_monotone 0.15 0.35). discriminate. Defined.

(** ** Scheduler *)

Lemma run_analysis_max_errors (s : Scheduler.scheduler) results clock :
  Scheduler.max_errors (Scheduler.run_analysis s results clock).1
    = Scheduler.max_errors s.
Proof.
  unfold Scheduler.run_analysis. repeat case_bool_decide; reflexivity.
Qed.

Lemma run_all_snoc s runs run :
  run_all s (runs ++ [run]) =
    (Scheduler.run_analysis (run_all s runs) run.1 run.2).1.
Proof. unfold run_all. by rewrite foldl_app. Qed.

Lemma trailing_failures_snoc runs run :
  trailing_failures (runs ++ [run]) =
    if succeeded run then 0%nat else S (trailing_failures runs).
Proof.
  induction runs as [|r runs IH].
  - simpl. by destruct (succeeded run).
  - cbn [app trailing_failures]. rewrite forallb_app, IH. cbn [forallb].
    destruct (succeeded run); cbn [negb andb].
    + by rewrite andb_false_r.
    + rewrite !andb_true_r.
      destruct (forallb (fun r0 => negb (succeeded r0)) runs); [|done].
      destruct (succeeded r); lia.
Qed.

Lemma run_analysis_fields (s : Scheduler.scheduler) results clock :
  let out := Scheduler.run_analysis s results clock in
  Scheduler.update_count out.1 =
    (if bool_decide (results = ∅) then Scheduler.update_count s
     else S (Scheduler.update_count s)) /\
  Scheduler.error_count out.1 =
    (if bool_decide (results = ∅) then S (Scheduler.error_count s) else 0%nat) /\
  Scheduler.last_update out.1 =
    (if bool_decide (results = ∅) then Scheduler.last_update s else Some clock) /\
  out.2 =
    negb (bool_decide (results = ∅) &&
          bool_decide (Scheduler.max_errors s <= S (Scheduler.error_count s))%nat).
Proof.
  unfold Scheduler.run_analysis. cbv zeta.
  cbn [Scheduler.max_errors Scheduler.error_count].
  repeat case_bool_decide; done.
Qed.

Lemma scheduler_counters_aux (runs : list (gmap string entry * Scheduler.datetime)) :
  Scheduler.error_count (run_all Scheduler.init runs) = trailing_failures runs /\
  Scheduler.max_errors (run_all Scheduler.init runs) = 5%nat.
Proof.
  induction runs as [|run runs [He Hm]] using rev_ind; [done|].
  rewrite run_all_snoc, trailing_failures_snoc, run_analysis_max_errors.
  split; [|done].
  destruct (run_analysis_fields (run_all Scheduler.init runs) run.1 run.2)
    as (_ & -> & _). unfold succeeded.
  case_bool_decide; cbn [negb]; [by rewrite He | done].
Qed.

(** X24 (scheduler.py, lines 39-45; scheduler.py, lines 47-100).  After any
    sequence of runs of a new scheduler, update_count is the number of runs
    whose result was not empty, error_count is the number of failed runs
    since the last successful one, max_errors is still 5 and last_update is
    the clock of the last successful run (None if there is none). *)
Theorem scheduler_counters (runs : list (gmap string entry * Scheduler.datetime)) :
  let s := run_all Scheduler.init runs in
  Scheduler.update_count s = length (List.filter succeeded runs) /\
  Scheduler.error_count s = trailing_failures runs /\
  Scheduler.max_errors s = 5%nat /\
  Scheduler.last_update s = snd <$> last (List.filter succeeded runs).
Proof.
  induction runs as [|run runs IH] using rev_ind; [done|].
  cbv zeta in *. rewrite run_all_snoc, trailing_failures_snoc, List.filter_app.
  destruct IH as (Hu & He & Hm & Hl).
  set (s := run_all Scheduler.init runs) in *.
  destruct (run_analysis_fields s run.1 run.2) as (Hu' & He' & Hl' & _).
  cbv zeta in Hu', He', Hl'.
  rewrite Hu', He', Hl', run_analysis_max_errors. cbn [List.filter].
  change (succeeded run) with (negb (bool_decide (run.1 = ∅))).
  case_bool_decide as Hres; cbn [negb].
  - rewrite app_nil_r. repeat split; try done. lia.
  - rewrite length_app, last_snoc. cbn [length]. repeat split; try done. lia.
Qed.

(** X25 (scheduler.py, lines 47-100; scheduler.py, lines 241-244;
    scheduler.py, lines 327-329).  run_analysis returns False exactly when
    its result is empty and the four runs before it failed in a row as well;
    in particular a single run of a new scheduler returns True even when the
    analysis fails, so 'run once' exits with code 0. *)
Theorem run_analysis_flag (runs : list (gmap string entry * Scheduler.datetime))
    (results : gmap string entry) (clock : Scheduler.datetime) :
  ((Scheduler.run_analysis (run_all Scheduler.init runs) results clock).2 = false
   <-> results = ∅ /\ (4 <= trailing_failures runs)%nat) /\
  ((trailing_failures runs < 4)%nat ->
   Scheduler.exit_code
     (Scheduler.run_analysis (run_all Scheduler.init runs) results clock).2 = 0%Z) /\
  Scheduler.exit_code (Scheduler.run_analysis Scheduler.init results clock).2 = 0%Z.
Proof.
  assert (Hflag : forall runs,
            (Scheduler.run_analysis (run_all Scheduler.init runs) results clock).2
              = false
            <-> results = ∅ /\ (4 <= trailing_failures runs)%nat).
  { intros rs. destruct (scheduler_counters_aux rs) as (He & Hm).
    destruct (run_analysis_fields (run_all Scheduler.init rs) results clock)
      as (_ & _ & _ & ->).
    rewrite He, Hm. rewrite negb_false_iff, andb_true_iff.
    rewrite !bool_decide_eq_true. split; intros [? ?]; split; try done; lia. }
  assert (Hexit : forall rs, (trailing_failures rs < 4)%nat ->
            Scheduler.exit_code
              (Scheduler.run_analysis (run_all Scheduler.init rs) results clock).2
              = 0%Z).
  { intros rs Hlt.
    destruct (Scheduler.run_analysis (run_all Scheduler.init rs) results clock).2
      eqn:E; [done|].
    apply Hflag in E as [_ E]. lia. }
  split; [apply Hflag|]. split; [apply Hexit|].
  apply (Hexit []). simpl. lia.
Qed.

Lemma run_analysis_flag_witness :
  Scheduler.exit_code
    (Scheduler.run_analysis
       (run_all Scheduler.init [(∅, {| Scheduler.dt_date := 1; Scheduler.dt_time := 0 |})])
       ∅ {| Scheduler.dt_date := 2; Scheduler.dt_time := 0 |}).2 = 0%Z.
Proof.
  apply (run_analysis_flag
           [(∅, {| Scheduler.dt_date := 1; Scheduler.dt_time := 0 |})]).
  vm_compute. lia.
Defined.

Lemma run_full_analysis_nonempty (env : run_env)
    (completed : strategy_type -> list nat) (download : option dataset) :
  run_full_analysis env completed download = ∅
  <-> fetch_crypto_data download = None.
Proof.
  split.
  - intros Hempty. destruct (fetch_crypto_data download) as [data|] eqn:Hf; [|done].
    pose proof (run_full_analysis_metadata env completed download data Hf) as Hm.
    by rewrite Hempty, lookup_empty in Hm.
  - intros Hf. unfold run_full_analysis. by rewrite Hf.
Qed.

(** X26 (scheduler.py, lines 47-100; data_processor.py, lines 310-356).
    Composed with run_full_analysis, a scheduler run counts as an update
    (last_update set, update_count incremented, error_count reset, flag
    True) as soon as the data fetch succeeds, even if every sweep fell back
    to its defaults; when the fetch fails only error_count grows. *)
Theorem update_succeeds_iff_data_fetched (env : run_env)
    (completed : strategy_type -> list nat) (download : option dataset)
    (s : Scheduler.scheduler) (clock : Scheduler.datetime) :
  let out :=
    Scheduler.run_analysis s (run_full_analysis env completed download) clock in
  (is_Some (fetch_crypto_data download) ->
   out = ({| Scheduler.last_update := Some clock;
             Scheduler.update_count := S (Scheduler.update_count s);
             Scheduler.error_count := 0;
             Scheduler.max_errors := Scheduler.max_errors s |}, true)) /\
  (fetch_crypto_data download = None ->
   Scheduler.last_update out.1 = Scheduler.last_update s /\
   Scheduler.update_count out.1 = Scheduler.update_count s /\
   Scheduler.error_count out.1 = S (Scheduler.error_count s)).
Proof.
  cbv zeta. split.
  - intros [data Hf]. unfold Scheduler.run_analysis.
    rewrite bool_decide_eq_false_2; [done|].
    rewrite run_full_analysis_nonempty. by rewrite Hf.
  - intros Hf.
    destruct (run_analysis_fields s (run_full_analysis env completed download) clock)
      as (-> & -> & -> & _).
    rewrite bool_decide_eq_true_2 by (by apply run_full_analysis_nonempty). done.
Qed.

Lemma update_succeeds_iff_data_fetched_witness :
  Scheduler.run_analysis Scheduler.init
    (run_full_analysis env0 (fun _ => []) (Some flat_year))
    {| Scheduler.dt_date := 7; Scheduler.dt_time := 540 |}
  = ({| Scheduler.last_update :=
          Some {| Scheduler.dt_date := 7; Scheduler.dt_time := 540 |};
        Scheduler.update_count := 1;
        Scheduler.error_count := 0;
        Scheduler.max_errors := 5 |}, true).
Proof.
  apply (update_succeeds_iff_data_fetched env0 (fun _ => []) (Some flat_year)
           Scheduler.init).
  vm_compute. eauto.
Defined.

(** X27 (scheduler.py, lines 267-284; scheduler.py, lines 47-100).  When an
    update is due and the analysis succeeds, check_and_update records the
    clock and no further update is due on the same day; when the analysis
    fails, last_update is unchanged, so the update stays due exactly as
    before. *)
Theorem one_update_per_day (s : Scheduler.scheduler)
    (now clock now' : Scheduler.datetime) (ut : nat)
    (results : gmap string entry) :
  Scheduler.should_update s now (Some ut) = Some true ->
  (results <> ∅ ->
   (Scheduler.dt_date now' <= Scheduler.dt_date clock)%Z ->
   exists s',
     Scheduler.check_and_update s now (Some ut) results clock = Some (s', true) /\
     Scheduler.should_update s' now' (Some ut) = Some false) /\
  (results = ∅ ->
   exists s' flag,
     Scheduler.check_and_update s now (Some ut) results clock = Some (s', flag) /\
     Scheduler.should_update s' now' (Some ut)
       = Scheduler.should_update s now' (Some ut)).
Proof.
  intros Hdue. unfold Scheduler.check_and_update. rewrite Hdue.
  cbn [mbind option_bind]. split.
  - intros Hres Hday. eexists. split.
    + unfold Scheduler.run_analysis. by rewrite bool_decide_eq_false_2.
    + unfold Scheduler.should_update. cbn [mbind option_bind Scheduler.last_update].
      rewrite (bool_decide_eq_false_2 (_ < _)%Z) by lia.
      by rewrite andb_false_r.
  - intros ->.
    destruct (Scheduler.run_analysis s ∅ clock) as [s' flag] eqn:E.
    exists s', flag. split; [done|].
    pose proof (run_analysis_fields s ∅ clock) as (_ & _ & Hl & _).
    rewrite E in Hl. cbn [fst] in Hl.
    rewrite bool_decide_eq_true_2 in Hl by done.
    unfold Scheduler.should_update. by rewrite Hl.
Qed.

Lemma one_update_per_day_witness :
  exists s',
    Scheduler.check_and_update Scheduler.init
      {| Scheduler.dt_date := 7; Scheduler.dt_time := 545 |} (Some 540%nat)
      (run_full_analysis env0 (fun _ => []) (Some flat_year))
      {| Scheduler.dt_date := 7; Scheduler.dt_time := 550 |} = Some (s', true) /\
    Scheduler.should_update s'
      {| Scheduler.dt_date := 7; Scheduler.dt_time := 900 |} (Some 540%nat)
      = Some false.
Proof.
  apply (one_update_per_day Scheduler.init
           {| Scheduler.dt_date := 7; Scheduler.dt_time := 545 |}
           {| Scheduler.dt_date := 7; Scheduler.dt_time := 550 |}
           {| Scheduler.dt_date := 7; Scheduler.dt_time := 900 |} 540).
  - vm_compute. reflexivity.
  - rewrite run_full_analysis_nonempty. vm_compute. discriminate.
  - simpl. lia.
Defined.

(** ** Dashboard *)

(** X28 (enhanced_app.py, lines 124-136; data_processor.py, lines 223-236).
    Every label the backtest can produce gets a coloured card: the two buy
    labels (ratio above 1) get 'buy-signal', the two sell labels get 'sell-
    signal'; 'hold-signal' is only reached by other strings such as the
    default 'N/A'. *)
Theorem signal_card_class (ratio : Q) :
  (1 < ratio ->
   Dashboard.card_class (current_signal_of ratio) = "buy-signal") /\
  (ratio <= 1 ->
   Dashboard.card_class (current_signal_of ratio) = "sell-signal") /\
  Dashboard.card_class "N/A" = "hold-signal".
Proof.
  split; [|split].
  - intros H. destruct (Qlt_le_dec 1.02 ratio) as [Hs|Hw].
    + by rewrite classify_strong_buy.
    + by rewrite classify_weak_buy.
  - intros H. destruct (Qlt_le_dec ratio 0.98) as [Hs|Hw].
    + by rewrite classify_strong_sell.
    + by rewrite classify_weak_sell.
  - reflexivity.
Qed.

Lemma signal_card_class_witness :
  Dashboard.card_class (current_signal_of 1.5) = "buy-signal" /\
  Dashboard.card_class (current_signal_of 0.7) = "sell-signal".
Proof.
  split.
  - apply (signal_card_class 1.5). reflexivity.
  - apply (signal_card_class 0.7). discriminate.
Defined.

Lemma run_full_analysis_keys (env : run_env)
    (completed : strategy_type -> list nat) (download : option dataset)
    (k : string) :
  is_Some (run_full_analysis env completed download !! k) -> k ∈ exported_keys.
Proof.
  unfold run_full_analysis.
  destruct (fetch_crypto_data download) as [data|].
  - cbn [foldl strategy_order strategy_key]. unfold exported_keys.
    rewrite <- elem_of_dom. rewrite !dom_insert_L, dom_empty_L. set_solver.
  - rewrite lookup_empty. by intros [? ?].
Qed.

(** X29 (enhanced_app.py, lines 232-233; data_processor.py, lines 343-349).
    The mapping returned by run_full_analysis never has a top-level key
    'last_update' (the time of the run is stored under 'metadata'), so the
    header's data.get('last_update', now) always shows its fallback, the
    current time. *)
Theorem dashboard_header_falls_back (env : run_env)
    (completed : strategy_type -> list nat) (download : option dataset)
    (shown : string) :
  Dashboard.header_last_update (run_full_analysis env completed download) shown
    = inr shown /\
  (forall data, fetch_crypto_data download = Some data ->
     exists n p v,
       run_full_analysis env completed download !! "metadata"
         = Some (EMetadata (now env) n p v) /\
       entry_dict (EMetadata (now env) n p v) !! "last_update"
         = Some (PStr (now env))).
Proof.
  split.
  - unfold Dashboard.header_last_update.
    destruct (run_full_analysis env completed download !! "last_update")
      as [v|] eqn:E; [|done].
    assert (H : "last_update" ∈ exported_keys).
    { apply (run_full_analysis_keys env completed download). rewrite E. eauto. }
    unfold exported_keys in H. set_solver.
  - intros data Hf. do 3 eexists. split.
    + by apply run_full_analysis_metadata.
    + reflexivity.
Qed.

Lemma dashboard_header_falls_back_witness :
  exists n p v,
    run_full_analysis env0 btc_times_out (Some flat_year) !! "metadata"
      = Some (EMetadata "2024-01-01 09:00:00" n p v).
Proof.
  destruct (dashboard_header_falls_back env0 btc_times_out (Some flat_year) "now")
    as [_ H].
  destruct (H flat_year) as (n & p & v & Hm & _); [vm_compute; reflexivity|].
  by exists n, p, v.
Defined.

(** ** More finished trials *)

(** X17 (data_processor.py, lines 268-288; data_processor.py, lines
    298-298).  If every trial that finished in time in one run of the sweep
    also finishes in time in another run on the same data, the
    combined_score returned by the second run is not lower. *)
Theorem more_completions_never_lower_score (today : string)
    (completed completed' : list nat) (data : dataset) (st : strategy_type) :
  completed ⊆ completed' ->
  exists s s',
    combined_score (find_optimal_ma today completed data st) = Some s /\
    combined_score (find_optimal_ma today completed' data st) = Some s' /\
    (s <= s')%R.
Proof.
  intros Hsub.
  destruct (sweep_outcome today completed data st)
    as [(_ & Hs & _)|(s & Hs & Hgt & i & Hi & Hsc & _)];
  destruct (sweep_outcome today completed' data st)
    as [(_ & Hs' & _ & Hall')|(s' & Hs' & Hgt' & i' & Hi' & Hsc' & Hmax' & _)].
  - exists floor_score, floor_score. split; [done|]. split; [done | lra].
  - exists floor_score, s'. split; [done|]. split; [done | lra].
  - exists s, floor_score. split; [done|]. split; [done|].
    apply trial_score_completed in Hsc as [Hin Hsame].
    eapply Hall'; [eapply list_elem_of_lookup_2; exact Hi|].
    apply Hsame. by apply Hsub.
  - exists s, s'. split; [done|]. split; [done|].
    apply trial_score_completed in Hsc as [Hin Hsame].
    eapply Hmax'; [eapply list_elem_of_lookup_2; exact Hi|].
    apply Hsame. by apply Hsub.
Qed.

Lemma more_completions_never_lower_score_witness :
  exists s s',
    combined_score (find_optimal_ma "2024-01-01" [5%nat] flat_data BTC_only) = Some s /\
    combined_score (find_optimal_ma "2024-01-01" [5%nat; 6%nat] flat_data BTC_only)
      = Some s' /\
    (s <= s')%R.
Proof.
  apply (more_completions_never_lower_score "2024-01-01" [5%nat] [5%nat; 6%nat]
           flat_data BTC_only).
  intros w Hw. apply list_elem_of_singleton in Hw as ->. by left.
Defined.

(** ** The download loop *)

(** X19 (data_processor.py, lines 59-70).  The download loop of
    fetch_crypto_data makes at most three attempts: it yields the frames of
    the first attempt that does not raise, having slept once per earlier
    failure, and it gives up, after two sleeps, exactly when the first three
    attempts all raise; later attempts are never made. *)
Theorem download_retry_spec {A} (attempt_result : nat -> option A) :
  let out := Download.download_with_retry attempt_result in
  (forall frames sleeps,
     out = (Some frames, sleeps) <->
     (sleeps < 3)%nat /\ attempt_result sleeps = Some frames /\
     forall j, (j < sleeps)%nat -> attempt_result j = None) /\
  (forall sleeps,
     out = (None, sleeps) <->
     sleeps = 2%nat /\ forall j, (j < 3)%nat -> attempt_result j = None).
Proof.
  intros out. subst out.
  unfold Download.download_with_retry, Download.max_retries.
  cbn [seq Download.retry_loop].
  assert (Hcases : forall j, (j < 3)%nat -> j = 0%nat \/ j = 1%nat \/ j = 2%nat)
    by (intros; lia).
  destruct (attempt_result 0%nat) as [x0|] eqn:H0;
    [|destruct (attempt_result 1%nat) as [x1|] eqn:H1;
      [|destruct (attempt_result 2%nat) as [x2|] eqn:H2]];
    rewrite ?bool_decide_eq_false_2 by (unfold Download.max_retries; lia);
    rewrite ?bool_decide_eq_true_2 by reflexivity.
  all: split; [intros frames sleeps|intros sleeps]; split.
  all: try (intros [= <- <-]); try (intros [= <-]); try (intros [=]).
  all: try (split; [lia|]; split; [done|]; intros j Hj;
            destruct (Hcases j) as [->|[->| ->]]; try lia; done).
  all: try (split; [done|]; intros j Hj;
            destruct (Hcases j) as [->|[->| ->]]; try lia; done).
  all: try (intros (Hlt & Hk & Hall)).
  all: try (intros (-> & Hall)).
  all: try (rewrite (Hall 0%nat) in H0 by lia; discriminate).
  all: try (rewrite (Hall 1%nat) in H1 by lia; discriminate).
  all: try (rewrite (Hall 2%nat) in H2 by lia; discriminate).
  all: try (destruct (Hcases sleeps Hlt) as [->|[->| ->]];
            try (rewrite (Hall 0%nat) in H0 by lia; discriminate);
            try (rewrite (Hall 1%nat) in H1 by lia; discriminate);
            try (rewrite (Hall 2%nat) in H2 by lia; discriminate);
            congruence).
  all: try done.
Qed.

(** ** The performance chart *)

(** X30 (enhanced_app.py, lines 156-166; data_processor.py, lines 322-338).
    No entry of the mapping returned by run_full_analysis has a key
    'cumulative_returns' (the curve of a winning trial is stored one level
    down, under 'backtest_data'), so the condition of
    create_performance_chart never holds and the chart gets no line. *)
Theorem chart_has_no_trace (env : run_env)
    (completed : strategy_type -> list nat) (download : option dataset) :
  (forall strategy,
     Dashboard.has_trace (run_full_analysis env completed download) strategy = false) /\
  (forall data st,
     fetch_crypto_data download = Some data ->
     (exists w s, w ∈ test_range st /\
        trial_score (completed st) data st w = Some s /\ (s > -999)%R) ->
     exists r curve,
       run_full_analysis env completed download !! strategy_key st
         = Some (EStrategy r) /\
       entry_dict (EStrategy r) !! "backtest_data" = Some (PDict (backtest_data r)) /\
       backtest_data r !! "cumulative_returns" = Some (PList curve)).
Proof.
  split.
  - intros strategy. unfold Dashboard.has_trace.
    destruct (_ !! strategy) as [e|]; [|done].
    unfold has_key. apply bool_decide_eq_false_2. intros [v Hv].
    destruct e; unfold entry_dict in Hv;
      rewrite !lookup_insert_ne in Hv by discriminate; done.
  - intros data st Hfetch Hwin.
    pose proof (run_full_analysis_lookup env completed download data st Hfetch) as Hr.
    destruct (winning_trial_data (today env) (completed st) data st Hwin)
      as (_ & Hne & Hres & _).
    set (r := find_optimal_ma (today env) (completed st) data st) in *.
    destruct (backtest_body_result _ _ _ _
                (backtest_body_eq data (optimal_ma r) st Hne))
      as (cp & cma & _ & _ & Hbody).
    rewrite <- Hres in Hbody.
    eexists _, _. split; [exact Hr|]. split.
    + unfold entry_dict. by lookup_insert_tac.
    + rewrite Hbody. by lookup_insert_tac.
Qed.

Lemma chart_has_no_trace_witness :
  Dashboard.has_trace (run_full_analysis env0 btc_times_out (Some flat_year)) "ETH_only"
    = false.
Proof.
  destruct (chart_has_no_trace env0 btc_times_out (Some flat_year)) as [H _].
  apply H.
Defined.
